(** * Infrastructure reconnaissance and attack-surface risk scoring

    A shallow embedding of the server-side part of
    [phishing-app/app/app/page.tsx]: the WHOIS response parser, the
    risk scoring engine ([calculateInfrastructureRisks]), the
    attack-surface extractor ([extractTop5AttackSurfaces]), the four
    lookup adapters and the request handler [POST].

    Conventions of the embedding.
    - A JavaScript string is a [string]; the embedding is exact for
      ASCII text. [toLowerCase] maps [A-Z] to [a-z], [trim] removes the
      ASCII white space characters (codes 9-13 and 32).
    - A JavaScript object built key by key (the WHOIS record) is a
      [gmap string JsVal]; objects with a declared shape are records
      whose optional members are [option]s ([None] is [undefined]).
    - A number that is an integer in every run is a [Z]. The [weight]
      members, which are multiples of 0.01, are stored in hundredths.
    - A rejected promise or a thrown exception is [None]; [try]/[catch]
      is the [match] on it.
    - The outside world (resolver, sockets, [fetch], the clock) is a
      record [World] of functions; every call to it is also recorded in
      a trace of [Event]s. *)

From Stdlib Require Import ZArith QArith String Ascii List Lia DecimalString Sorted.
From stdpp Require Import gmap strings list fin_maps.

Open Scope string_scope.
Open Scope Z_scope.

(** ** JavaScript string primitives *)

Definition is_upper (c : ascii) : bool :=
  let n := nat_of_ascii c in (Nat.leb 65 n && Nat.leb n 90)%bool.

Definition lower_char (c : ascii) : ascii :=
  if is_upper c then ascii_of_nat (nat_of_ascii c + 32) else c.

(** [s.toLowerCase()], on a string of ASCII characters: the letters A
    to Z are lowered. The statements that depend on the characters of a
    lowered text take it as [ascii_text]. *)
Fixpoint toLowerCase (s : string) : string :=
  match s with
  | EmptyString => EmptyString
  | String c s' => String (lower_char c) (toLowerCase s')
  end.

(** White space removed by [trim]: TAB, LF, VT, FF, CR and SPACE, which
    is all the white space there is among the ASCII characters. *)
Definition is_space (c : ascii) : bool :=
  let n := nat_of_ascii c in ((Nat.leb 9 n && Nat.leb n 13) || Nat.eqb n 32)%bool.

(** [!s] for a string: only the empty string is falsy. *)
Definition str_empty (s : string) : bool :=
  match s with EmptyString => true | String _ _ => false end.

Fixpoint trimStart (s : string) : string :=
  match s with
  | EmptyString => EmptyString
  | String c s' => if is_space c then trimStart s' else s
  end.

Fixpoint trimEnd (s : string) : string :=
  match s with
  | EmptyString => EmptyString
  | String c s' =>
      let t := trimEnd s' in
      if (is_space c && str_empty t)%bool then EmptyString else String c t
  end.

(** [s.trim()], on a string of ASCII characters. *)
Definition trim (s : string) : string := trimEnd (trimStart s).

(** A string of ASCII characters: every code is below 128. On such a
    string [trim] and [toLowerCase] are those of JavaScript. *)
Definition ascii_text (s : string) : bool :=
  forallb (fun c => Nat.ltb (nat_of_ascii c) 128) (list_ascii_of_string s).

(** [s.startsWith(p)] *)
Fixpoint startsWith (s p : string) : bool :=
  match p, s with
  | EmptyString, _ => true
  | String _ _, EmptyString => false
  | String a p', String b s' => (Ascii.eqb a b && startsWith s' p')%bool
  end.

(** [s.includes(needle)] *)
Fixpoint includes (s needle : string) : bool :=
  (startsWith s needle ||
   match s with
   | EmptyString => false
   | String _ s' => includes s' needle
   end)%bool.

(** [s.indexOf(needle)]; [None] stands for -1. *)
Fixpoint indexOf (s needle : string) : option nat :=
  if startsWith s needle then Some O
  else match s with
       | EmptyString => None
       | String _ s' => option_map S (indexOf s' needle)
       end.

(** [s.substring(0, n)] *)
Fixpoint str_take (n : nat) (s : string) : string :=
  match n, s with
  | O, _ => EmptyString
  | S _, EmptyString => EmptyString
  | S n', String c s' => String c (str_take n' s')
  end.

(** [s.substring(n)] *)
Fixpoint str_drop (n : nat) (s : string) : string :=
  match n, s with
  | O, _ => s
  | S _, EmptyString => EmptyString
  | S n', String _ s' => str_drop n' s'
  end.

(** [s.split(sep)] for a separator of one character, as every call of
    the source has it. The result is never empty. *)
Fixpoint split (sep : ascii) (s : string) : list string :=
  match s with
  | EmptyString => [EmptyString]
  | String c s' =>
      if Ascii.eqb c sep then EmptyString :: split sep s'
      else match split sep s' with
           | h :: t => String c h :: t
           | [] => [String c EmptyString]
           end
  end.

(** [parts.join("")] *)
Definition join_empty (parts : list string) : string :=
  fold_right String.append EmptyString parts.

(** [parts.join(", ")] and the like. *)
Fixpoint join (sep : string) (parts : list string) : string :=
  match parts with
  | [] => EmptyString
  | [p] => p
  | p :: rest => p ++ sep ++ join sep rest
  end.

(** Decimal rendering of an integer inside a template literal. *)
Definition string_of_Z (z : Z) : string := NilZero.string_of_int (Z.to_int z).

Definition LF : ascii := ascii_of_nat 10.

(** [!!o] for an optional string member. *)
Definition truthy_str (o : option string) : bool :=
  match o with
  | Some s => negb (str_empty s)
  | None => false
  end.

(** [a || b] on optional strings. *)
Definition or_str (a b : option string) : option string :=
  if truthy_str a then a else b.

(** ** WHOIS response parser *)

(** Values stored in the record built by [parseWhoisResponse]. *)
Inductive JsVal : Type :=
| VStr (s : string)
| VList (l : list string).

Definition truthy_val (v : JsVal) : bool :=
  match v with
  | VStr s => negb (str_empty s)
  | VList _ => true
  end.

(** [if (c) result.k = value] *)
Definition set_if (c : bool) (k value : string) (result : gmap string JsVal)
  : gmap string JsVal :=
  if c then <[k := VStr value]> result else result.

(** [if (!result.k) result.k = []; result.k.push(value)].
    [None] is the TypeError of calling [push] on something that is not
    an array. *)
Definition push_field (k value : string) (result : gmap string JsVal)
  : option (gmap string JsVal) :=
  let result1 :=
    match result !! k with
    | Some v => if truthy_val v then result else <[k := VList []]> result
    | None => <[k := VList []]> result
    end in
  match result1 !! k with
  | Some (VList l) => Some (<[k := VList (l ++ [value])]> result1)
  | _ => None
  end.

Definition push_if (c : bool) (k value : string) (result : gmap string JsVal)
  : option (gmap string JsVal) :=
  if c then push_field k value result else Some result.

(** The chain of [if] statements of the loop body, from
    "Map various WHOIS field names to standard keys" on. *)
Definition route (key value : string) (result : gmap string JsVal)
  : option (gmap string JsVal) :=
  let has := includes key in
  let r := set_if (has "domain name") "domain_name" value result in
  let r := set_if (has "registry domain id") "registry_domain_id" value r in
  let r := set_if (has "registrar whois server") "registrar_whois_server" value r in
  let r := set_if (has "registrar url" || String.eqb key "registrar url")
                  "registrar_url" value r in
  let r := set_if (String.eqb key "registrar" || (has "registrar" && has "name"))
                  "registrar" value r in
  let r := set_if (has "registrar abuse contact email") "registrar_abuse_email" value r in
  let r := set_if (has "registrar abuse contact phone") "registrar_abuse_phone" value r in
  let r := set_if (has "reseller") "reseller_name" value r in
  let r := set_if (has "creation date" || has "created") "creation_date" value r in
  let r := set_if (has "expir" && (has "date" || has "expir")) "expiration_date" value r in
  let r := set_if (has "updated" && has "date") "updated_date" value r in
  let r := set_if (has "last modified") "last_modified" value r in
  let r := set_if (has "registrant" && has "name") "registrant_name" value r in
  let r := set_if (has "registrant" && has "id") "registrant_id" value r in
  let r := set_if (has "registrant" && has "organization") "registrant_organization" value r in
  let r := set_if (has "registrant" && has "country") "registrant_country" value r in
  let r := set_if (has "registrant" && has "email") "registrant_email" value r in
  let r := set_if (has "registrant" && has "phone") "registrant_phone" value r in
  let r := set_if (has "admin" && has "name") "admin_name" value r in
  let r := set_if (has "admin" && has "id") "admin_id" value r in
  let r := set_if (has "admin" && has "email") "admin_email" value r in
  let r := set_if (has "tech" && has "name") "tech_name" value r in
  let r := set_if (has "tech" && has "id") "tech_id" value r in
  let r := set_if (has "tech" && has "email") "tech_email" value r in
  let r := set_if (has "billing" && has "name") "billing_name" value r in
  let r := set_if (has "billing" && has "id") "billing_id" value r in
  match push_if (has "name server" || has "nameserver") "nameservers" value r with
  | None => None
  | Some r =>
      match push_if (has "status") "status" value r with
      | None => None
      | Some r =>
          let r := set_if (has "status reason") "status_reason" value r in
          let r := set_if (has "dnssec") "dnssec" value r in
          let r := set_if (has "eligibility type") "eligibility_type" value r in
          Some r
      end
  end.

(** The lines that the loop skips with [continue] before it looks for
    the colon. *)
Definition skipped_line (trimmed : string) : bool :=
  (str_empty trimmed || startsWith trimmed "%" || startsWith trimmed ">")%bool.

(** One iteration of [for (const line of lines)]. *)
Definition parse_line (line : string) (result : gmap string JsVal)
  : option (gmap string JsVal) :=
  let trimmed := trim line in
  if skipped_line trimmed then Some result
  else
    match indexOf trimmed ":" with
    | None => Some result
    | Some colonIndex =>
        let key := toLowerCase (trim (str_take colonIndex trimmed)) in
        let value := trim (str_drop (S colonIndex) trimmed) in
        if str_empty value then Some result else route key value result
    end.

Fixpoint parse_lines (lines : list string) (result : gmap string JsVal)
  : option (gmap string JsVal) :=
  match lines with
  | [] => Some result
  | line :: rest =>
      match parse_line line result with
      | None => None
      | Some result' => parse_lines rest result'
      end
  end.

(** [parseWhoisResponse(whoisText)]; [None] would be an exception. *)
Definition parseWhoisResponse (whoisText : string) : option (gmap string JsVal) :=
  if str_empty whoisText then Some ∅
  else parse_lines (split LF whoisText) ∅.

(** Reading a member of the WHOIS record as the scoring code uses it:
    scalar members hold strings, [status] and [nameservers] hold
    arrays. *)
Definition str_member (k : string) (o : gmap string JsVal) : option string :=
  match o !! k with
  | Some (VStr s) => Some s
  | _ => None
  end.

Definition list_member (k : string) (o : gmap string JsVal) : option (list string) :=
  match o !! k with
  | Some (VList l) => Some l
  | _ => None
  end.

(** ** Data model: [InfrastructureData] *)

Record MxRecord : Type := {
  priority : Z;
  exchange : string
}.

Record MxDetail : Type := {
  mx_priority : Z;
  mx_exchange : string;
  mx_detail_provider : string
}.

(** [dnssec] is not a declared member of the [dns] section, but both
    scoring passes read [data.dns.dnssec]; the aggregator never sets it. *)
Record DnsSection : Type := {
  nameservers : option (list string);
  a_records : option (list string);
  aaaa_records : option (list string);
  mx_records : option (list MxRecord);
  txt_records : option (list string);
  soa_record : option string;
  ns_provider : option string;
  dnssec : option string
}.

Record IpWhois : Type := {
  asn : option string;
  organization : option string;
  isp : option string;
  country : option string;
  country_code : option string;
  continent : option string;
  city : option string;
  region : option string;
  latitude : option Q;
  longitude : option Q;
  is_vpn : option bool;
  is_proxy : option bool
}.

Record HostingSection : Type := {
  ip_address : option string;
  ipv6_addresses : option (list string);
  ip_whois : option IpWhois
}.

Record WebServerSection : Type := {
  server_header : option string;
  platform : option string;
  cdn_provider : option string
}.

Record EmailSection : Type := {
  mx_provider : option string;
  spf_record : option string;
  dmarc_record : option string;
  mx_details : option (list MxDetail)
}.

Record Metadata : Type := {
  data_sources : list string;
  collection_method : string;
  notes : option (list string);
  warnings : option (list string)
}.

Record InfrastructureData : Type := {
  domain : string;
  timestamp : string;
  domain_registration : option (gmap string JsVal);
  dns : option DnsSection;
  hosting : option HostingSection;
  web_server : option WebServerSection;
  email : option EmailSection;
  metadata : option Metadata
}.

Inductive Severity : Type := critical | high | medium | low | info.

(** [weight_pct] is [weight] in hundredths: [weight = weight_pct / 100]. *)
Record RiskScore : Type := {
  category : string;
  score : Z;
  severity : Severity;
  weight_pct : Z;
  findings : list string;
  attackVectors : list string
}.

(** [!!b] for an optional boolean member. *)
Definition truthy_bool (o : option bool) : bool :=
  match o with
  | Some b => b
  | None => false
  end.

(** An optional string inside a template literal. *)
Definition render (o : option string) : string :=
  match o with
  | Some s => s
  | None => "undefined"
  end.

(** ** Risk scoring engine *)

(** The three accumulators of a category: the running score, the
    findings and the attack vectors. *)
Record Tally : Type := {
  t_score : Z;
  t_findings : list string;
  t_vectors : list string
}.

Definition tally0 : Tally := {| t_score := 0; t_findings := []; t_vectors := [] |}.

(** [score += pts; findings.push(...fs); vectors.push(...vs)] *)
Definition bump (pts : Z) (fs vs : list string) (t : Tally) : Tally :=
  {| t_score := t_score t + pts;
     t_findings := t_findings t ++ fs;
     t_vectors := t_vectors t ++ vs |}.

(** [s > 70 ? "critical" : s > 40 ? "high" : s > 20 ? "medium" : "info"] *)
Definition severity_of (s : Z) : Severity :=
  if 70 <? s then critical
  else if 40 <? s then high
  else if 20 <? s then medium
  else info.

(** The object pushed on [risks] by the first four categories. *)
Definition risk_entry (cat : string) (t : Tally) : RiskScore :=
  {| category := cat;
     score := Z.min (t_score t) 100;
     severity := severity_of (t_score t);
     weight_pct := t_score t;
     findings := t_findings t;
     attackVectors := t_vectors t |}.

(** The Web Server entry: [weight: Math.max(webScore / 100, 0.1)]. *)
Definition web_risk_entry (t : Tally) : RiskScore :=
  {| category := "Web Server";
     score := Z.min (t_score t) 100;
     severity := severity_of (t_score t);
     weight_pct := Z.max (t_score t) 10;
     findings := t_findings t;
     attackVectors := t_vectors t |}.

Definition MS_PER_DAY : Z := 1000 * 60 * 60 * 24.
Definition MS_PER_YEAR : Z := 1000 * 60 * 60 * 24 * 365.

Section Scoring.

(** [Date.now()], in milliseconds. One reading stands for all the
    readings taken while one request is served. *)
Variable now : Z.

(** [new Date(s).getTime()]; [None] is NaN, the time of an invalid
    date. Every comparison with NaN is false. *)
Variable parseDate : string -> option Z.

(** [Math.floor((new Date(s).getTime() - Date.now()) / MS_PER_DAY)] *)
Definition daysUntilExpiry (s : string) : option Z :=
  match parseDate s with
  | Some t => Some ((t - now) / MS_PER_DAY)
  | None => None
  end.

(** [ageInYears < 1], with
    [ageInYears = (Date.now() - created.getTime()) / MS_PER_YEAR]. *)
Definition youngerThanOneYear (s : string) : bool :=
  match parseDate s with
  | Some t => now - t <? MS_PER_YEAR
  | None => false
  end.

Definition registrationRisk (regData : gmap string JsVal) : RiskScore :=
  let t := tally0 in
  let t :=
    match str_member "expiration_date" regData with
    | Some s =>
        if str_empty s then t
        else match daysUntilExpiry s with
             | Some d =>
                 if d <? 30 then
                   bump 25 ["Domain expires in " ++ string_of_Z d ++ " days - HIGH URGENCY"]
                           ["Domain renewal phishing"] t
                 else if d <? 90 then
                   bump 15 ["Domain expires in " ++ string_of_Z d ++ " days"]
                           ["Domain renewal notification"] t
                 else t
             | None => t
             end
    | None => t
    end in
  let t :=
    match str_member "creation_date" regData with
    | Some s =>
        if (negb (str_empty s) && youngerThanOneYear s)%bool then
          bump 20 ["Domain is very new (< 1 year old)"]
                  ["New domain registration phishing"] t
        else t
    | None => t
    end in
  let t :=
    match str_member "registrant_name" regData with
    | Some s =>
        if str_empty s then t
        else bump 10 ["Registrant publicly listed: " ++ s] ["Registrant impersonation"] t
    | None => t
    end in
  let t :=
    match str_member "registrant_email" regData with
    | Some s =>
        if str_empty s then t
        else bump 8 ["Registrant email exposed: " ++ s] ["Email-based social engineering"] t
    | None => t
    end in
  let t :=
    match str_member "registrar" regData with
    | Some s =>
        if str_empty s then t
        else bump 5 ["Registrar: " ++ s] ["Registrar spoofing attacks"] t
    | None => t
    end in
  let t :=
    match list_member "status" regData with
    | Some sts =>
        let problematicStatuses :=
          List.filter (fun s => negb (includes (toLowerCase s) "lock")) sts in
        match problematicStatuses with
        | [] => t
        | _ :: _ =>
            bump 15 ["Domain status issues: " ++ join ", " problematicStatuses]
                    ["Domain hijacking risk"] t
        end
    | None => t
    end in
  risk_entry "Domain Registration" t.

Definition NO_A_RECORDS : string :=
  "No A records found - site may be offline/misconfigured".

Definition dnsRisk (dnsData : DnsSection) : RiskScore :=
  let t := tally0 in
  let t :=
    match ns_provider dnsData with
    | Some p =>
        if str_empty p then t
        else if String.eqb p "ISP/Registrar Default" then
          bump 10 ["Using default/ISP nameservers - less secure"] ["DNS hijacking"] t
        else bump (-5) ["Using managed DNS: " ++ p] [] t
    | None => t
    end in
  let t :=
    if (negb (truthy_str (dnssec dnsData))
        || match dnssec dnsData with Some s => String.eqb s "unsigned" | None => false end)%bool
    then bump 20 ["DNSSEC not enabled - vulnerable to DNS spoofing"]
                 ["DNS spoofing attacks"; "Man-in-the-middle attacks"] t
    else bump (-10) ["DNSSEC enabled"] [] t in
  let t :=
    match nameservers dnsData with
    | Some ns =>
        if (length ns <? 2)%nat then
          bump 15 ["Only 1 nameserver - single point of failure"]
                  ["Single nameserver compromise"] t
        else bump 0 [string_of_Z (Z.of_nat (length ns)) ++ " nameservers configured"] [] t
    | None => t
    end in
  let t :=
    match a_records dnsData with
    | Some (_ :: _) => t
    | _ => bump 10 [NO_A_RECORDS] [] t
    end in
  risk_entry "DNS Security" t.

Definition emailRisk (emailData : EmailSection) : RiskScore :=
  let t := tally0 in
  let t :=
    if truthy_str (spf_record emailData) then bump (-10) ["SPF record configured"] [] t
    else bump 25 ["SPF record NOT configured - email spoofing possible"]
                 ["Email spoofing (high risk)"; "Registrar spoofing";
                  "Hosting provider phishing"] t in
  let t :=
    if truthy_str (dmarc_record emailData) then bump (-10) ["DMARC record configured"] [] t
    else bump 20 ["DMARC record NOT configured"] ["DMARC bypass phishing"] t in
  let t :=
    if match mx_provider emailData with
       | Some p => String.eqb p "Custom/Self-hosted"
       | None => false
       end
    then bump 15 ["Self-hosted email - higher compromise risk"]
                 ["Internal email system compromise"] t
    else bump 0 ["Email provider: " ++ render (mx_provider emailData)] [] t in
  let t :=
    match mx_details emailData with
    | Some l =>
        if (length l <? 2)%nat then
          bump 10 ["Only 1 MX record - single point of failure"] ["Email service failure"] t
        else t
    | None => t
    end in
  risk_entry "Email Security" t.

Definition hostingRisk (hostingData : HostingSection) : RiskScore :=
  let t := tally0 in
  let t :=
    match ip_whois hostingData with
    | Some ipWhois =>
        let t :=
          if truthy_bool (is_vpn ipWhois) then
            bump 20 ["Hosting on VPN - suspicious activity possible"]
                    ["Anonymized phishing hosting"] t
          else t in
        let t :=
          if truthy_bool (is_proxy ipWhois) then
            bump 15 ["Hosting behind proxy - possible malicious use"]
                    ["Proxy-based phishing"] t
          else t in
        let t :=
          if truthy_str (asn ipWhois) then
            bump 0 ["ASN: " ++ render (asn ipWhois)] ["ASN-based targeting"] t
          else t in
        let t :=
          match country ipWhois with
          | Some c =>
              if (negb (str_empty c) && negb (String.eqb c "United States"))%bool then
                bump 5 ["Hosted in: " ++ c ++ " - may indicate regional targeting"] [] t
              else t
          | None => t
          end in
        bump 0 ["Organization: " ++ render (or_str (organization ipWhois) (Some "Unknown"))]
             [] t
    | None => t
    end in
  risk_entry "Hosting Infrastructure" t.

Definition webRisk (webData : WebServerSection) : RiskScore :=
  let t := tally0 in
  let t :=
    if truthy_str (server_header webData) then
      bump 0 ["Server: " ++ render (server_header webData)] ["Server-specific exploits"] t
    else t in
  let t :=
    if truthy_str (cdn_provider webData) then
      bump (-5) ["CDN: " ++ render (cdn_provider webData) ++ " - provides DDoS protection"]
           [] t
    else if truthy_str (platform webData) then
      bump 5 ["Web server: " ++ render (platform webData)]
             [render (platform webData) ++ " vulnerability targeting"] t
    else t in
  web_risk_entry t.

(** [if (section) risks.push(entry)] *)
Definition risk_of {A : Type} (f : A -> RiskScore) (section : option A) : list RiskScore :=
  match section with
  | Some x => [f x]
  | None => []
  end.

Definition calculateInfrastructureRisks (data : InfrastructureData) : list RiskScore :=
  risk_of registrationRisk (domain_registration data)
  ++ risk_of dnsRisk (dns data)
  ++ risk_of emailRisk (email data)
  ++ risk_of hostingRisk (hosting data)
  ++ risk_of webRisk (web_server data).

End Scoring.

(** ** Attack-surface extractor *)

(** [weight_hundredths] is [weight] in hundredths (0.7 is 70). *)
Record AttackSurface : Type := {
  vector : string;
  value : string;
  description : string;
  phishingTactic : string;
  riskSeverity : option Severity;
  riskScore : option Z;
  weight_hundredths : option Z
}.

Definition surface (v val desc tactic : string) (rating : Severity * Z * Z)
  : AttackSurface :=
  let '(sev, sc, w) := rating in
  {| vector := v; value := val; description := desc; phishingTactic := tactic;
     riskSeverity := Some sev; riskScore := Some sc; weight_hundredths := Some w |}.

(** [a.riskScore || 0] *)
Definition score_or_0 (a : AttackSurface) : Z :=
  match riskScore a with
  | Some n => n
  | None => 0
  end.

(** The comparator given to [sort]:
    [(a, b) => (b.riskScore || 0) - (a.riskScore || 0)]. *)
Definition by_risk (a b : AttackSurface) : Z := score_or_0 b - score_or_0 a.

(** [Array.prototype.sort] is a stable sort: [a] stays before [b] unless
    the comparator is positive on [(a, b)]. For a consistent comparator
    the result is unique; insertion from the right computes it. *)
Fixpoint sort_insert {A : Type} (cmp : A -> A -> Z) (x : A) (l : list A) : list A :=
  match l with
  | [] => [x]
  | y :: l' => if cmp x y <=? 0 then x :: l else y :: sort_insert cmp x l'
  end.

Definition js_sort {A : Type} (cmp : A -> A -> Z) (l : list A) : list A :=
  fold_right (sort_insert cmp) [] l.

Section Extraction.

Variable now : Z.
Variable parseDate : string -> option Z.

(** Candidate 1, "REGISTRAR": the three [let] variables after the
    expiration check and after the age check. *)
Definition registrarRating (reg : gmap string JsVal) : Severity * Z * Z :=
  let rating := (medium, 50, 70) in
  let rating :=
    match str_member "expiration_date" reg with
    | Some s =>
        if str_empty s then rating
        else match daysUntilExpiry now parseDate s with
             | Some d =>
                 if d <? 30 then (critical, 95, 95)
                 else if d <? 90 then (high, 75, 85)
                 else rating
             | None => rating
             end
    | None => rating
    end in
  match str_member "creation_date" reg with
  | Some s =>
      if (negb (str_empty s) && youngerThanOneYear now parseDate s)%bool then
        let '(_, sc, w) := rating in (high, Z.max sc 80, Z.max w 80)
      else rating
  | None => rating
  end.

Definition registrarSurface (data : InfrastructureData) : list AttackSurface :=
  match domain_registration data with
  | Some reg =>
      match str_member "registrar" reg with
      | Some r =>
          if str_empty r then []
          else [surface "Registrar" r ("Domain registered with " ++ r)
                  "Spoof registrar communications about domain renewal, billing, or security alerts"
                  (registrarRating reg)]
      | None => []
      end
  | None => []
  end.

(** Candidate 2, "EMAIL PROVIDER". *)
Definition emailRating (e : EmailSection) : Severity * Z * Z :=
  let hasSpf := truthy_str (spf_record e) in
  let hasDmarc := truthy_str (dmarc_record e) in
  if (negb hasSpf && negb hasDmarc)%bool then (critical, 90, 90)
  else if (negb hasSpf || negb hasDmarc)%bool then (high, 75, 80)
  else (low, 30, 30).

Definition emailSurface (data : InfrastructureData) : list AttackSurface :=
  match email data with
  | Some e =>
      if truthy_str (mx_provider e) then
        [surface "Email Provider" (render (mx_provider e))
           ("Using " ++ render (mx_provider e) ++ " for email services")
           "Impersonate email provider with account alerts, security updates, or verification requests"
           (emailRating e)]
      else []
  | None => []
  end.

(** Candidate 3, "NAMESERVER PROVIDER". *)
Definition dnsRating (d : DnsSection) : Severity * Z * Z :=
  let hasDnssec :=
    (truthy_str (dnssec d)
     && negb match dnssec d with Some s => String.eqb s "unsigned" | None => false end)%bool in
  let nsCount := match nameservers d with Some l => length l | None => O end in
  if (negb hasDnssec && (nsCount <? 2)%nat)%bool then (high, 80, 80)
  else if negb hasDnssec then (medium, 60, 60)
  else (medium, 50, 60).

Definition dnsSurface (data : InfrastructureData) : list AttackSurface :=
  match dns data with
  | Some d =>
      if truthy_str (ns_provider d) then
        [surface "DNS Provider" (render (ns_provider d))
           ("DNS hosted by " ++ render (ns_provider d))
           "Pose as DNS provider with urgent alerts about DNS configuration or security issues"
           (dnsRating d)]
      else []
  | None => []
  end.

(** Candidate 4, "REGISTRANT CONTACT". *)
Definition registrantSurface (data : InfrastructureData) : list AttackSurface :=
  match domain_registration data with
  | Some reg =>
      let name := or_str (str_member "registrant_name" reg)
                         (str_member "registrant_organization" reg) in
      if truthy_str name then
        let contactName := render (or_str name (Some "Unknown")) in
        let hasEmail := truthy_str (str_member "registrant_email" reg) in
        [surface "Registrant Contact" contactName
           ("Domain registered to " ++ contactName)
           "Target registrant with personalized emails using their name and organization"
           (if hasEmail then (high, 75, 75) else (medium, 55, 65))]
      else []
  | None => []
  end.

(** Candidate 5, "HOSTING PROVIDER". *)
Definition hostingSurface (data : InfrastructureData) : list AttackSurface :=
  match hosting data with
  | Some h =>
      match ip_whois h with
      | Some iw =>
          let provider := or_str (organization iw) (isp iw) in
          if truthy_str provider then
            let hostProvider := render (or_str provider (Some "Unknown")) in
            [surface "Hosting Provider" hostProvider
               ("Hosted by " ++ hostProvider ++
                (if truthy_str (country iw) then " (" ++ render (country iw) ++ ")" else ""))
               "Impersonate hosting provider with security alerts or account verification requests"
               (if (truthy_bool (is_vpn iw) || truthy_bool (is_proxy iw))%bool
                then (high, 75, 75) else (low, 40, 40))]
          else []
      | None => []
      end
  | None => []
  end.

(** Candidate 6, "WEB SERVER PLATFORM". *)
Definition webSurface (data : InfrastructureData) : list AttackSurface :=
  match web_server data with
  | Some ws =>
      if truthy_str (or_str (platform ws) (server_header ws)) then
        let p := render (or_str (platform ws) (Some "Unknown")) in
        [surface "Web Server" p ("Running " ++ p ++ " web server")
           ("Target " ++ p ++ "-specific vulnerabilities or platform administration teams")
           (low, 35, 35)]
      else []
  | None => []
  end.

(** The array [surfaces] before it is sorted. *)
Definition candidateSurfaces (data : InfrastructureData) : list AttackSurface :=
  registrarSurface data ++ emailSurface data ++ dnsSurface data
  ++ registrantSurface data ++ hostingSurface data ++ webSurface data.

(** [riskScores] only fills [riskMap], which is never read. *)
Definition extractTop5AttackSurfaces (data : InfrastructureData)
    (riskScores : list RiskScore) : list AttackSurface :=
  firstn 5 (js_sort by_risk (candidateSurfaces data)).

End Extraction.

(** ** The outside world *)

(** The response of the HEAD request: the three headers that are read,
    and the status. *)
Record HeadResponse : Type := {
  h_server : option string;
  h_powered_by : option string;
  h_cf_ray : option string;
  h_status : Z
}.

(** The response of ipwhois.app: [response.ok], and the decoded body.
    [json_body = None] is a body that does not decode. In the body,
    [organization] stands for the member [org]. *)
Record IpWhoisResponse : Type := {
  resp_ok : bool;
  json_body : option (option bool * IpWhois)
}.

Record World : Type := {
  clock : Z;
  isoNow : string;
  dateTime : string -> option Z;
  resolveNs : string -> option (list string);
  resolve4 : string -> option (list string);
  resolve6 : string -> option (list string);
  resolveMx : string -> option (list MxRecord);
  resolveTxt : string -> option (list (list string));
  resolveSoa : string -> option string;
  queryWhoisServer : string -> string -> option string;
  fetchHead : string -> option HeadResponse;
  fetchIpWhois : string -> option IpWhoisResponse
}.

(** A call that leaves the process. *)
Inductive Event : Type :=
| DnsQuery (rrtype name : string)
| WhoisQuery (host query : string)
| HttpHead (url : string)
| IpLookup (url : string).

(** A computation together with the calls it made, in order. *)
Definition Traced (A : Type) : Type := (A * list Event)%type.

Definition ret {A : Type} (a : A) : Traced A := (a, []).

Definition bind {A B : Type} (m : Traced A) (k : A -> Traced B) : Traced B :=
  let '(a, t1) := m in
  let '(b, t2) := k a in
  (b, (t1 ++ t2)%list).

Definition call {A : Type} (e : Event) (outcome : A) : Traced A := (outcome, [e]).

Notation "x <~ m ;; k" := (bind m (fun x => k))
  (at level 100, m at next level, right associativity).

(** [try { v = await q } catch { v = fallback }] *)
Definition recover {A : Type} (fallback : A) (outcome : option A) : A :=
  match outcome with
  | Some v => v
  | None => fallback
  end.

(** ** DNS resolver adapter *)

Record DnsResults : Type := {
  r_nameservers : list string;
  r_a_records : list string;
  r_aaaa_records : list string;
  r_mx_records : list MxRecord;
  r_txt_records : list (list string);
  r_soa_record : option string;
  r_dmarc_txt : option string
}.

(** The body of the last [try] of [resolveDNS]. *)
Definition dmarcOf (outcome : option (list (list string))) : option string :=
  match outcome with
  | Some dmarcTxt =>
      match dmarcTxt with
      | [] => None
      | _ :: _ =>
          let dmarcRecord := join_empty (concat dmarcTxt) in
          if includes dmarcRecord "v=DMARC1" then Some dmarcRecord else None
      end
  | None => None
  end.

Definition resolveDNS (w : World) (domain : string) : Traced DnsResults :=
  ns <~ call (DnsQuery "NS" domain) (resolveNs w domain) ;;
  a <~ call (DnsQuery "A" domain) (resolve4 w domain) ;;
  aaaa <~ call (DnsQuery "AAAA" domain) (resolve6 w domain) ;;
  mx <~ call (DnsQuery "MX" domain) (resolveMx w domain) ;;
  txt <~ call (DnsQuery "TXT" domain) (resolveTxt w domain) ;;
  soa <~ call (DnsQuery "SOA" domain) (resolveSoa w domain) ;;
  dmarc <~ call (DnsQuery "TXT" ("_dmarc." ++ domain)) (resolveTxt w ("_dmarc." ++ domain)) ;;
  ret {| r_nameservers := recover [] ns;
         r_a_records := recover [] a;
         r_aaaa_records := recover [] aaaa;
         r_mx_records := recover [] mx;
         r_txt_records := recover [] txt;
         r_soa_record := soa;
         r_dmarc_txt := dmarcOf dmarc |}.

(** ** WHOIS client *)

Definition WHOIS_SERVERS : list (string * string) :=
  [("com", "whois.verisign-grs.com"); ("net", "whois.verisign-grs.com");
   ("org", "whois.pir.org"); ("edu", "whois.educause.edu");
   ("gov", "whois.nic.gov"); ("au", "whois.aunic.net");
   ("uk", "whois.nic.uk"); ("de", "whois.denic.de");
   ("fr", "whois.afnic.fr"); ("it", "whois.nic.it");
   ("es", "whois.nic.es"); ("br", "whois.registro.br");
   ("cn", "whois.cnnic.cn"); ("jp", "whois.jprs.jp");
   ("in", "whois.registry.in"); ("default", "whois.internic.net")].

Fixpoint table_get (k : string) (t : list (string * string)) : option string :=
  match t with
  | [] => None
  | (k', v) :: t' => if String.eqb k k' then Some v else table_get k t'
  end.

(** The members that the object [WHOIS_SERVERS] inherits from
    [Object.prototype] under a name without a capital letter, the only
    ones a lowered label can name: a function and an object, both
    truthy and neither a string. *)
Definition INHERITED_MEMBERS : list string := ["constructor"; "__proto__"].

(** [WHOIS_SERVERS[tld] || WHOIS_SERVERS.default]: the name of a server,
    or [None] when [WHOIS_SERVERS[tld]] is an inherited member, which is
    returned as it is. *)
Definition getWhoisServer (domain : string) : option string :=
  let parts := split "." domain in
  let tld := toLowerCase (List.last parts "") in
  if existsb (String.eqb tld) INHERITED_MEMBERS then None
  else Some (render (or_str (table_get tld WHOIS_SERVERS)
                            (table_get "default" WHOIS_SERVERS))).

(** [Object.assign(target, source)] *)
Definition object_assign (target source : gmap string JsVal) : gmap string JsVal :=
  source ∪ target.

(** [getWhoisInfo(domain)]. When [getWhoisServer] returns no string,
    [net.createConnection] raises before any connection is opened: no
    query is sent, and the [catch] leaves the record empty. *)
Definition getWhoisInfo (w : World) (domain : string) : Traced (gmap string JsVal) :=
  let whoisInfo : gmap string JsVal := ∅ in
  match getWhoisServer domain with
  | Some whoisServer =>
      outcome <~ call (WhoisQuery whoisServer domain)
                      (queryWhoisServer w whoisServer domain) ;;
      ret match outcome with
          | Some whoisResponse =>
              if str_empty whoisResponse then whoisInfo
              else match parseWhoisResponse whoisResponse with
                   | Some parsed => object_assign whoisInfo parsed
                   | None => whoisInfo
                   end
          | None => whoisInfo
          end
  | None => ret whoisInfo
  end.

(** ** HTTP fingerprint probe *)

Record HttpHeaders : Type := {
  hh_server_header : option string;
  hh_powered_by : option string;
  hh_status : option Z;
  hh_cdn_provider : option string;
  hh_platform : option string
}.

Definition no_headers : HttpHeaders :=
  {| hh_server_header := None; hh_powered_by := None; hh_status := None;
     hh_cdn_provider := None; hh_platform := None |}.

Definition getHttpHeaders (w : World) (domain : string) : Traced HttpHeaders :=
  let url := "https://" ++ domain in
  outcome <~ call (HttpHead url) (fetchHead w url) ;;
  ret match outcome with
      | Some response =>
          let server := render (or_str (h_server response) (Some "")) in
          let powerBy := render (or_str (h_powered_by response) (Some "")) in
          let cfRay := render (or_str (h_cf_ray response) (Some "")) in
          let lower := toLowerCase server in
          {| hh_server_header := Some server;
             hh_powered_by := Some powerBy;
             hh_status := Some (h_status response);
             hh_cdn_provider :=
               if (includes lower "cloudflare" || negb (str_empty cfRay))%bool
               then Some "Cloudflare"
               else if includes lower "akamai" then Some "Akamai"
               else None;
             hh_platform :=
               if includes lower "nginx" then Some "Nginx"
               else if includes lower "apache" then Some "Apache"
               else if includes lower "iis" then Some "Microsoft IIS"
               else None |}
      | None => no_headers
      end.

(** ** Provider classification *)

Definition detectEmailProvider (exchange : string) : string :=
  let lower := toLowerCase exchange in
  if (includes lower "google" || includes lower "gmail")%bool then "Google Workspace"
  else if (includes lower "microsoft" || includes lower "outlook")%bool then "Microsoft 365"
  else if includes lower "zoho" then "Zoho Mail"
  else if includes lower "protonmail" then "Proton Mail"
  else if includes lower "mailgun" then "Mailgun"
  else if includes lower "sendgrid" then "SendGrid"
  else if includes lower "fastmail" then "Fastmail"
  else if (includes lower "aws" || includes lower "ses")%bool then "Amazon SES"
  else if includes lower "office365" then "Microsoft 365"
  else "Custom/Self-hosted".

Definition detectNsProvider (nameservers : list string) : string :=
  match nameservers with
  | [] => "Unknown"
  | ns0 :: _ =>
      let ns := toLowerCase ns0 in
      if includes ns "cloudflare" then "Cloudflare"
      else if (includes ns "route53" || includes ns "awsdns")%bool then "AWS Route 53"
      else if includes ns "akamai" then "Akamai"
      else if (includes ns "google" && includes ns "dns")%bool then "Google Cloud DNS"
      else if includes ns "azure" then "Azure DNS"
      else "ISP/Registrar Default"
  end.

(** ** IP reputation lookup *)

Definition keep_str (o : option string) : option string :=
  if truthy_str o then o else None.

Definition keep_num (o : option Q) : option Q :=
  match o with
  | Some q => if Qeq_bool q 0 then None else Some q
  | None => None
  end.

Definition keep_bool (o : option bool) : option bool :=
  if truthy_bool o then o else None.

Definition no_ip_whois : IpWhois :=
  {| asn := None; organization := None; isp := None; country := None;
     country_code := None; continent := None; city := None; region := None;
     latitude := None; longitude := None; is_vpn := None; is_proxy := None |}.

Definition getIpWhoisInfo (w : World) (ipAddress : string) : Traced IpWhois :=
  let ipWhoisUrl := "https://ipwhois.app/json/" ++ ipAddress in
  outcome <~ call (IpLookup ipWhoisUrl) (fetchIpWhois w ipWhoisUrl) ;;
  ret match outcome with
      | Some response =>
          if resp_ok response then
            match json_body response with
            | Some (success, data) =>
                if match success with Some false => true | _ => false end
                then no_ip_whois
                else
                  {| asn := keep_str (asn data);
                     organization := keep_str (organization data);
                     isp := keep_str (isp data);
                     country := keep_str (country data);
                     country_code := keep_str (country_code data);
                     continent := keep_str (continent data);
                     city := keep_str (city data);
                     region := keep_str (region data);
                     latitude := keep_num (latitude data);
                     longitude := keep_num (longitude data);
                     is_vpn := keep_bool (is_vpn data);
                     is_proxy := keep_bool (is_proxy data) |}
            | None => no_ip_whois
            end
          else no_ip_whois
      | None => no_ip_whois
      end.

(** ** Infrastructure aggregator: the handler of POST /api/infrastructure *)

(** The [domain] member of the request body. *)
Inductive JsonField : Type :=
| FAbsent
| FString (s : string)
| FOther.

(** [BadBody]: [request.json()] rejects, with the given message. *)
Inductive Request : Type :=
| BadBody (message : string)
| Body (domain : JsonField).

Inductive Response : Type :=
| Success (result : InfrastructureData) (riskScores : list RiskScore)
          (attackSurfaces : list AttackSurface)
| Failure (status : Z) (error : string).

(** [s.replace(/^https?:\/\//, "")] *)
Definition strip_scheme (s : string) : string :=
  if startsWith s "https://" then str_drop 8 s
  else if startsWith s "http://" then str_drop 7 s
  else s.

(** [s.replace(/^www\./, "")] *)
Definition strip_www (s : string) : string :=
  if startsWith s "www." then str_drop 4 s else s.

(** The constant [cleanDomain] of [POST]. *)
Definition cleanDomain (domain : string) : string :=
  toLowerCase (List.hd "" (split "/" (strip_www (strip_scheme domain)))).

Definition with_dns (v : DnsSection) (r : InfrastructureData) : InfrastructureData :=
  {| domain := domain r; timestamp := timestamp r;
     domain_registration := domain_registration r; dns := Some v;
     hosting := hosting r; web_server := web_server r; email := email r;
     metadata := metadata r |}.

Definition with_web_server (v : WebServerSection) (r : InfrastructureData)
  : InfrastructureData :=
  {| domain := domain r; timestamp := timestamp r;
     domain_registration := domain_registration r; dns := dns r;
     hosting := hosting r; web_server := Some v; email := email r;
     metadata := metadata r |}.

Definition with_domain_registration (v : gmap string JsVal) (r : InfrastructureData)
  : InfrastructureData :=
  {| domain := domain r; timestamp := timestamp r;
     domain_registration := Some v; dns := dns r;
     hosting := hosting r; web_server := web_server r; email := email r;
     metadata := metadata r |}.

Definition with_email (v : EmailSection) (r : InfrastructureData) : InfrastructureData :=
  {| domain := domain r; timestamp := timestamp r;
     domain_registration := domain_registration r; dns := dns r;
     hosting := hosting r; web_server := web_server r; email := Some v;
     metadata := metadata r |}.

Definition with_hosting (v : HostingSection) (r : InfrastructureData) : InfrastructureData :=
  {| domain := domain r; timestamp := timestamp r;
     domain_registration := domain_registration r; dns := dns r;
     hosting := Some v; web_server := web_server r; email := email r;
     metadata := metadata r |}.

Definition with_metadata (v : Metadata) (r : InfrastructureData) : InfrastructureData :=
  {| domain := domain r; timestamp := timestamp r;
     domain_registration := domain_registration r; dns := dns r;
     hosting := hosting r; web_server := web_server r; email := email r;
     metadata := Some v |}.

(** [if (result.metadata?.warnings) result.metadata.warnings.push(msg)] *)
Definition push_warning (msg : string) (r : InfrastructureData) : InfrastructureData :=
  match metadata r with
  | Some md =>
      match warnings md with
      | Some ws =>
          with_metadata {| data_sources := data_sources md;
                           collection_method := collection_method md;
                           notes := notes md;
                           warnings := Some (ws ++ [msg])%list |} r
      | None => r
      end
  | None => r
  end.

(** [result.metadata!.notes!.push(msg)]; [None] is the TypeError of
    reading a member of [undefined]. *)
Definition push_note (msg : string) (r : InfrastructureData) : option InfrastructureData :=
  match metadata r with
  | Some md =>
      match notes md with
      | Some ns =>
          Some (with_metadata {| data_sources := data_sources md;
                                 collection_method := collection_method md;
                                 notes := Some (ns ++ [msg])%list;
                                 warnings := warnings md |} r)
      | None => None
      end
  | None => None
  end.

(** The object literal that [result] starts as. *)
Definition initial_result (w : World) (clean : string) : InfrastructureData :=
  {| domain := clean;
     timestamp := isoNow w;
     domain_registration := None; dns := None; hosting := None;
     web_server := None; email := None;
     metadata :=
       Some {| data_sources := ["Node.js DNS Module"; "WHOIS Protocol"; "HTTP Headers";
                                "ipwhois.app API"];
               collection_method := "Passive Reconnaissance (Native & Public APIs)";
               notes := Some ["Using Node.js DNS resolver for queries";
                              "WHOIS data from real WHOIS servers";
                              "No command-line tools required";
                              "Windows compatible"];
               warnings := Some [] |} |}.

(** The [dns] section, set when [dnsData.a_records?.length > 0]. *)
Definition dns_section (dnsData : DnsResults) : DnsSection :=
  {| nameservers := Some (r_nameservers dnsData);
     a_records := Some (r_a_records dnsData);
     aaaa_records := Some (r_aaaa_records dnsData);
     mx_records := Some (r_mx_records dnsData);
     txt_records := Some (concat (r_txt_records dnsData));
     soa_record := r_soa_record dnsData;
     ns_provider := Some (detectNsProvider (r_nameservers dnsData));
     dnssec := None |}.

(** The [email] section, set when there is an MX record; [mx0] is
    [dnsData.mx_records[0]]. *)
Definition email_section (dnsData : DnsResults) (mx0 : MxRecord) : EmailSection :=
  let txtRecordsFlat := concat (r_txt_records dnsData) in
  let spfRecord := List.find (fun txt => includes txt "v=spf1") txtRecordsFlat in
  {| mx_provider := Some (detectEmailProvider (exchange mx0));
     spf_record := keep_str spfRecord;
     dmarc_record := keep_str (r_dmarc_txt dnsData);
     mx_details :=
       Some (List.map (fun mx => {| mx_priority := priority mx;
                                    mx_exchange := exchange mx;
                                    mx_detail_provider := detectEmailProvider (exchange mx) |})
                      (r_mx_records dnsData)) |}.

(** The body of the [try] block after the validation of the input. *)
Definition reconnaissance (w : World) (domain : string) : Traced Response :=
  let clean := cleanDomain domain in
  let result := initial_result w clean in
  dnsData <~ resolveDNS w clean ;;
  let result :=
    match r_a_records dnsData with
    | _ :: _ => with_dns (dns_section dnsData) result
    | [] => result
    end in
  httpHeaders <~ getHttpHeaders w clean ;;
  let result :=
    if (truthy_str (hh_server_header httpHeaders)
        || truthy_str (hh_powered_by httpHeaders))%bool
    then with_web_server {| server_header := hh_server_header httpHeaders;
                            platform := hh_platform httpHeaders;
                            cdn_provider := hh_cdn_provider httpHeaders |} result
    else result in
  whoisData <~ getWhoisInfo w clean ;;
  let result :=
    if (0 <? size whoisData)%nat then with_domain_registration whoisData result
    else push_warning "WHOIS data unavailable" result in
  let result :=
    match r_mx_records dnsData with
    | mx0 :: _ => with_email (email_section dnsData mx0) result
    | [] => result
    end in
  result <~ match r_a_records dnsData with
            | ip :: _ =>
                if str_empty ip then ret result
                else
                  ipWhoisData <~ getIpWhoisInfo w ip ;;
                  ret (with_hosting {| ip_address := Some ip;
                                       ipv6_addresses := Some (r_aaaa_records dnsData);
                                       ip_whois := Some ipWhoisData |} result)
            | [] => ret result
            end ;;
  let riskScores := calculateInfrastructureRisks (clock w) (dateTime w) result in
  match push_note "Risk scores calculated for each category" result with
  | Some result =>
      let attackSurfaces :=
        extractTop5AttackSurfaces (clock w) (dateTime w) result riskScores in
      ret (Success result riskScores attackSurfaces)
  | None =>
      ret (Failure 500 "Cannot read properties of undefined (reading 'push')")
  end.

(** [error.message || "Infrastructure reconnaissance failed"] *)
Definition failure_message (message : string) : string :=
  if str_empty message then "Infrastructure reconnaissance failed" else message.

Definition POST (w : World) (request : Request) : Traced Response :=
  match request with
  | BadBody message => ret (Failure 500 (failure_message message))
  | Body (FString domain) =>
      if str_empty domain then ret (Failure 400 "Domain is required")
      else reconnaissance w domain
  | Body _ => ret (Failure 400 "Domain is required")
  end.

(** ** Predicates used in the statements *)

(** The record built by the parser holds an array exactly under its two
    array-valued keys, and never stores an empty string. *)
Definition well_typed (r : gmap string JsVal) : Prop :=
  forall k v, r !! k = Some v ->
    match v with
    | VList _ => k = "nameservers" \/ k = "status"
    | VStr s => k <> "nameservers" /\ k <> "status" /\ s <> ""
    end.

(** The disjunction of the conditions of the [if] statements of [route]:
    a key that satisfies none of them is an unmatched key. *)
Definition matched (key : string) : bool :=
  let has := includes key in
  (has "domain name" || has "registry domain id" || has "registrar whois server"
   || (has "registrar url" || String.eqb key "registrar url")
   || (String.eqb key "registrar" || (has "registrar" && has "name"))
   || has "registrar abuse contact email" || has "registrar abuse contact phone"
   || has "reseller" || (has "creation date" || has "created")
   || (has "expir" && (has "date" || has "expir"))
   || (has "updated" && has "date") || has "last modified"
   || (has "registrant" && has "name") || (has "registrant" && has "id")
   || (has "registrant" && has "organization") || (has "registrant" && has "country")
   || (has "registrant" && has "email") || (has "registrant" && has "phone")
   || (has "admin" && has "name") || (has "admin" && has "id")
   || (has "admin" && has "email")
   || (has "tech" && has "name") || (has "tech" && has "id") || (has "tech" && has "email")
   || (has "billing" && has "name") || (has "billing" && has "id")
   || (has "name server" || has "nameserver") || has "status"
   || has "status reason" || has "dnssec" || has "eligibility type")%bool.

(** The order in which the extractor pushes its candidates. *)
Definition INSERTION_ORDER : list string :=
  ["Registrar"; "Email Provider"; "DNS Provider"; "Registrant Contact";
   "Hosting Provider"; "Web Server"].

Fixpoint position (v : string) (l : list string) : nat :=
  match l with
  | [] => O
  | x :: l' => if String.eqb v x then O else S (position v l')
  end.

Definition vector_rank (a : AttackSurface) : nat := position (vector a) INSERTION_ORDER.

(** [a] is ranked before [b]: a higher score, or the same score and an
    earlier place in the insertion order. *)
Definition ranked_before (a b : AttackSurface) : Prop :=
  score_or_0 b < score_or_0 a
  \/ (score_or_0 a = score_or_0 b /\ (vector_rank a < vector_rank b)%nat).

(** A candidate list is empty or holds one surface of the given
    vector, with a score. *)
Definition one_of (v : string) (l : list AttackSurface) : Prop :=
  l = [] \/ exists s, l = [s] /\ vector s = v /\ exists n, riskScore s = Some n.

(** Every external lookup fails or times out, whatever it is asked. *)
Definition all_lookups_fail (w : World) : Prop :=
  (forall d, resolveNs w d = None) /\ (forall d, resolve4 w d = None)
  /\ (forall d, resolve6 w d = None) /\ (forall d, resolveMx w d = None)
  /\ (forall d, resolveTxt w d = None) /\ (forall d, resolveSoa w d = None)
  /\ (forall h q, queryWhoisServer w h q = None)
  /\ (forall u, fetchHead w u = None) /\ (forall u, fetchIpWhois w u = None).

(** The IP lookup that [reconnaissance] makes, if any. *)
Definition ip_lookup_of (a_records : list string) : list Event :=
  match a_records with
  | ip :: _ => if str_empty ip then [] else [IpLookup ("https://ipwhois.app/json/" ++ ip)]
  | [] => []
  end.

(** The A records that [resolveDNS] returns for the cleaned domain. *)
Definition resolved_a_records (w : World) (domain : string) : list string :=
  r_a_records (fst (resolveDNS w (cleanDomain domain))).

Definition warnings_of (r : InfrastructureData) : option (list string) :=
  match metadata r with
  | Some md => warnings md
  | None => None
  end.

(** ** Sample worlds *)

(** Nothing answers. *)
Definition dead_world : World :=
  {| clock := 0; isoNow := "1970-01-01T00:00:00.000Z"; dateTime := fun _ => None;
     resolveNs := fun _ => None; resolve4 := fun _ => None;
     resolve6 := fun _ => None; resolveMx := fun _ => None;
     resolveTxt := fun _ => None; resolveSoa := fun _ => None;
     queryWhoisServer := fun _ _ => None;
     fetchHead := fun _ => None; fetchIpWhois := fun _ => None |}.

(** Dates of the samples: the clock stands at day 1000. *)
Definition sample_dates (s : string) : option Z :=
  if String.eqb s "2026-01-10T00:00:00Z" then Some (1010 * MS_PER_DAY)
  else if String.eqb s "2025-09-22T00:00:00Z" then Some (900 * MS_PER_DAY)
  else None.

Definition sample_whois_text : string :=
  "Registrar: Example Registrar" ++ String LF
  ("Registry Expiry Date: 2026-01-10T00:00:00Z" ++ String LF
  ("Creation Date: 2025-09-22T00:00:00Z" ++ String LF "")).

(** Only the WHOIS server answers: the resolver, the HEAD request and
    the IP lookup all fail. *)
Definition whois_only_world : World :=
  {| clock := 1000 * MS_PER_DAY; isoNow := "2025-12-31T00:00:00.000Z";
     dateTime := sample_dates;
     resolveNs := fun _ => None; resolve4 := fun _ => None;
     resolve6 := fun _ => None; resolveMx := fun _ => None;
     resolveTxt := fun _ => None; resolveSoa := fun _ => None;
     queryWhoisServer := fun _ _ => Some sample_whois_text;
     fetchHead := fun _ => None; fetchIpWhois := fun _ => None |}.

(** A domain with two MX records at a hosted provider, SPF and DMARC
    published, one A record, behind nginx. *)
Definition hardened_world : World :=
  {| clock := 1000 * MS_PER_DAY; isoNow := "2025-12-31T00:00:00.000Z";
     dateTime := sample_dates;
     resolveNs := fun _ => Some ["ns1.example.net"];
     resolve4 := fun _ => Some ["93.184.216.34"];
     resolve6 := fun _ => None;
     resolveMx := fun _ => Some [{| priority := 10; exchange := "aspmx.l.google.com" |};
                                 {| priority := 20; exchange := "alt1.aspmx.l.google.com" |}];
     resolveTxt := fun d => if startsWith d "_dmarc." then Some [["v=DMARC1; p=reject"]]
                            else Some [["v=spf1 -all"]];
     resolveSoa := fun _ => None;
     queryWhoisServer := fun _ _ => Some sample_whois_text;
     fetchHead := fun _ => Some {| h_server := Some "nginx"; h_powered_by := None;
                                   h_cf_ray := None; h_status := 200 |};
     fetchIpWhois := fun _ => None |}.

(** The same domain without an A record: every other record type
    still resolves. *)
Definition no_a_world : World :=
  {| clock := clock hardened_world; isoNow := isoNow hardened_world;
     dateTime := dateTime hardened_world;
     resolveNs := resolveNs hardened_world;
     resolve4 := fun _ => Some [];
     resolve6 := resolve6 hardened_world;
     resolveMx := resolveMx hardened_world;
     resolveTxt := resolveTxt hardened_world;
     resolveSoa := resolveSoa hardened_world;
     queryWhoisServer := queryWhoisServer hardened_world;
     fetchHead := fetchHead hardened_world;
     fetchIpWhois := fetchIpWhois hardened_world |}.

(** An [email] section with neither SPF nor DMARC. *)
Definition open_relay_email : EmailSection :=
  {| mx_provider := Some "Custom/Self-hosted"; spf_record := None;
     dmarc_record := None;
     mx_details := Some [{| mx_priority := 10; mx_exchange := "mail.example.com";
                            mx_detail_provider := "Custom/Self-hosted" |}] |}.

Definition open_relay_data : InfrastructureData :=
  with_email open_relay_email (initial_result dead_world "example.com").

(** A WHOIS record of a domain that expires in 10 days and was created
    100 days ago. *)
Definition expiring_young_registration : gmap string JsVal :=
  <["registrar" := VStr "Example Registrar"]>
    (<["expiration_date" := VStr "2026-01-10T00:00:00Z"]>
       (<["creation_date" := VStr "2025-09-22T00:00:00Z"]> ∅)).

(** ** Predicates used in further statements *)

(** [[name]] when the section is present, [[]] when it is absent. *)
Definition present {A : Type} (section : option A) (name : string) : list string :=
  match section with
  | Some _ => [name]
  | None => []
  end.

(** The categories of the risk engine, in the order it evaluates them,
    restricted to the sections that [data] has. *)
Definition expected_categories (data : InfrastructureData) : list string :=
  (present (domain_registration data) "Domain Registration"
   ++ present (dns data) "DNS Security"
   ++ present (email data) "Email Security"
   ++ present (hosting data) "Hosting Infrastructure"
   ++ present (web_server data) "Web Server")%list.

(** A rating an extractor candidate can carry. *)
Definition sound_rating (rating : Severity * Z * Z) : Prop :=
  let '(sev, sc, w) := rating in
  sev <> info /\ 30 <= sc <= 95 /\ 30 <= w <= 95.


(** The Email Provider surface of [open_relay_data]. *)
Definition open_relay_surface : AttackSurface :=
  surface "Email Provider" "Custom/Self-hosted"
    "Using Custom/Self-hosted for email services"
    "Impersonate email provider with account alerts, security updates, or verification requests"
    (critical, 90, 90).

(** The member names that [route] assigns to. *)
Definition WHOIS_KEYS : list string :=
  ["domain_name"; "registry_domain_id"; "registrar_whois_server"; "registrar_url";
   "registrar"; "registrar_abuse_email"; "registrar_abuse_phone"; "reseller_name";
   "creation_date"; "expiration_date"; "updated_date"; "last_modified";
   "registrant_name"; "registrant_id"; "registrant_organization";
   "registrant_country"; "registrant_email"; "registrant_phone";
   "admin_name"; "admin_id"; "admin_email";
   "tech_name"; "tech_id"; "tech_email"; "billing_name"; "billing_id";
   "nameservers"; "status"; "status_reason"; "dnssec"; "eligibility_type"].

Definition keys_known (r : gmap string JsVal) : Prop :=
  forall k, is_Some (r !! k) -> In k WHOIS_KEYS.

Definition CR : ascii := ascii_of_nat 13.

(** No character of [s] is [c]. *)
Definition free_of (c : ascii) (s : string) : Prop :=
  Forall (fun x => x <> c) (list_ascii_of_string s).



(** The [metadata] of every success response, but for its warnings. *)
Definition response_metadata (ws : list string) : Metadata :=
  {| data_sources := ["Node.js DNS Module"; "WHOIS Protocol"; "HTTP Headers";
                      "ipwhois.app API"];
     collection_method := "Passive Reconnaissance (Native & Public APIs)";
     notes := Some ["Using Node.js DNS resolver for queries";
                    "WHOIS data from real WHOIS servers";
                    "No command-line tools required";
                    "Windows compatible";
                    "Risk scores calculated for each category"];
     warnings := Some ws |}.

Definition DNSSEC_NOT_ENABLED : string :=
  "DNSSEC not enabled - vulnerable to DNS spoofing".

(** The DNS Security entry of a domain whose NS query returned nothing. *)
Definition unknown_ns_entry : RiskScore :=
  {| category := "DNS Security";
     score := 30;
     severity := medium;
     weight_pct := 30;
     findings := ["Using managed DNS: Unknown"; DNSSEC_NOT_ENABLED;
                  "Only 1 nameserver - single point of failure"];
     attackVectors := ["DNS spoofing attacks"; "Man-in-the-middle attacks";
                       "Single nameserver compromise"] |}.

(** Only the A query answers. *)
Definition a_only_world : World :=
  {| clock := 0; isoNow := "1970-01-01T00:00:00.000Z"; dateTime := fun _ => None;
     resolveNs := fun _ => None; resolve4 := fun _ => Some ["93.184.216.34"];
     resolve6 := fun _ => None; resolveMx := fun _ => None;
     resolveTxt := fun _ => None; resolveSoa := fun _ => None;
     queryWhoisServer := fun _ _ => None;
     fetchHead := fun _ => None; fetchIpWhois := fun _ => None |}.

(** The Hosting Infrastructure entry of an address about which the IP
    lookup returned nothing. *)
Definition unknown_host_entry : RiskScore :=
  {| category := "Hosting Infrastructure";
     score := 0;
     severity := info;
     weight_pct := 0;
     findings := ["Organization: Unknown"];
     attackVectors := [] |}.

(** The answer that [getIpWhoisInfo] reads members from: [data] is the
    decoded body of an ok response to the lookup of [ipAddress], and
    its [success] is not [false]. *)
Definition answered (w : World) (ipAddress : string) (data : IpWhois) : Prop :=
  exists response success,
    fetchIpWhois w ("https://ipwhois.app/json/" ++ ipAddress) = Some response
    /\ resp_ok response = true
    /\ json_body response = Some (success, data)
    /\ success <> Some false.



(** The labels of [detectEmailProvider] and of [detectNsProvider]. *)
Definition EMAIL_PROVIDERS : list string :=
  ["Google Workspace"; "Microsoft 365"; "Zoho Mail"; "Proton Mail"; "Mailgun";
   "SendGrid"; "Fastmail"; "Amazon SES"; "Custom/Self-hosted"].

Definition NS_PROVIDERS : list string :=
  ["Unknown"; "Cloudflare"; "AWS Route 53"; "Akamai"; "Google Cloud DNS";
   "Azure DNS"; "ISP/Registrar Default"].

(** ** The graph component: [calculateRiskMetrics] *)

Definition severity_eqb (a b : Severity) : bool :=
  match a, b with
  | critical, critical | high, high | medium, medium | low, low | info, info => true
  | _, _ => false
  end.

(** [s.riskSeverity === sev] *)
Definition has_severity (sev : Severity) (s : AttackSurface) : bool :=
  match riskSeverity s with
  | Some x => severity_eqb x sev
  | None => false
  end.

(** The surface carries a [riskSeverity]. *)
Definition rated (s : AttackSurface) : bool :=
  match riskSeverity s with
  | Some _ => true
  | None => false
  end.

Record SeverityCounts : Type := {
  n_critical : nat;
  n_high : nat;
  n_medium : nat;
  n_low : nat;
  n_info : nat
}.

Record RiskMetrics : Type := {
  avgScore : Z;
  maxScore : Z;
  severityCounts : SeverityCounts;
  totalFindings : nat;
  uniqueVectors : nat
}.

(** [Math.round(a / n)] for integers [a] and [n > 0]: the nearest
    integer, a half going up. *)
Definition round_div (a n : Z) : Z := (2 * a + n) / (2 * n).

(** [riskScores] is optional: [None] is [undefined]. *)
Definition calculateRiskMetrics (attackSurfaces : list AttackSurface)
    (riskScores : option (list RiskScore)) : RiskMetrics :=
  let scores := List.map score_or_0 attackSurfaces in
  let avgScore :=
    if (0 <? length scores)%nat
    then round_div (fold_left Z.add scores 0) (Z.of_nat (length scores))
    else 0 in
  let maxScore := fold_right Z.max 0 scores in
  let count sev := length (List.filter (has_severity sev) attackSurfaces) in
  {| avgScore := avgScore;
     maxScore := maxScore;
     severityCounts := {| n_critical := count critical; n_high := count high;
                          n_medium := count medium; n_low := count low;
                          n_info := count info |};
     totalFindings :=
       match riskScores with
       | Some rs => fold_left (fun sum r => (sum + length (findings r))%nat) rs O
       | None => O
       end;
     uniqueVectors :=
       match riskScores with
       | Some rs =>
           size (list_to_set (concat (List.map attackVectors rs)) : gset string)
       | None => O
       end |}.

(** ** The template generator: POST /api/generate-phishing-from-infrastructure

    The handler of [generate-phishing-from-infrastructure/route.ts] and
    the client [callGroqAI] of [lib/ai/groq-client.ts] that it calls. *)

(** A thrown value: [error.name] and [error.message]. *)
Record JsError : Type := {
  error_name : string;
  error_message : string
}.

(** [new Error(message)] *)
Definition new_Error (message : string) : JsError :=
  {| error_name := "Error"; error_message := message |}.

(** [errorData] of a response that is not ok. [ErrorUndecodable]: the
    body does not decode, and [.catch] supplies
    [{ error: "Unknown error" }]. [ErrorRaises e]: the body is [null],
    and reading [errorData.error] raises [e]. [ErrorValue m js]: [m] is
    [errorData.error.message] when there is one, [js] is
    [JSON.stringify(errorData)]. *)
Inductive ErrorData : Type :=
| ErrorUndecodable
| ErrorRaises (e : JsError)
| ErrorValue (message : option string) (stringified : string).

(** The body of an ok response. [CompletionRaises e]: [response.json()]
    rejects with [e], or the body is [null] and reading [data.choices]
    raises [e]. [CompletionContent c]: [c] is
    [data.choices?.[0]?.message?.content]. *)
Inductive CompletionBody : Type :=
| CompletionRaises (e : JsError)
| CompletionContent (content : option string).

Inductive FetchOutcome : Type :=
| FetchRejects (e : JsError)
| FetchNotOk (status : Z) (errorData : ErrorData)
| FetchOk (body : CompletionBody).

(** One request sent to the completion service. *)
Record AiRequest : Type := {
  bearer : string;
  system_content : string;
  user_content : string
}.

(** The environment variable and the service. *)
Record AiWorld : Type := {
  GROQ_API_KEY : option string;
  groqFetch : AiRequest -> FetchOutcome
}.

Definition DQUOTE : string := String (ascii_of_nat 34) "".

(** [JSON.stringify({ error: "Unknown error" })] *)
Definition UNKNOWN_ERROR_JSON : string :=
  "{" ++ DQUOTE ++ "error" ++ DQUOTE ++ ":" ++ DQUOTE ++ "Unknown error" ++ DQUOTE ++ "}".

(** The [catch] of [callGroqAI]. *)
Definition rethrow (e : JsError) : JsError :=
  if String.eqb (error_name e) "AbortError"
  then new_Error "GROQ API request timeout (30s)"
  else e.

(** [callGroqAI(prompt, systemPrompt)]: the text, or the error thrown;
    and the requests sent. *)
Definition callGroqAI (ai : AiWorld) (prompt systemPrompt : string)
  : (JsError + string) * list AiRequest :=
  if truthy_str (GROQ_API_KEY ai) then
    let request := {| bearer := render (GROQ_API_KEY ai);
                      system_content := systemPrompt;
                      user_content := prompt |} in
    let attempt : JsError + string :=
      match groqFetch ai request with
      | FetchRejects e => inl e
      | FetchNotOk status errorData =>
          match errorData with
          | ErrorRaises e => inl e
          | ErrorUndecodable =>
              inl (new_Error ("GROQ API error: " ++ string_of_Z status ++ " - "
                              ++ UNKNOWN_ERROR_JSON))
          | ErrorValue message stringified =>
              inl (new_Error ("GROQ API error: " ++ string_of_Z status ++ " - "
                              ++ render (or_str message (Some stringified))))
          end
      | FetchOk body =>
          match body with
          | CompletionRaises e => inl e
          | CompletionContent content =>
              if truthy_str content then inr (render content)
              else inl (new_Error "No text response from GROQ API")
          end
      end in
    (match attempt with
     | inl e => inl (rethrow e)
     | inr text => inr text
     end, [request])
  else
    (inl (new_Error
            "GROQ_API_KEY environment variable not set. Please add it to .env.local"),
     []).

(** A member of the request body of which only the truth value and the
    rendering in a template are used. *)
Inductive JsonValue : Type :=
| JFalsy
| JStr (s : string)
| JTruthy (rendered : string).

Definition json_truthy (v : JsonValue) : bool :=
  match v with
  | JFalsy => false
  | JStr s => negb (str_empty s)
  | JTruthy _ => true
  end.

Definition json_render (v : JsonValue) : string :=
  match v with
  | JFalsy => "undefined"
  | JStr s => s
  | JTruthy rendered => rendered
  end.

(** The member [attackSurfaces] of the body: falsy (absent, [null]);
    an array of surfaces; or a truthy value from which the prompt cannot
    be built, [e] being raised (no array, so that [.map] is no function,
    or an array with a [null] element). *)
Inductive SurfacesField : Type :=
| SurfacesFalsy
| SurfacesArray (l : list AttackSurface)
| SurfacesOther (e : JsError).

(** [GenBadBody e]: reading the body raises [e] ([request.json()]
    rejects, or the body is [null] and cannot be destructured). *)
Inductive GenRequest : Type :=
| GenBadBody (e : JsError)
| GenBody (domain : JsonValue) (infrastructureData : bool)
          (attackSurfaces : SurfacesField).

Inductive GenResponse : Type :=
| GenSuccess (domain : JsonValue) (html : string)
             (attackSurfaces : SurfacesField) (targetDomain : JsonValue)
             (surfaceCount : nat)
| GenFailure (status : Z) (error : string).

Section Generator.

(** The fixed text of the prompt after the list of surfaces, and the
    system prompt: two literals of the source on which nothing below
    depends. *)
Variable TASK_TEXT : string.
Variable SYSTEM_PROMPT : string.

(** The entry of one surface in the prompt; [index] counts from 0. *)
Definition surface_entry (index : nat) (s : AttackSurface) : string :=
  string_of_Z (Z.of_nat index + 1) ++ ". " ++ vector s ++ ": " ++ value s
  ++ String LF ("   Description: " ++ description s
  ++ String LF ("   Phishing Tactic: " ++ phishingTactic s)).

(** [array.map((x, index) => f(index, x))] *)
Fixpoint map_indexed {A B : Type} (f : nat -> A -> B) (index : nat) (l : list A)
  : list B :=
  match l with
  | [] => []
  | x :: l' => f index x :: map_indexed f (S index) l'
  end.

Definition generateInfrastructurePhishingPrompt (domain : string)
    (attackSurfaces : list AttackSurface) : string :=
  let surfacesText :=
    join (String LF (String LF "")) (map_indexed surface_entry O attackSurfaces) in
  "TARGET DOMAIN: " ++ domain
  ++ String LF (String LF ("TOP 5 ATTACK SURFACES IDENTIFIED:"
  ++ String LF (String LF (surfacesText
  ++ String LF (String LF TASK_TEXT))))).

(** [error.message || fallback] of the [catch] of the handler. *)
Definition generator_failure (e : JsError) : GenResponse :=
  GenFailure 500
    (if str_empty (error_message e)
     then "Failed to generate infrastructure-based phishing template"
     else error_message e).

Definition generatePOST (ai : AiWorld) (request : GenRequest)
  : GenResponse * list AiRequest :=
  match request with
  | GenBadBody e => (generator_failure e, [])
  | GenBody domain infrastructureData attackSurfaces =>
      if (negb (json_truthy domain) || negb infrastructureData)%bool then
        (GenFailure 400 "Domain and infrastructure data are required", [])
      else
        match attackSurfaces with
        | SurfacesOther e => (generator_failure e, [])
        | _ =>
            let surfaces := match attackSurfaces with
                            | SurfacesArray l => l
                            | _ => []
                            end in
            let phishingPrompt :=
              generateInfrastructurePhishingPrompt (json_render domain) surfaces in
            let '(outcome, sent) := callGroqAI ai phishingPrompt SYSTEM_PROMPT in
            match outcome with
            | inr htmlTemplate =>
                (GenSuccess domain htmlTemplate attackSurfaces domain
                            (length surfaces), sent)
            | inl e => (generator_failure e, sent)
            end
        end
  end.

End Generator.

(** [extends r r']: every member of [r] is a member of [r'], a string
    where it was a string, and an array that starts with the elements
    it had where it was an array. *)
Definition extends (r r' : gmap string JsVal) : Prop :=
  forall k v, r !! k = Some v ->
    match v with
    | VStr _ => exists s, r' !! k = Some (VStr s)
    | VList l => exists more, r' !! k = Some (VList (l ++ more))
    end.

(** A tally whose score its findings account for: at most three attack
    vectors and between -10 and 25 points a finding. *)
Definition accounted (t : Tally) : Prop :=
  (length (t_vectors t) <= 3 * length (t_findings t))%nat
  /\ -10 * Z.of_nat (length (t_findings t)) <= t_score t
     <= 25 * Z.of_nat (length (t_findings t)).

(** * Properties *)

(** ** The WHOIS response parser *)

Lemma lookup_set_if_ne c k k' v (r : gmap string JsVal) :
  k <> k' -> set_if c k v r !! k' = r !! k'.
Proof.
  intros Hne. unfold set_if. destruct c; [by rewrite lookup_insert_ne | done].
Qed.

Lemma lookup_set_if_eq k v (r : gmap string JsVal) :
  set_if true k v r !! k = Some (VStr v).
Proof. unfold set_if. by rewrite lookup_insert_eq. Qed.

Lemma lookup_push_ne (c : bool) k k' l (r : gmap string JsVal) :
  k <> k' -> (if c then <[k := VList l]> r else r) !! k' = r !! k'.
Proof. intros Hne. destruct c; [by rewrite lookup_insert_ne | done]. Qed.

Lemma well_typed_empty : well_typed ∅.
Proof. intros k v H. by rewrite lookup_empty in H. Qed.

Lemma well_typed_set_if c k v r :
  k <> "nameservers" -> k <> "status" -> v <> "" ->
  well_typed r -> well_typed (set_if c k v r).
Proof.
  intros Hn Hs Hv Hr. unfold set_if. destruct c; [|done].
  intros k' v'. rewrite lookup_insert. case_decide as Hk.
  - intros [= <-]. by subst.
  - apply Hr.
Qed.

Lemma well_typed_push (c : bool) k l (r : gmap string JsVal) :
  k = "nameservers" \/ k = "status" ->
  well_typed r ->
  well_typed (if c then <[k := VList l]> r else r).
Proof.
  intros Hk Hr. destruct c; [|done].
  intros k' v'. rewrite lookup_insert. case_decide as E.
  - intros [= <-]. by subst.
  - apply Hr.
Qed.

(** On a well-typed record [push] never raises. *)
Lemma push_field_typed k v r :
  k = "nameservers" \/ k = "status" ->
  well_typed r ->
  push_field k v r = Some (<[k := VList (default [] (list_member k r) ++ [v])]> r).
Proof.
  intros Hk Hr. unfold push_field, list_member.
  destruct (r !! k) as [x|] eqn:E.
  - pose proof (Hr _ _ E) as Hx. destruct x as [s|l]; simpl.
    + destruct Hx as (Hn & Hs & _). destruct Hk; contradiction.
    + by rewrite E.
  - rewrite lookup_insert_eq. simpl. by rewrite insert_insert_eq.
Qed.

Lemma push_if_typed c k v r :
  k = "nameservers" \/ k = "status" ->
  well_typed r ->
  push_if c k v r =
  Some (if c then <[k := VList (default [] (list_member k r) ++ [v])]> r else r).
Proof.
  intros Hk Hr. unfold push_if. destruct c; [by apply push_field_typed | done].
Qed.

Ltac typed_chain :=
  repeat first
    [ assumption
    | apply well_typed_set_if; [discriminate | discriminate | assumption | ]
    | apply well_typed_push; [auto | ] ].

Ltac skip_other_keys :=
  repeat first
    [ rewrite lookup_set_if_ne by discriminate
    | rewrite lookup_push_ne by discriminate ].

(** What the chain of [if] statements does to a well-typed record. *)
Lemma route_typed key value r :
  value <> "" -> well_typed r ->
  exists r', route key value r = Some r' /\ well_typed r' /\
    ((includes key "registrant" && includes key "email")%bool = true ->
       r' !! "registrant_email" = Some (VStr value)) /\
    ((includes key "name server" || includes key "nameserver")%bool = true ->
       r' !! "nameservers" =
       Some (VList (default [] (list_member "nameservers" r) ++ [value]))) /\
    (includes key "status" = true ->
       r' !! "status" = Some (VList (default [] (list_member "status" r) ++ [value]))) /\
    (matched key = false -> r' = r).
Proof.
  intros Hv Hr. unfold route. cbv zeta.
  rewrite push_if_typed; [|auto|typed_chain].
  rewrite push_if_typed; [|auto|typed_chain].
  eexists; split; [reflexivity|].
  split; [typed_chain|].
  split; [|split; [|split]].
  - intros H. skip_other_keys. rewrite H. apply lookup_set_if_eq.
  - intros H. skip_other_keys. rewrite H. rewrite lookup_insert_eq.
    unfold list_member. skip_other_keys. reflexivity.
  - intros H. skip_other_keys. rewrite H. rewrite lookup_insert_eq.
    unfold list_member. skip_other_keys. reflexivity.
  - unfold matched. cbv zeta. intros H.
    repeat (apply orb_false_elim in H; destruct H as [H ?]).
    repeat match goal with E : _ = false |- _ => rewrite E; clear E end.
    reflexivity.
Qed.

Lemma str_empty_false s : str_empty s = false -> s <> "".
Proof. destruct s; [discriminate | intros _; discriminate]. Qed.

Lemma str_empty_true s : str_empty s = true -> s = "".
Proof. destruct s; [reflexivity | discriminate]. Qed.

Lemma parse_line_typed line r :
  well_typed r -> exists r', parse_line line r = Some r' /\ well_typed r'.
Proof.
  intros Hr. unfold parse_line.
  destruct (skipped_line (trim line)); [eauto|].
  destruct (indexOf (trim line) ":") as [i|]; [|eauto].
  destruct (str_empty (trim (str_drop (S i) (trim line)))) eqn:Ev; [eauto|].
  destruct (route_typed (toLowerCase (trim (str_take i (trim line))))
              _ r (str_empty_false _ Ev) Hr) as (r' & E & Hr' & _).
  eauto.
Qed.

Lemma parse_lines_typed lines : forall r,
  well_typed r -> exists r', parse_lines lines r = Some r' /\ well_typed r'.
Proof.
  induction lines as [|line rest IH]; intros r Hr; simpl; [eauto|].
  destruct (parse_line_typed line r Hr) as (r1 & E & H1).
  rewrite E. by apply IH.
Qed.

(** The parser never raises, and its record is well typed. *)
Lemma parseWhoisResponse_total whoisText :
  exists r, parseWhoisResponse whoisText = Some r /\ well_typed r.
Proof.
  unfold parseWhoisResponse. destruct (str_empty whoisText).
  - exists ∅. split; [reflexivity | apply well_typed_empty].
  - apply parse_lines_typed, well_typed_empty.
Qed.

Lemma parseWhoisResponse_lines whoisText :
  parseWhoisResponse whoisText = parse_lines (split LF whoisText) ∅.
Proof.
  unfold parseWhoisResponse. destruct whoisText; reflexivity.
Qed.

(** C7, as stated, fails: the line [Status:] is not blank, does not
    begin with [%] or [>], has a colon and a key that contains
    "status", and yet no [status] list is appended to, because the
    value after the colon is empty. *)
Lemma C7_empty_value_not_routed :
  ~ (forall line result, well_typed result ->
       forall i, skipped_line (trim line) = false ->
         indexOf (trim line) ":" = Some i ->
         includes (toLowerCase (trim (str_take i (trim line)))) "status" = true ->
         exists r', parse_line line result = Some r' /\
           r' !! "status" =
           Some (VList (default [] (list_member "status" result)
                        ++ [trim (str_drop (S i) (trim line))]))).
Proof.
  intros H.
  destruct (H "Status:" ∅ well_typed_empty 6%nat eq_refl eq_refl eq_refl)
    as (r' & E & L).
  vm_compute in E. injection E as <-. vm_compute in L. discriminate.
Qed.

(** C7, amended: [parseWhoisResponse] is total (the model's [None], an
    exception, is never returned) and folds [parse_line] over the lines
    of the text; a line of ASCII characters that is blank, begins with
    [%] or [>], has no colon, or has an empty value after its first
    colon leaves the record unchanged; on every other line of ASCII
    characters the lowercased key is routed by substring tests: "registrant" and "email" set [registrant_email],
    "name server" or "nameserver" append to [nameservers], "status"
    appends to [status], and a key that matches no test changes
    nothing. *)
Theorem C7_parser_total_and_routing :
  (forall whoisText, exists r,
      parseWhoisResponse whoisText = Some r /\ well_typed r
      /\ parse_lines (split LF whoisText) ∅ = Some r)
  /\
  (forall line result, ascii_text line = true -> well_typed result ->
     exists r', parse_line line result = Some r' /\ well_typed r' /\
       let trimmed := trim line in
       (skipped_line trimmed = true -> r' = result) /\
       (indexOf trimmed ":" = None -> r' = result) /\
       (forall i, skipped_line trimmed = false -> indexOf trimmed ":" = Some i ->
          let key := toLowerCase (trim (str_take i trimmed)) in
          let value := trim (str_drop (S i) trimmed) in
          (value = "" -> r' = result) /\
          (value <> "" ->
             ((includes key "registrant" && includes key "email")%bool = true ->
                r' !! "registrant_email" = Some (VStr value)) /\
             ((includes key "name server" || includes key "nameserver")%bool = true ->
                r' !! "nameservers" =
                Some (VList (default [] (list_member "nameservers" result) ++ [value]))) /\
             (includes key "status" = true ->
                r' !! "status" =
                Some (VList (default [] (list_member "status" result) ++ [value]))) /\
             (matched key = false -> r' = result)))).
Proof.
  split.
  - intros whoisText.
    destruct (parseWhoisResponse_total whoisText) as (r & E & Hr).
    exists r. repeat split; [done | done |].
    by rewrite <- parseWhoisResponse_lines.
  - intros line result _ Hr. cbv zeta. unfold parse_line.
    destruct (skipped_line (trim line)) eqn:Es.
    { exists result. repeat split; try done. }
    destruct (indexOf (trim line) ":") as [i|] eqn:Ei.
    2:{ exists result. repeat split; try done. }
    destruct (str_empty (trim (str_drop (S i) (trim line)))) eqn:Ev.
    + exists result. split; [done|]. split; [done|].
      split; [done|]. split; [done|].
      intros j _ [= <-]. split; [done|].
      intros Hne. apply str_empty_true in Ev. contradiction.
    + destruct (route_typed (toLowerCase (trim (str_take i (trim line))))
                  _ result (str_empty_false _ Ev) Hr)
        as (r' & E & Hr' & Hreg & Hns & Hst & Hun).
      exists r'. split; [done|]. split; [done|].
      split; [done|]. split; [done|].
      intros j _ [= <-]. split.
      * intros Hv. apply str_empty_false in Ev. contradiction.
      * intros _. auto.
Qed.

Lemma C7_parser_total_and_routing_witness :
  exists r', parse_line "Registrant Email: admin@example.com" ∅ = Some r'
    /\ r' !! "registrant_email" = Some (VStr "admin@example.com").
Proof.
  destruct C7_parser_total_and_routing as [_ H].
  destruct (H "Registrant Email: admin@example.com" ∅ eq_refl well_typed_empty)
    as (r' & E & _ & _ & _ & Hline).
  exists r'. split; [exact E|].
  destruct (Hline 16%nat eq_refl eq_refl) as [_ Hv].
  destruct (Hv ltac:(discriminate)) as (Hreg & _).
  exact (Hreg eq_refl).
Defined.

(** ** The stable sort *)

Lemma Forall_sort_insert {A : Type} (cmp : A -> A -> Z) (P : A -> Prop) x l :
  P x -> Forall P l -> Forall P (sort_insert cmp x l).
Proof.
  intros Hx Hl. induction Hl as [|y l Hy Hl IH]; simpl.
  - by constructor.
  - destruct (cmp x y <=? 0); repeat constructor; auto.
Qed.

Lemma Forall_js_sort {A : Type} (cmp : A -> A -> Z) (P : A -> Prop) l :
  Forall P l -> Forall P (js_sort cmp l).
Proof.
  induction 1 as [|x l Hx Hl IH]; simpl; [constructor|].
  by apply Forall_sort_insert.
Qed.

Lemma In_sort_insert {A : Type} (cmp : A -> A -> Z) x y l :
  In y (sort_insert cmp x l) <-> y = x \/ In y l.
Proof.
  induction l as [|z l IH]; simpl.
  - intuition.
  - destruct (cmp x z <=? 0); simpl; [intuition|]. rewrite IH. intuition.
Qed.

(** Sorting neither adds nor drops an element. *)
Lemma In_js_sort {A : Type} (cmp : A -> A -> Z) y l :
  In y (js_sort cmp l) <-> In y l.
Proof.
  induction l as [|x l IH]; simpl; [tauto|].
  rewrite In_sort_insert, IH. intuition.
Qed.

Lemma length_sort_insert {A : Type} (cmp : A -> A -> Z) x l :
  length (sort_insert cmp x l) = S (length l).
Proof.
  induction l as [|z l IH]; simpl; [done|].
  destruct (cmp x z <=? 0); simpl; by rewrite ?IH.
Qed.

Lemma length_js_sort {A : Type} (cmp : A -> A -> Z) (l : list A) :
  length (js_sort cmp l) = length l.
Proof.
  induction l as [|x l IH]; simpl; [done|].
  by rewrite length_sort_insert, IH.
Qed.

(** An element that scores at least as much as the head of a sorted
    list, and was pushed before it, goes in front. *)
Lemma sort_insert_front x l :
  Forall (fun y => score_or_0 y <= score_or_0 x) l ->
  sort_insert by_risk x l = x :: l.
Proof.
  intros H. destruct H as [|y l Hy _]; simpl; [done|].
  unfold by_risk. destruct (Z.leb_spec (score_or_0 y - score_or_0 x) 0); [done | lia].
Qed.

Lemma ranked_before_sort_insert x l :
  Forall (fun y => (vector_rank x < vector_rank y)%nat) l ->
  StronglySorted ranked_before l ->
  StronglySorted ranked_before (sort_insert by_risk x l).
Proof.
  intros Hrank Hs. induction Hs as [|y l Hs IH Hy]; simpl.
  - repeat constructor.
  - inversion Hrank as [|? ? Hxy Hxl]; subst.
    unfold by_risk at 1.
    destruct (Z.leb_spec (score_or_0 y - score_or_0 x) 0) as [Hle|Hgt].
    + constructor; [by constructor|].
      constructor.
      * unfold ranked_before. lia.
      * rewrite Forall_forall in Hy, Hxl |- *. intros z Hz.
        specialize (Hy z Hz). specialize (Hxl z Hz).
        unfold ranked_before in *. lia.
    + constructor; [by apply IH|].
      apply Forall_sort_insert; [|done].
      unfold ranked_before. lia.
Qed.

(** Stability: a list pushed in insertion order comes out ordered by
    score, ties in insertion order. *)
Lemma ranked_before_js_sort l :
  StronglySorted (fun a b => (vector_rank a < vector_rank b)%nat) l ->
  StronglySorted ranked_before (js_sort by_risk l).
Proof.
  induction 1 as [|x l Hs IH Hx]; simpl; [constructor|].
  apply ranked_before_sort_insert; [|done].
  by apply Forall_js_sort.
Qed.

Lemma StronglySorted_firstn {A : Type} (R : A -> A -> Prop) n : forall l,
  StronglySorted R l -> StronglySorted R (firstn n l).
Proof.
  induction n as [|n IH]; intros l Hs; [constructor|].
  destruct Hs as [|x l Hs Hx]; simpl; [constructor|].
  constructor; [by apply IH|]. by apply Forall_take.
Qed.

Lemma StronglySorted_lookup {A : Type} (R : A -> A -> Prop) (l : list A) :
  StronglySorted R l ->
  forall (i j : nat) a b, (i < j)%nat -> l !! i = Some a -> l !! j = Some b -> R a b.
Proof.
  induction 1 as [|x l Hs IH Hx]; intros i j a b Hij Hi Hj; [done|].
  destruct j as [|j]; [lia|]. simpl in Hj.
  destruct i as [|i]; simpl in Hi.
  - injection Hi as <-. rewrite Forall_forall in Hx. apply Hx.
    by eapply list_elem_of_lookup_2.
  - apply (IH i j); [lia | done | done].
Qed.

(** ** The candidates of the extractor *)

Lemma vector_surface v val d t rating : vector (surface v val d t rating) = v.
Proof. by destruct rating as [[? ?] ?]. Qed.

Lemma riskScore_surface v val d t rating :
  riskScore (surface v val d t rating) = Some (snd (fst rating)).
Proof. by destruct rating as [[? ?] ?]. Qed.

Lemma riskSeverity_surface v val d t rating :
  riskSeverity (surface v val d t rating) = Some (fst (fst rating)).
Proof. by destruct rating as [[? ?] ?]. Qed.

Section Candidates.

Variable now : Z.
Variable parseDate : string -> option Z.
Variable data : InfrastructureData.

Ltac shape :=
  first [ by left
        | right; eexists; split; [reflexivity|];
          rewrite vector_surface, riskScore_surface; eauto ].

Lemma registrarSurface_shape :
  one_of "Registrar" (registrarSurface now parseDate data).
Proof.
  unfold registrarSurface.
  destruct (domain_registration data) as [reg|]; [|shape].
  destruct (str_member "registrar" reg) as [r|]; [|shape].
  destruct (str_empty r); shape.
Qed.

Lemma emailSurface_shape : one_of "Email Provider" (emailSurface data).
Proof.
  unfold emailSurface. destruct (email data) as [e|]; [|shape].
  destruct (truthy_str (mx_provider e)); shape.
Qed.

Lemma dnsSurface_shape : one_of "DNS Provider" (dnsSurface data).
Proof.
  unfold dnsSurface. destruct (dns data) as [d|]; [|shape].
  destruct (truthy_str (ns_provider d)); shape.
Qed.

Lemma registrantSurface_shape : one_of "Registrant Contact" (registrantSurface data).
Proof.
  unfold registrantSurface. destruct (domain_registration data) as [reg|]; [|shape].
  cbv zeta. destruct (truthy_str (or_str _ _)); shape.
Qed.

Lemma hostingSurface_shape : one_of "Hosting Provider" (hostingSurface data).
Proof.
  unfold hostingSurface. destruct (hosting data) as [h|]; [|shape].
  destruct (ip_whois h) as [iw|]; [|shape].
  cbv zeta. destruct (truthy_str (or_str _ _)); shape.
Qed.

Lemma webSurface_shape : one_of "Web Server" (webSurface data).
Proof.
  unfold webSurface. destruct (web_server data) as [ws|]; [|shape].
  destruct (truthy_str (or_str _ _)); shape.
Qed.

(** The candidates are pushed in insertion order, each at most once. *)
Lemma candidateSurfaces_in_order :
  StronglySorted (fun a b => (vector_rank a < vector_rank b)%nat)
                 (candidateSurfaces now parseDate data).
Proof.
  unfold candidateSurfaces.
  destruct registrarSurface_shape as [-> | (s1 & -> & V1 & _)];
  destruct emailSurface_shape as [-> | (s2 & -> & V2 & _)];
  destruct dnsSurface_shape as [-> | (s3 & -> & V3 & _)];
  destruct registrantSurface_shape as [-> | (s4 & -> & V4 & _)];
  destruct hostingSurface_shape as [-> | (s5 & -> & V5 & _)];
  destruct webSurface_shape as [-> | (s6 & -> & V6 & _)];
  simpl; repeat constructor;
  unfold vector_rank;
  repeat match goal with V : vector _ = _ |- _ => rewrite V; clear V end;
  simpl; lia.
Qed.

Lemma candidateSurfaces_scored :
  Forall (fun a => exists n, riskScore a = Some n) (candidateSurfaces now parseDate data).
Proof.
  unfold candidateSurfaces.
  destruct registrarSurface_shape as [-> | (s1 & -> & _ & N1)];
  destruct emailSurface_shape as [-> | (s2 & -> & _ & N2)];
  destruct dnsSurface_shape as [-> | (s3 & -> & _ & N3)];
  destruct registrantSurface_shape as [-> | (s4 & -> & _ & N4)];
  destruct hostingSurface_shape as [-> | (s5 & -> & _ & N5)];
  destruct webSurface_shape as [-> | (s6 & -> & _ & N6)];
  simpl; repeat constructor; assumption.
Qed.

End Candidates.

(** C2: the list returned by [extractTop5AttackSurfaces] has at most 5
    entries; every entry carries a [riskScore] and each is at least the
    next one; and of two entries with the same [riskScore] the one whose
    vector is earlier in the insertion order Registrar, Email Provider,
    DNS Provider, Registrant Contact, Hosting Provider, Web Server comes
    first. *)
Theorem C2_top5_sorted_stable now parseDate data riskScores :
  let out := extractTop5AttackSurfaces now parseDate data riskScores in
  (length out <= 5)%nat
  /\ (forall (i : nat) a b, out !! i = Some a -> out !! S i = Some b ->
        exists x y, riskScore a = Some x /\ riskScore b = Some y /\ x >= y)
  /\ (forall (i j : nat) a b, (i < j)%nat -> out !! i = Some a -> out !! j = Some b ->
        riskScore a = riskScore b -> (vector_rank a < vector_rank b)%nat).
Proof.
  cbv zeta. unfold extractTop5AttackSurfaces.
  pose proof (candidateSurfaces_in_order now parseDate data) as Hord.
  pose proof (candidateSurfaces_scored now parseDate data) as Hsc.
  set (l := candidateSurfaces now parseDate data) in *.
  assert (Hs : StronglySorted ranked_before (firstn 5 (js_sort by_risk l)))
    by (apply StronglySorted_firstn, ranked_before_js_sort, Hord).
  assert (Hn : Forall (fun a => exists n, riskScore a = Some n)
                      (firstn 5 (js_sort by_risk l)))
    by (apply Forall_take, Forall_js_sort, Hsc).
  rewrite Forall_forall in Hn.
  split; [rewrite length_take; lia|].
  split.
  - intros i a b Ha Hb.
    destruct (Hn a) as [x Hx]; [by eapply list_elem_of_lookup_2|].
    destruct (Hn b) as [y Hy]; [by eapply list_elem_of_lookup_2|].
    exists x, y. split; [done|]. split; [done|].
    pose proof (StronglySorted_lookup _ _ Hs i (S i) a b ltac:(lia) Ha Hb) as R.
    unfold ranked_before, score_or_0 in R. rewrite Hx, Hy in R. lia.
  - intros i j a b Hij Ha Hb Heq.
    pose proof (StronglySorted_lookup _ _ Hs i j a b Hij Ha Hb) as R.
    unfold ranked_before, score_or_0 in R. rewrite Heq in R.
    destruct R as [R | [_ R]]; [|done].
    destruct (riskScore b); lia.
Qed.

(** ** The risk scoring engine *)

Ltac split_cases :=
  repeat match goal with
         | |- context [match ?x with _ => _ end] => destruct x
         end.

Ltac tally := cbn [score risk_entry web_risk_entry t_score bump tally0]; lia.

(** One rule of a category: name the tally after the rule and bound its
    score, given the bounds of the tally before. *)
Ltac rule lo hi :=
  lazymatch goal with
  | |- context [let t := ?v in _] =>
      let t' := fresh "t" in
      let H := fresh "H" in
      assert (H : lo <= t_score v <= hi) by (cbv zeta; split_cases; tally);
      set (t' := v) in *; clearbody t';
      repeat match goal with
             | |- context C [let t := t' in @?body t] =>
                 let g := context C [body t'] in change g; cbv beta
             end
  end.

Lemma registrationRisk_bounds now parseDate regData :
  0 <= score (registrationRisk now parseDate regData) <= 83.
Proof.
  cbv beta delta [registrationRisk].
  rule 0 0. rule 0 25. rule 0 45. rule 0 55. rule 0 63. rule 0 68. rule 0 83.
  tally.
Qed.

Lemma dnsRisk_bounds dnsData : -15 <= score (dnsRisk dnsData) <= 55.
Proof.
  cbv beta delta [dnsRisk].
  rule 0 0. rule (-5) 10. rule (-15) 30. rule (-15) 45. rule (-15) 55. tally.
Qed.

Lemma emailRisk_bounds emailData : -20 <= score (emailRisk emailData) <= 70.
Proof.
  cbv beta delta [emailRisk].
  rule 0 0. rule (-10) 25. rule (-20) 45. rule (-20) 60. rule (-20) 70. tally.
Qed.

Lemma hostingRisk_bounds hostingData : 0 <= score (hostingRisk hostingData) <= 40.
Proof.
  cbv beta delta [hostingRisk].
  rule 0 0. rule 0 40.
  tally.
Qed.

Lemma webRisk_bounds webData : -5 <= score (webRisk webData) <= 5.
Proof.
  cbv beta delta [webRisk]. rule 0 0. rule 0 0. rule (-5) 5. tally.
Qed.

Lemma In_risk_of {A : Type} (f : A -> RiskScore) (section : option A) r :
  In r (risk_of f section) -> exists x, section = Some x /\ r = f x.
Proof.
  destruct section as [x|]; simpl; [|tauto].
  intros [<- | []]. eauto.
Qed.

(** What holds of every score: the upper clamp, and no lower clamp
    beyond the most negative sum of contributions. *)
Lemma calculateInfrastructureRisks_bounds now parseDate data r :
  In r (calculateInfrastructureRisks now parseDate data) -> -20 <= score r <= 100.
Proof.
  unfold calculateInfrastructureRisks. rewrite !in_app_iff.
  intros [H | [H | [H | [H | H]]]];
    apply In_risk_of in H; destruct H as (x & _ & ->).
  - pose proof (registrationRisk_bounds now parseDate x). lia.
  - pose proof (dnsRisk_bounds x). lia.
  - pose proof (emailRisk_bounds x). lia.
  - pose proof (hostingRisk_bounds x). lia.
  - pose proof (webRisk_bounds x). lia.
Qed.

(** C4 fails on the code: for a domain that publishes SPF and DMARC and
    has two MX records at a hosted mail provider, the handler returns an
    Email Security entry whose [score] is -20, outside [0,100]. Only the
    upper bound is clamped. *)
Theorem C4_negative_score_returned :
  exists result riskScores attackSurfaces r,
    fst (POST hardened_world (Body (FString "example.com")))
    = Success result riskScores attackSurfaces
    /\ In r riskScores /\ category r = "Email Security" /\ score r = -20.
Proof.
  vm_compute. do 4 eexists. split; [reflexivity|].
  split; [right; right; left; reflexivity|]. split; reflexivity.
Qed.

(** ** Missing SPF and DMARC *)

Lemma emailRisk_unprotected emailData :
  truthy_str (spf_record emailData) = false ->
  truthy_str (dmarc_record emailData) = false ->
  45 <= score (emailRisk emailData) <= 70.
Proof.
  intros Hspf Hdmarc. cbv beta delta [emailRisk]. rewrite Hspf, Hdmarc.
  rule 0 0. rule 25 25. rule 45 45. rule 45 60. rule 45 70. tally.
Qed.

Lemma emailRating_unprotected e :
  truthy_str (spf_record e) = false ->
  truthy_str (dmarc_record e) = false ->
  emailRating e = (critical, 90, 90).
Proof. intros Hspf Hdmarc. unfold emailRating. by rewrite Hspf, Hdmarc. Qed.

Section LaterCandidates.

Variable data : InfrastructureData.

Lemma dnsSurface_score :
  Forall (fun y => score_or_0 y <= 80) (dnsSurface data).
Proof.
  unfold dnsSurface, dnsRating. cbv zeta.
  split_cases; repeat constructor; unfold score_or_0; simpl; lia.
Qed.

Lemma registrantSurface_score :
  Forall (fun y => score_or_0 y <= 80) (registrantSurface data).
Proof.
  unfold registrantSurface. cbv zeta.
  destruct (domain_registration data); [|constructor].
  destruct (truthy_str (or_str _ _)); [|constructor].
  destruct (truthy_str (str_member "registrant_email" _));
    repeat constructor; unfold score_or_0; simpl; lia.
Qed.

Lemma hostingSurface_score :
  Forall (fun y => score_or_0 y <= 80) (hostingSurface data).
Proof.
  unfold hostingSurface. cbv zeta.
  destruct (hosting data) as [h|]; [|constructor].
  destruct (ip_whois h) as [iw|]; [|constructor].
  destruct (truthy_str (or_str _ _)); [|constructor].
  destruct (truthy_bool (is_vpn iw) || truthy_bool (is_proxy iw))%bool;
    repeat constructor; unfold score_or_0; simpl; lia.
Qed.

Lemma webSurface_score :
  Forall (fun y => score_or_0 y <= 80) (webSurface data).
Proof.
  unfold webSurface.
  destruct (web_server data) as [ws|]; [|constructor].
  destruct (truthy_str (or_str _ _)); [|constructor].
  repeat constructor; unfold score_or_0; simpl; lia.
Qed.

(** The four candidates pushed after Email Provider score at most 80. *)
Lemma later_candidates_score :
  Forall (fun y => score_or_0 y <= 80)
         (dnsSurface data ++ registrantSurface data ++ hostingSurface data
          ++ webSurface data).
Proof.
  repeat apply Forall_app_2;
    auto using dnsSurface_score, registrantSurface_score, hostingSurface_score,
               webSurface_score.
Qed.

End LaterCandidates.

(** An element that no later element outscores, pushed first or second,
    is first or second after the sort, so the cut to five keeps it. *)
Lemma second_candidate_kept (pre rest : list AttackSurface) s :
  (pre = [] \/ exists r, pre = [r]) ->
  Forall (fun y => score_or_0 y <= score_or_0 s) rest ->
  In s (firstn 5 (js_sort by_risk (pre ++ s :: rest))).
Proof.
  intros Hpre Hrest.
  assert (Hfront : js_sort by_risk (s :: rest) = s :: js_sort by_risk rest).
  { simpl. apply sort_insert_front. by apply Forall_js_sort. }
  destruct Hpre as [-> | (r & ->)].
  - simpl app. rewrite Hfront. simpl. by left.
  - change ([r] ++ s :: rest)%list with (r :: s :: rest).
    change (js_sort by_risk (r :: s :: rest))
      with (sort_insert by_risk r (js_sort by_risk (s :: rest))).
    rewrite Hfront. simpl. destruct (by_risk r s <=? 0); simpl; auto.
Qed.

Lemma email_candidate_kept now parseDate data s riskScores :
  emailSurface data = [s] -> score_or_0 s = 90 ->
  In s (extractTop5AttackSurfaces now parseDate data riskScores).
Proof.
  intros He Hs. unfold extractTop5AttackSurfaces, candidateSurfaces. rewrite He.
  apply second_candidate_kept.
  - destruct (registrarSurface_shape now parseDate data) as [-> | (r & -> & _)]; eauto.
  - eapply Forall_impl; [apply later_candidates_score|]. simpl. intros; lia.
Qed.

Lemma In_firstn_In {A : Type} (x : A) n : forall l, In x (firstn n l) -> In x l.
Proof.
  induction n as [|n IH]; intros [|y l]; simpl; try tauto.
  intros [H | H]; [by left | right; by apply IH].
Qed.

Lemma In_extractTop5 now parseDate data riskScores s :
  In s (extractTop5AttackSurfaces now parseDate data riskScores) ->
  In s (candidateSurfaces now parseDate data).
Proof.
  unfold extractTop5AttackSurfaces. intros H.
  apply (In_js_sort by_risk). by apply In_firstn_In in H.
Qed.

Lemma one_of_vector v l s : one_of v l -> In s l -> vector s = v.
Proof.
  intros [-> | (s' & -> & Hv & _)]; simpl; [tauto|].
  intros [<- | []]. exact Hv.
Qed.

Lemma emailSurface_unprotected data e s :
  email data = Some e ->
  truthy_str (spf_record e) = false -> truthy_str (dmarc_record e) = false ->
  In s (emailSurface data) ->
  riskSeverity s = Some critical /\ score_or_0 s = 90.
Proof.
  intros He Hspf Hdmarc. unfold emailSurface. rewrite He.
  destruct (truthy_str (mx_provider e)); simpl; [|tauto].
  intros [<- | []]. unfold score_or_0.
  rewrite riskSeverity_surface, riskScore_surface, emailRating_unprotected by done.
  done.
Qed.

(** C5: when the [email] section is present and has neither
    [spf_record] nor [dmarc_record], the Email Security entry exists and
    scores at least 45 (25 for the missing SPF, 20 for the missing
    DMARC), and the returned Email Provider attack surface is "critical";
    that surface is returned whenever the section names its
    [mx_provider], which the aggregator always does
    ([reconnaissance_email_provider]). *)
Theorem C5_unprotected_mail now parseDate data e riskScores :
  email data = Some e -> spf_record e = None -> dmarc_record e = None ->
  let risks := calculateInfrastructureRisks now parseDate data in
  let surfaces := extractTop5AttackSurfaces now parseDate data riskScores in
  (exists r, In r risks /\ category r = "Email Security" /\ 45 <= score r)
  /\ (forall r, In r risks -> category r = "Email Security" -> 45 <= score r)
  /\ (forall s, In s surfaces -> vector s = "Email Provider" ->
        riskSeverity s = Some critical)
  /\ (truthy_str (mx_provider e) = true ->
        exists s, In s surfaces /\ vector s = "Email Provider"
                  /\ riskSeverity s = Some critical).
Proof.
  intros He Hspf Hdmarc. cbv zeta.
  assert (Hs : truthy_str (spf_record e) = false) by (by rewrite Hspf).
  assert (Hd : truthy_str (dmarc_record e) = false) by (by rewrite Hdmarc).
  pose proof (emailRisk_unprotected e Hs Hd) as Hscore.
  split; [|split; [|split]].
  - exists (emailRisk e). split; [|split; [reflexivity | lia]].
    unfold calculateInfrastructureRisks. rewrite He, !in_app_iff.
    right; right; left. by left.
  - intros r. unfold calculateInfrastructureRisks. rewrite !in_app_iff.
    intros [H | [H | [H | [H | H]]]] Hcat;
      apply In_risk_of in H; destruct H as (x & Hx & ->);
      try discriminate Hcat.
    rewrite He in Hx. injection Hx as <-. lia.
  - intros s Hin Hv. apply In_extractTop5 in Hin.
    unfold candidateSurfaces in Hin. rewrite !in_app_iff in Hin.
    destruct Hin as [H | [H | [H | [H | [H | H]]]]].
    + apply (one_of_vector _ _ _ (registrarSurface_shape now parseDate data)) in H.
      rewrite H in Hv. discriminate.
    + by apply (emailSurface_unprotected data e s).
    + apply (one_of_vector _ _ _ (dnsSurface_shape data)) in H.
      rewrite H in Hv. discriminate.
    + apply (one_of_vector _ _ _ (registrantSurface_shape data)) in H.
      rewrite H in Hv. discriminate.
    + apply (one_of_vector _ _ _ (hostingSurface_shape data)) in H.
      rewrite H in Hv. discriminate.
    + apply (one_of_vector _ _ _ (webSurface_shape data)) in H.
      rewrite H in Hv. discriminate.
  - intros Hmx.
    destruct (emailSurface_shape data) as [Hnil | (s & Hone & Hv & _)].
    { exfalso. unfold emailSurface in Hnil. rewrite He, Hmx in Hnil. discriminate. }
    assert (Hin : In s (emailSurface data)) by (rewrite Hone; by left).
    destruct (emailSurface_unprotected data e s He Hs Hd Hin) as [Hsev H90].
    exists s. split; [|done]. by apply email_candidate_kept.
Qed.

Lemma C5_unprotected_mail_witness :
  (exists r, In r (calculateInfrastructureRisks 0 (fun _ => None) open_relay_data)
             /\ category r = "Email Security" /\ 45 <= score r)
  /\ (exists s, In s (extractTop5AttackSurfaces 0 (fun _ => None) open_relay_data [])
                /\ vector s = "Email Provider" /\ riskSeverity s = Some critical).
Proof.
  destruct (C5_unprotected_mail 0 (fun _ => None) open_relay_data open_relay_email []
              eq_refl eq_refl eq_refl) as (H1 & _ & _ & H4).
  split; [exact H1 | exact (H4 eq_refl)].
Defined.

(** ** The Registrar candidate *)

Lemma registrarRating_base now parseDate reg :
  str_member "expiration_date" reg = None ->
  str_member "creation_date" reg = None ->
  registrarRating now parseDate reg = (medium, 50, 70).
Proof. intros He Hc. unfold registrarRating. by rewrite He, Hc. Qed.

(** Without the age rule, the expiry decides: under 30 days
    critical/95/0.95, under 90 days high/75/0.85, else medium/50/0.7. *)
Lemma registrarRating_expiry now parseDate reg s d :
  str_member "expiration_date" reg = Some s -> s <> "" ->
  daysUntilExpiry now parseDate s = Some d ->
  str_member "creation_date" reg = None ->
  registrarRating now parseDate reg =
  if d <? 30 then (critical, 95, 95)
  else if d <? 90 then (high, 75, 85)
  else (medium, 50, 70).
Proof.
  intros He Hs Hd Hc. unfold registrarRating. rewrite He, Hc, Hd.
  destruct s; [done|]. simpl. by repeat case_match.
Qed.

(** With the age rule: the severity becomes "high" whatever it was, the
    score and the weight are raised to at least 80 and 0.8. *)
Lemma registrarRating_young now parseDate reg c :
  str_member "creation_date" reg = Some c -> c <> "" ->
  youngerThanOneYear now parseDate c = true ->
  exists sc w, registrarRating now parseDate reg = (high, sc, w)
               /\ 80 <= sc /\ 80 <= w.
Proof.
  intros Hc Hne Hy. unfold registrarRating. rewrite Hc, Hy.
  destruct c; [done|]. simpl.
  match goal with |- context [match ?p with pair _ _ => _ end] => destruct p as [[sev sc] w] end.
  exists (Z.max sc 80), (Z.max w 80). split; [done | lia].
Qed.

(** C9 fails on the code: for a registrar whose domain expires in 10
    days (fewer than 30) and was created 100 days ago (age under one
    year) the candidate is rated high/95/0.95: the age rule overwrites
    the severity "critical" of the expiry rule with "high". *)
Theorem C9_young_domain_loses_critical :
  daysUntilExpiry (1000 * MS_PER_DAY) sample_dates "2026-01-10T00:00:00Z" = Some 10
  /\ youngerThanOneYear (1000 * MS_PER_DAY) sample_dates "2025-09-22T00:00:00Z" = true
  /\ registrarRating (1000 * MS_PER_DAY) sample_dates expiring_young_registration
     = (high, 95, 95)
  /\ exists result riskScores s,
       fst (POST whois_only_world (Body (FString "example.com")))
       = Success result riskScores [s]
       /\ domain_registration result = Some expiring_young_registration
       /\ vector s = "Registrar" /\ riskSeverity s = Some high
       /\ riskScore s = Some 95 /\ weight_hundredths s = Some 95.
Proof.
  split; [vm_compute; reflexivity|]. split; [vm_compute; reflexivity|].
  split; [vm_compute; reflexivity|].
  do 3 eexists. split; [vm_compute; reflexivity|]. repeat split.
Qed.

(** ** The request handler *)

Lemma resolveDNS_trace w d :
  snd (resolveDNS w d) =
  [DnsQuery "NS" d; DnsQuery "A" d; DnsQuery "AAAA" d; DnsQuery "MX" d;
   DnsQuery "TXT" d; DnsQuery "SOA" d; DnsQuery "TXT" ("_dmarc." ++ d)].
Proof. reflexivity. Qed.

Lemma getHttpHeaders_trace w d :
  snd (getHttpHeaders w d) = [HttpHead ("https://" ++ d)].
Proof. reflexivity. Qed.

Lemma getWhoisInfo_trace w d :
  snd (getWhoisInfo w d) =
  match getWhoisServer d with
  | Some whoisServer => [WhoisQuery whoisServer d]
  | None => []
  end.
Proof. unfold getWhoisInfo. by destruct (getWhoisServer d). Qed.

Lemma getIpWhoisInfo_trace w ip :
  snd (getIpWhoisInfo w ip) = [IpLookup ("https://ipwhois.app/json/" ++ ip)].
Proof. reflexivity. Qed.

Lemma push_note_fields msg pre result :
  push_note msg pre = Some result ->
  domain result = domain pre
  /\ domain_registration result = domain_registration pre
  /\ dns result = dns pre /\ hosting result = hosting pre
  /\ web_server result = web_server pre /\ email result = email pre
  /\ warnings_of result = warnings_of pre.
Proof.
  unfold push_note, warnings_of.
  destruct (metadata pre) as [md|]; [|discriminate].
  destruct (notes md); [|discriminate].
  intros [= <-]. repeat split.
Qed.

Ltac run_handler :=
  cbn [bind ret call fst snd push_note push_warning with_metadata with_dns
       with_web_server with_domain_registration with_email with_hosting
       initial_result metadata notes warnings data_sources collection_method].

(** The handler always reaches its normal [return]: [pre] is [result]
    when the risk scores are calculated, before the last note is
    pushed. Each section is decided by the adapters as follows. *)
Lemma reconnaissance_pre w input :
  let clean := cleanDomain input in
  let dnsData := fst (resolveDNS w clean) in
  let whoisData := fst (getWhoisInfo w clean) in
  exists pre result,
    fst (reconnaissance w input) =
      Success result
        (calculateInfrastructureRisks (clock w) (dateTime w) pre)
        (extractTop5AttackSurfaces (clock w) (dateTime w) result
           (calculateInfrastructureRisks (clock w) (dateTime w) pre))
    /\ push_note "Risk scores calculated for each category" pre = Some result
    /\ domain pre = clean
    /\ dns pre = match r_a_records dnsData with
                 | [] => None
                 | _ :: _ => Some (dns_section dnsData)
                 end
    /\ email pre = match r_mx_records dnsData with
                   | [] => None
                   | mx0 :: _ => Some (email_section dnsData mx0)
                   end
    /\ domain_registration pre
       = (if (0 <? size whoisData)%nat then Some whoisData else None)
    /\ warnings_of pre
       = Some (if (0 <? size whoisData)%nat then [] else ["WHOIS data unavailable"])
    /\ hosting pre = match r_a_records dnsData with
                     | ip :: _ =>
                         if str_empty ip then None
                         else Some {| ip_address := Some ip;
                                      ipv6_addresses := Some (r_aaaa_records dnsData);
                                      ip_whois := Some (fst (getIpWhoisInfo w ip)) |}
                     | [] => None
                     end
    /\ snd (reconnaissance w input) =
       (snd (resolveDNS w clean) ++ snd (getHttpHeaders w clean)
        ++ snd (getWhoisInfo w clean) ++ ip_lookup_of (r_a_records dnsData))%list.
Proof.
  cbv zeta. unfold reconnaissance. cbv zeta.
  destruct (resolveDNS w (cleanDomain input)) as [dnsData t1].
  destruct (getHttpHeaders w (cleanDomain input)) as [hh t2].
  destruct (getWhoisInfo w (cleanDomain input)) as [wd t3].
  run_handler.
  destruct (r_a_records dnsData) as [|ip ips].
  - destruct (truthy_str (hh_server_header hh) || truthy_str (hh_powered_by hh))%bool;
    destruct (0 <? size wd)%nat;
    destruct (r_mx_records dnsData) as [|mx0 mxs];
    run_handler; (do 2 eexists; split; [reflexivity|]); (split; [reflexivity|]);
    rewrite ?app_nil_r; repeat split; reflexivity.
  - cbn [ip_lookup_of]. destruct (str_empty ip).
    + destruct (truthy_str (hh_server_header hh) || truthy_str (hh_powered_by hh))%bool;
      destruct (0 <? size wd)%nat;
      destruct (r_mx_records dnsData) as [|mx0 mxs];
      run_handler; (do 2 eexists; split; [reflexivity|]); (split; [reflexivity|]);
      rewrite ?app_nil_r; repeat split; reflexivity.
    + unfold getIpWhoisInfo.
      destruct (truthy_str (hh_server_header hh) || truthy_str (hh_powered_by hh))%bool;
      destruct (0 <? size wd)%nat;
      destruct (r_mx_records dnsData) as [|mx0 mxs];
      run_handler; (do 2 eexists; split; [reflexivity|]); (split; [reflexivity|]);
      rewrite ?app_nil_r; repeat split; reflexivity.
Qed.

Lemma POST_nonempty w domain :
  domain <> "" -> POST w (Body (FString domain)) = reconnaissance w domain.
Proof. intros Hne. unfold POST. by destruct domain. Qed.

(** The aggregator names the mail provider of every [email] section it
    builds. *)
Lemma detectEmailProvider_truthy exchange :
  truthy_str (Some (detectEmailProvider exchange)) = true.
Proof. unfold detectEmailProvider. cbv zeta. by repeat case_match. Qed.

Lemma reconnaissance_email_provider w domain result riskScores attackSurfaces e :
  fst (reconnaissance w domain) = Success result riskScores attackSurfaces ->
  email result = Some e -> truthy_str (mx_provider e) = true.
Proof.
  destruct (reconnaissance_pre w domain)
    as (pre & res & E & Hnote & _ & _ & Hemail & _).
  rewrite E. intros [= <- _ _].
  apply push_note_fields in Hnote. destruct Hnote as (_ & _ & _ & _ & _ & -> & _).
  rewrite Hemail. destruct (r_mx_records _) as [|mx0 mxs]; [discriminate|].
  intros [= <-]. apply detectEmailProvider_truthy.
Qed.

(** The only warning the handler ever records is the one of the WHOIS
    client, and it records it exactly when that client returns an empty
    record. *)
Lemma reconnaissance_warnings w domain result riskScores attackSurfaces :
  fst (reconnaissance w domain) = Success result riskScores attackSurfaces ->
  warnings_of result =
  Some (if (0 <? size (fst (getWhoisInfo w (cleanDomain domain))))%nat
        then [] else ["WHOIS data unavailable"]).
Proof.
  destruct (reconnaissance_pre w domain)
    as (pre & res & E & Hnote & _ & _ & _ & _ & Hwarn & _).
  rewrite E. intros [= <- _ _].
  apply push_note_fields in Hnote. destruct Hnote as (_ & _ & _ & _ & _ & _ & ->).
  exact Hwarn.
Qed.

(** C1, as stated, fails: a body whose [domain] is the empty string
    holds a string, and the handler answers it with the error response
    of status 400. *)
Lemma C1_empty_domain_is_rejected :
  ~ (forall w domain, all_lookups_fail w ->
       exists result riskScores attackSurfaces ws,
         fst (POST w (Body (FString domain)))
         = Success result riskScores attackSurfaces
         /\ warnings_of result = Some ws /\ ws <> []).
Proof.
  intros H.
  assert (Hdead : all_lookups_fail dead_world) by (repeat split).
  destruct (H dead_world "" Hdead) as (r & rs & su & ws & E & _).
  discriminate E.
Qed.

(** C1, amended: for every request whose body holds a non-empty string
    [domain], when every external lookup fails the handler returns the
    success response [{result, riskScores, attackSurfaces}]; both lists
    are empty, every section of [result] is absent, and
    [result.metadata.warnings] is ["WHOIS data unavailable"], hence not
    empty. *)
Theorem C1_total_failure_is_success w input :
  all_lookups_fail w -> input <> "" ->
  exists result,
    fst (POST w (Body (FString input))) = Success result [] []
    /\ warnings_of result = Some ["WHOIS data unavailable"]
    /\ domain result = cleanDomain input
    /\ domain_registration result = None /\ dns result = None
    /\ hosting result = None /\ web_server result = None /\ email result = None.
Proof.
  intros (Hns & H4 & H6 & Hmx & Htxt & Hsoa & Hwho & Hhead & _) Hne.
  rewrite POST_nonempty by done.
  unfold reconnaissance, resolveDNS, getHttpHeaders, getWhoisInfo.
  rewrite Hns, H4, H6, Hmx, !Htxt, Hsoa, Hhead.
  destruct (getWhoisServer (cleanDomain input)) as [whoisServer|].
  - rewrite Hwho. eexists. split; [reflexivity|]. repeat split.
  - eexists. split; [reflexivity|]. repeat split.
Qed.

Lemma C1_total_failure_is_success_witness :
  exists result,
    fst (POST dead_world (Body (FString "example.com"))) = Success result [] []
    /\ warnings_of result = Some ["WHOIS data unavailable"].
Proof.
  assert (Hdead : all_lookups_fail dead_world) by (repeat split).
  destruct (C1_total_failure_is_success dead_world "example.com" Hdead
              ltac:(discriminate)) as (result & E & Hw & _).
  exists result. split; [exact E | exact Hw].
Defined.

(** ** Normalisation of the domain *)

Lemma lower_char_not_upper c : is_upper (lower_char c) = false.
Proof. destruct c as [[] [] [] [] [] [] [] []]; reflexivity. Qed.

Lemma lower_char_slash c : lower_char c = "/"%char -> c = "/"%char.
Proof. destruct c as [[] [] [] [] [] [] [] []]; vm_compute; congruence. Qed.

Lemma toLowerCase_chars s :
  list_ascii_of_string (toLowerCase s) = List.map lower_char (list_ascii_of_string s).
Proof. induction s as [|c s IH]; simpl; [done | by rewrite IH]. Qed.

Lemma hd_split_no_sep sep s :
  Forall (fun c => c <> sep) (list_ascii_of_string (List.hd "" (split sep s))).
Proof.
  induction s as [|c s IH]; simpl; [constructor|].
  destruct (Ascii.eqb_spec c sep) as [->|Hne]; simpl; [constructor|].
  destruct (split sep s) as [|h t]; simpl in *; constructor; auto.
Qed.

(** What does hold of [cleanDomain]: no upper-case letter and no path. *)
Lemma cleanDomain_lowercase_no_path domain :
  Forall (fun c => is_upper c = false /\ c <> "/"%char)
         (list_ascii_of_string (cleanDomain domain)).
Proof.
  unfold cleanDomain. rewrite toLowerCase_chars.
  apply Forall_map.
  eapply Forall_impl; [apply (hd_split_no_sep "/")|].
  simpl. intros c Hc. split; [apply lower_char_not_upper|].
  intros H. by apply lower_char_slash in H.
Qed.

Lemma reconnaissance_domain w input result riskScores attackSurfaces :
  fst (reconnaissance w input) = Success result riskScores attackSurfaces ->
  domain result = cleanDomain input.
Proof.
  destruct (reconnaissance_pre w input) as (pre & res & E & Hnote & Hdom & _).
  rewrite E. intros [= <- _ _].
  apply push_note_fields in Hnote. destruct Hnote as (-> & _). exact Hdom.
Qed.

(** C3 fails on the code: the scheme and the [www.] prefix are matched
    case-sensitively, before the text is lowercased, so for the input
    [HTTPS://WWW.Example.com/path] nothing is stripped, the cut at the
    first "/" keeps [HTTPS:], and the returned [domain] is [https:],
    not [example.com]. The lowercase spelling of the same input does
    yield [example.com]. *)
Theorem C3_uppercase_scheme_not_stripped :
  cleanDomain "HTTPS://WWW.Example.com/path" = "https:"
  /\ cleanDomain "https://www.Example.com/path" = "example.com"
  /\ exists result riskScores attackSurfaces,
       fst (POST dead_world (Body (FString "HTTPS://WWW.Example.com/path")))
       = Success result riskScores attackSurfaces
       /\ domain result = "https:".
Proof.
  split; [reflexivity|]. split; [reflexivity|].
  do 3 eexists. split; reflexivity.
Qed.

(** ** The gate on the A records *)

Lemma In_ip_lookup_of e l : In e (ip_lookup_of l) -> l <> [].
Proof. destruct l; simpl; [tauto | discriminate]. Qed.

(** C6: when DNS resolution returns no A record, the handler makes no
    call to the IP-reputation service, and the [InfrastructureData] it
    returns has no [hosting] section. *)
Theorem C6_no_a_record_no_hosting w domain :
  resolved_a_records w domain = [] ->
  (forall url, ~ In (IpLookup url) (snd (POST w (Body (FString domain)))))
  /\ (forall result riskScores attackSurfaces,
        fst (POST w (Body (FString domain)))
        = Success result riskScores attackSurfaces ->
        hosting result = None).
Proof.
  unfold resolved_a_records. intros Ha.
  destruct domain as [|c domain']; [split; [intros url []| discriminate]|].
  set (domain := String c domain') in *.
  rewrite POST_nonempty by done.
  destruct (reconnaissance_pre w domain)
    as (pre & res & E & Hnote & _ & _ & _ & _ & _ & Hhost & Htrace).
  rewrite Ha in Hhost, Htrace. split.
  - intros url. rewrite Htrace, resolveDNS_trace, getHttpHeaders_trace,
      getWhoisInfo_trace.
    destruct (getWhoisServer (cleanDomain domain)); simpl;
      intros H; repeat (destruct H as [H | H]; [discriminate|]); exact H.
  - intros result rs su. rewrite E. intros [= <- _ _].
    apply push_note_fields in Hnote.
    destruct Hnote as (_ & _ & _ & -> & _). exact Hhost.
Qed.

Lemma C6_no_a_record_no_hosting_witness :
  resolved_a_records no_a_world "example.com" = []
  /\ (forall url, ~ In (IpLookup url) (snd (POST no_a_world (Body (FString "example.com")))))
  /\ (forall result riskScores attackSurfaces,
        fst (POST no_a_world (Body (FString "example.com")))
        = Success result riskScores attackSurfaces ->
        hosting result = None).
Proof.
  assert (Ha : resolved_a_records no_a_world "example.com" = [])
    by (vm_compute; reflexivity).
  split; [exact Ha|].
  exact (C6_no_a_record_no_hosting no_a_world "example.com" Ha).
Defined.

(** C8 fails on the code: with the resolver and the HEAD request both
    failing (so that the IP lookup is not even tried) and only the WHOIS
    server answering, the handler returns no [dns], [web_server] or
    [hosting] section and an empty [warnings] list: the adapters that
    returned nothing are not mentioned. Only a WHOIS failure is ever
    recorded ([reconnaissance_warnings]). *)
Theorem C8_silent_adapters_leave_no_warning :
  exists result riskScores attackSurfaces,
    fst (POST whois_only_world (Body (FString "example.com")))
    = Success result riskScores attackSurfaces
    /\ dns result = None /\ web_server result = None /\ hosting result = None
    /\ warnings_of result = Some [].
Proof. do 3 eexists. split; [vm_compute; reflexivity|]. repeat split. Qed.

(** A rendered integer starts with a digit or a minus sign. *)
Lemma string_of_Z_head z rest tail : string_of_Z z ++ rest <> String "N" tail.
Proof.
  unfold string_of_Z. destruct (Z.to_int z) as [d|d]; simpl; [|discriminate].
  destruct d; simpl; discriminate.
Qed.

(** With an A record in the section, the "No A records" rule of the DNS
    Security category does not fire. *)
Lemma dnsRisk_with_a_record d x l :
  a_records d = Some (x :: l) -> ~ In NO_A_RECORDS (findings (dnsRisk d)).
Proof.
  intros Ha. unfold dnsRisk. cbv zeta. rewrite Ha.
  split_cases;
    cbn [findings risk_entry bump tally0 t_findings app In];
    intros H;
    repeat match goal with
           | H : _ \/ _ |- _ => destruct H as [H | H]
           | H : False |- _ => destruct H
           | H : _ = NO_A_RECORDS |- _ =>
               first [ discriminate H | by apply string_of_Z_head in H ]
           end.
Qed.

(** C10: when DNS resolution returns no A record the returned
    [InfrastructureData] has no [dns] section, whatever the other
    record-type queries returned, and no "DNS Security" entry is among
    the risk scores; and in no response does a "DNS Security" entry
    carry the finding of the "No A records found" rule. *)
Theorem C10_dns_section_gated w domain result riskScores attackSurfaces :
  fst (POST w (Body (FString domain))) = Success result riskScores attackSurfaces ->
  (resolved_a_records w domain = [] ->
     dns result = None
     /\ forall r, In r riskScores -> category r <> "DNS Security")
  /\ (forall r, In r riskScores -> category r = "DNS Security" ->
        ~ In NO_A_RECORDS (findings r)).
Proof.
  destruct domain as [|c domain']; [discriminate|].
  set (domain := String c domain') in *.
  rewrite POST_nonempty by done. unfold resolved_a_records.
  destruct (reconnaissance_pre w domain)
    as (pre & res & E & Hnote & _ & Hdns & _).
  rewrite E. intros [= <- <- _].
  apply push_note_fields in Hnote. destruct Hnote as (_ & _ & -> & _).
  split.
  - intros Ha. rewrite Ha in Hdns. split; [exact Hdns|].
    intros r. unfold calculateInfrastructureRisks. rewrite Hdns, !in_app_iff.
    intros [H | [H | [H | [H | H]]]];
      apply In_risk_of in H; destruct H as (x & Hx & ->); discriminate.
  - intros r. unfold calculateInfrastructureRisks. rewrite !in_app_iff.
    intros [H | [H | [H | [H | H]]]] Hcat;
      apply In_risk_of in H; destruct H as (x & Hx & ->);
      try discriminate Hcat.
    rewrite Hdns in Hx.
    destruct (r_a_records (fst (resolveDNS w (cleanDomain domain))))
      as [|ip ips] eqn:Ea; [discriminate|].
    injection Hx as <-.
    apply (dnsRisk_with_a_record _ ip ips).
    exact (f_equal Some Ea).
Qed.

Lemma C10_dns_section_gated_witness :
  exists result riskScores attackSurfaces,
    fst (POST no_a_world (Body (FString "example.com")))
    = Success result riskScores attackSurfaces
    /\ r_nameservers (fst (resolveDNS no_a_world (cleanDomain "example.com")))
       = ["ns1.example.net"]
    /\ dns result = None
    /\ forall r, In r riskScores -> category r <> "DNS Security".
Proof.
  destruct (reconnaissance_pre no_a_world "example.com")
    as (pre & result & E & _).
  do 3 eexists. split; [exact E|]. split; [vm_compute; reflexivity|].
  assert (Ha : resolved_a_records no_a_world "example.com" = [])
    by (vm_compute; reflexivity).
  exact (proj1 (C10_dns_section_gated no_a_world "example.com" _ _ _ E) Ha).
Defined.

(** * Further properties *)

(** ** Risk scoring engine: what every entry satisfies *)

Lemma risk_entry_unclamped cat t :
  score (risk_entry cat t) <= 83 ->
  weight_pct (risk_entry cat t) = score (risk_entry cat t)
  /\ severity (risk_entry cat t) = severity_of (score (risk_entry cat t)).
Proof.
  cbn [score weight_pct severity risk_entry]. intros H.
  assert (Z.min (t_score t) 100 = t_score t) as -> by lia. done.
Qed.

Lemma registrationRisk_entry now parseDate regData :
  exists t, registrationRisk now parseDate regData = risk_entry "Domain Registration" t.
Proof. eexists. reflexivity. Qed.

Lemma dnsRisk_entry dnsData : exists t, dnsRisk dnsData = risk_entry "DNS Security" t.
Proof. eexists. reflexivity. Qed.

Lemma emailRisk_entry emailData :
  exists t, emailRisk emailData = risk_entry "Email Security" t.
Proof. eexists. reflexivity. Qed.

Lemma hostingRisk_entry hostingData :
  exists t, hostingRisk hostingData = risk_entry "Hosting Infrastructure" t.
Proof. eexists. reflexivity. Qed.

Lemma webRisk_entry webData : exists t, webRisk webData = web_risk_entry t.
Proof. eexists. reflexivity. Qed.

Lemma risk_entry_is_raw_sum now parseDate data r :
  In r (calculateInfrastructureRisks now parseDate data) ->
  -20 <= score r <= 83
  /\ severity r = severity_of (score r)
  /\ weight_pct r = (if String.eqb (category r) "Web Server"
                     then Z.max (score r) 10 else score r).
Proof.
  unfold calculateInfrastructureRisks. rewrite !in_app_iff.
  intros [H | [H | [H | [H | H]]]];
    apply In_risk_of in H; destruct H as (x & _ & ->).
  - pose proof (registrationRisk_bounds now parseDate x) as B.
    destruct (registrationRisk_entry now parseDate x) as [t E].
    rewrite E in *.
    match type of E with _ = risk_entry ?c _ =>
      destruct (risk_entry_unclamped c t) as [-> ->]; [lia|] end.
    repeat split; try lia.
  - pose proof (dnsRisk_bounds x) as B.
    destruct (dnsRisk_entry x) as [t E].
    rewrite E in *.
    match type of E with _ = risk_entry ?c _ =>
      destruct (risk_entry_unclamped c t) as [-> ->]; [lia|] end.
    repeat split; try lia.
  - pose proof (emailRisk_bounds x) as B.
    destruct (emailRisk_entry x) as [t E].
    rewrite E in *.
    match type of E with _ = risk_entry ?c _ =>
      destruct (risk_entry_unclamped c t) as [-> ->]; [lia|] end.
    repeat split; try lia.
  - pose proof (hostingRisk_bounds x) as B.
    destruct (hostingRisk_entry x) as [t E].
    rewrite E in *.
    match type of E with _ = risk_entry ?c _ =>
      destruct (risk_entry_unclamped c t) as [-> ->]; [lia|] end.
    repeat split; try lia.
  - pose proof (webRisk_bounds x) as B.
    destruct (webRisk_entry x) as [t E]. rewrite E in *.
    revert B. cbn [score severity weight_pct category web_risk_entry String.eqb].
    intros B. assert (Z.min (t_score t) 100 = t_score t) as -> by lia.
    repeat split; try lia.
Qed.

(** X1. The upper clamp [Math.min(score, 100)] never changes a score: no
    category can total more than 83. Hence the returned [score] is the
    raw sum, it lies between -20 and 83, [severity] is the threshold
    function of the returned [score], and [weight] is [score / 100]
    (for Web Server, the larger of that and 0.1). *)
Theorem risk_scores_are_raw_sums now parseDate data r :
  In r (calculateInfrastructureRisks now parseDate data) ->
  -20 <= score r <= 83
  /\ severity r = severity_of (score r)
  /\ weight_pct r = (if String.eqb (category r) "Web Server"
                     then Z.max (score r) 10 else score r).
Proof. apply risk_entry_is_raw_sum. Qed.

Lemma risk_scores_are_raw_sums_witness :
  -20 <= score (emailRisk open_relay_email) <= 83
  /\ severity (emailRisk open_relay_email)
     = severity_of (score (emailRisk open_relay_email)).
Proof.
  assert (H : In (emailRisk open_relay_email)
                 (calculateInfrastructureRisks 0 (fun _ => None) open_relay_data))
    by (vm_compute; left; reflexivity).
  destruct (risk_scores_are_raw_sums 0 (fun _ => None) open_relay_data _ H)
    as (B & S & _).
  split; [exact B | exact S].
Defined.

(** The range of the score of each category. *)
Lemma risk_score_range_by_category now parseDate data r :
  In r (calculateInfrastructureRisks now parseDate data) ->
  (category r = "Domain Registration" /\ 0 <= score r <= 83)
  \/ (category r = "DNS Security" /\ -15 <= score r <= 55)
  \/ (category r = "Email Security" /\ -20 <= score r <= 70)
  \/ (category r = "Hosting Infrastructure" /\ 0 <= score r <= 40)
  \/ (category r = "Web Server" /\ -5 <= score r <= 5).
Proof.
  unfold calculateInfrastructureRisks. rewrite !in_app_iff.
  intros [H | [H | [H | [H | H]]]];
    apply In_risk_of in H; destruct H as (x & _ & ->).
  - left. split; [reflexivity | apply registrationRisk_bounds].
  - right; left. split; [reflexivity | apply dnsRisk_bounds].
  - do 2 right; left. split; [reflexivity | apply emailRisk_bounds].
  - do 3 right; left. split; [reflexivity | apply hostingRisk_bounds].
  - do 4 right. split; [reflexivity | apply webRisk_bounds].
Qed.

(** X2. The severities a category can reach: only Domain Registration can
    be "critical"; Hosting Infrastructure is "info" or "medium"; Web
    Server is always "info"; and no entry is ever "low". *)
Theorem risk_severity_ceilings now parseDate data r :
  In r (calculateInfrastructureRisks now parseDate data) ->
  severity r <> low
  /\ (severity r = critical -> category r = "Domain Registration")
  /\ (category r = "Hosting Infrastructure" -> severity r = info \/ severity r = medium)
  /\ (category r = "Web Server" -> severity r = info).
Proof.
  intros H.
  destruct (risk_entry_is_raw_sum now parseDate data r H) as (_ & -> & _).
  destruct (risk_score_range_by_category now parseDate data r H)
    as [[C B] | [[C B] | [[C B] | [[C B] | [C B]]]]];
    rewrite C; unfold severity_of;
    repeat match goal with
           | |- context [?a <? ?b] => destruct (Z.ltb_spec a b)
           end;
    repeat split; try discriminate; try lia; auto.
Qed.

Lemma risk_severity_ceilings_witness :
  severity (emailRisk open_relay_email) <> low
  /\ (severity (emailRisk open_relay_email) = critical ->
      category (emailRisk open_relay_email) = "Domain Registration").
Proof.
  assert (H : In (emailRisk open_relay_email)
                 (calculateInfrastructureRisks 0 (fun _ => None) open_relay_data))
    by (vm_compute; left; reflexivity).
  destruct (risk_severity_ceilings 0 (fun _ => None) open_relay_data _ H)
    as (L & C & _).
  split; [exact L | exact C].
Defined.

(** X3. The engine returns one entry per section that is present, in the
    fixed order of the categories, and none for an absent section: the
    categories of the result are pairwise distinct and at most five. *)
Theorem risk_categories_follow_sections now parseDate data :
  List.map category (calculateInfrastructureRisks now parseDate data)
  = expected_categories data
  /\ NoDup (expected_categories data)
  /\ (length (calculateInfrastructureRisks now parseDate data) <= 5)%nat.
Proof.
  unfold calculateInfrastructureRisks, expected_categories.
  destruct (domain_registration data), (dns data), (email data), (hosting data),
    (web_server data);
    (split; [reflexivity|]); (split; [|simpl; lia]);
    cbn [present app]; repeat constructor;
    rewrite ?list_elem_of_In; simpl; intuition discriminate.
Qed.

(** ** Attack-surface extractor: what the cut to five keeps *)

Lemma sort_insert_Permutation {A : Type} (cmp : A -> A -> Z) x l :
  Permutation (sort_insert cmp x l) (x :: l).
Proof.
  induction l as [|y l IH]; simpl; [done|].
  destruct (cmp x y <=? 0); [done|].
  rewrite IH. apply perm_swap.
Qed.

(** The sort only reorders. *)
Lemma js_sort_Permutation {A : Type} (cmp : A -> A -> Z) (l : list A) :
  Permutation (js_sort cmp l) l.
Proof.
  induction l as [|x l IH]; simpl; [done|].
  by rewrite sort_insert_Permutation, IH.
Qed.

Lemma StronglySorted_app_In {A : Type} (R : A -> A -> Prop) (l1 l2 : list A) x y :
  StronglySorted R (l1 ++ l2) -> In x l1 -> In y l2 -> R x y.
Proof.
  induction l1 as [|a l1 IH]; simpl; [tauto|].
  intros Hs [-> | Hx] Hy; inversion Hs as [|? ? Hs' Ha]; subst.
  - rewrite Forall_forall in Ha. apply Ha. apply list_elem_of_In, in_app_iff. by right.
  - by apply IH.
Qed.

Lemma webSurface_score_35 data w : webSurface data = [w] -> score_or_0 w = 35.
Proof.
  unfold webSurface. destruct (web_server data) as [ws|]; [|discriminate].
  destruct (truthy_str (or_str _ _)); [|discriminate].
  by intros [= <-].
Qed.

(** At most six candidates; with six of them, Web Server is one. *)
Lemma candidateSurfaces_six now parseDate data :
  (length (candidateSurfaces now parseDate data) <= 6)%nat
  /\ ((5 < length (candidateSurfaces now parseDate data))%nat ->
      exists w, webSurface data = [w]
                /\ In w (candidateSurfaces now parseDate data)).
Proof.
  unfold candidateSurfaces.
  destruct (registrarSurface_shape now parseDate data) as [-> | (s1 & -> & _)];
  destruct (emailSurface_shape data) as [-> | (s2 & -> & _)];
  destruct (dnsSurface_shape data) as [-> | (s3 & -> & _)];
  destruct (registrantSurface_shape data) as [-> | (s4 & -> & _)];
  destruct (hostingSurface_shape data) as [-> | (s5 & -> & _)];
  destruct (webSurface_shape data) as [-> | (s6 & -> & _)];
  simpl; (split; [lia|]); intros Hlen; try lia.
  exists s6. split; [reflexivity | tauto].
Qed.

Lemma candidateSurfaces_vectors_NoDup now parseDate data :
  NoDup (List.map vector (candidateSurfaces now parseDate data)).
Proof.
  unfold candidateSurfaces.
  destruct (registrarSurface_shape now parseDate data) as [-> | (s1 & -> & V1 & _)];
  destruct (emailSurface_shape data) as [-> | (s2 & -> & V2 & _)];
  destruct (dnsSurface_shape data) as [-> | (s3 & -> & V3 & _)];
  destruct (registrantSurface_shape data) as [-> | (s4 & -> & V4 & _)];
  destruct (hostingSurface_shape data) as [-> | (s5 & -> & V5 & _)];
  destruct (webSurface_shape data) as [-> | (s6 & -> & V6 & _)];
  simpl;
  repeat match goal with V : vector _ = _ |- _ => rewrite V; clear V end;
  repeat constructor; rewrite ?list_elem_of_In; simpl; intuition discriminate.
Qed.

(** X4. The extractor returns its candidates reordered, each vector at most
    once, and leaves out at most one of them: only when all six
    candidates exist, and then one that scores at most 35 and no more
    than any surface it returns. *)
Theorem top5_drops_only_the_lowest now parseDate data riskScores :
  let cands := candidateSurfaces now parseDate data in
  let out := extractTop5AttackSurfaces now parseDate data riskScores in
  exists dropped,
    Permutation (out ++ dropped) cands
    /\ length dropped = (length cands - 5)%nat
    /\ (length cands <= 6)%nat
    /\ NoDup (List.map vector out)
    /\ forall d, In d dropped ->
         score_or_0 d <= 35 /\ forall s, In s out -> score_or_0 d <= score_or_0 s.
Proof.
  cbv zeta. unfold extractTop5AttackSurfaces.
  set (cands := candidateSurfaces now parseDate data).
  set (sorted := js_sort by_risk cands).
  destruct (candidateSurfaces_six now parseDate data) as [Hsix Hweb].
  fold cands in Hsix, Hweb.
  assert (Hperm : Permutation sorted cands) by apply js_sort_Permutation.
  assert (Hlen : length sorted = length cands) by apply length_js_sort.
  assert (Hs : StronglySorted ranked_before (take 5 sorted ++ drop 5 sorted)).
  { rewrite take_drop. apply ranked_before_js_sort, candidateSurfaces_in_order. }
  exists (drop 5 sorted).
  split; [by rewrite take_drop|].
  split; [by rewrite length_drop, Hlen|].
  split; [exact Hsix|].
  split.
  { assert (Hnd : NoDup (List.map vector sorted)).
    { assert (List.map vector sorted ≡ₚ List.map vector cands) as ->
        by (by apply Permutation_map).
      apply candidateSurfaces_vectors_NoDup. }
    rewrite <- (take_drop 5 sorted), map_app in Hnd.
    by apply NoDup_app in Hnd as (Hnd & _). }
  intros d Hd.
  assert (Hrank : forall s, In s (take 5 sorted) -> score_or_0 d <= score_or_0 s).
  { intros s Hin. pose proof (StronglySorted_app_In _ _ _ s d Hs Hin Hd) as R.
    unfold ranked_before in R. lia. }
  split; [|exact Hrank].
  assert (Hdl : (0 < length (drop 5 sorted))%nat) by (destruct (drop 5 sorted); simpl in *; [tauto | lia]).
  rewrite length_drop, Hlen in Hdl.
  destruct Hweb as (w & Hw & Hin); [lia|].
  rewrite <- (webSurface_score_35 data w Hw).
  apply (Permutation_in _ (Permutation_sym Hperm)) in Hin.
  rewrite <- (take_drop 5 sorted) in Hin. apply in_app_iff in Hin.
  destruct Hin as [Hin | Hin]; [by apply Hrank|].
  assert (Hone : length (drop 5 sorted) = 1%nat) by (rewrite length_drop, Hlen; lia).
  destruct (drop 5 sorted) as [|a [|b l]]; simpl in Hone; try lia.
  simpl in Hd, Hin. destruct Hd as [<- | []]. destruct Hin as [<- | []]. lia.
Qed.

(** ** Attack-surface extractor: the fields of a returned surface *)

Lemma registrarRating_sound now parseDate reg :
  sound_rating (registrarRating now parseDate reg).
Proof.
  unfold registrarRating.
  match goal with
  | |- context [match str_member "creation_date" reg with
                | Some _ => _ | None => ?r end] => set (r1 := r)
  end.
  assert (H1 : exists sev sc w, r1 = (sev, sc, w) /\ sev <> info
                                /\ 50 <= sc <= 95 /\ 70 <= w <= 95).
  { subst r1. split_cases; do 3 eexists; (split; [reflexivity|]);
      (split; [discriminate | lia]). }
  destruct H1 as (sev & sc & w & -> & Hsev & Hsc & Hw).
  split_cases; unfold sound_rating; (split; [done || discriminate | lia]).
Qed.

Lemma emailRating_sound e : sound_rating (emailRating e).
Proof.
  unfold emailRating. cbv zeta. split_cases; unfold sound_rating;
    (split; [discriminate | lia]).
Qed.

Lemma dnsRating_sound d : sound_rating (dnsRating d).
Proof.
  unfold dnsRating. cbv zeta. split_cases; unfold sound_rating;
    (split; [discriminate | lia]).
Qed.

Lemma surface_sound v val d t rating :
  sound_rating rating -> val <> "" -> In v INSERTION_ORDER ->
  let s := surface v val d t rating in
  exists sev sc w,
    riskSeverity s = Some sev /\ riskScore s = Some sc /\ weight_hundredths s = Some w
    /\ sev <> info /\ 30 <= sc <= 95 /\ 30 <= w <= 95
    /\ In (vector s) INSERTION_ORDER /\ value s <> "".
Proof.
  destruct rating as [[sev sc] w]. intros (Hsev & Hsc & Hw) Hval Hv. simpl.
  exists sev, sc, w. repeat split; auto; lia.
Qed.

Lemma truthy_str_render o : truthy_str o = true -> render o <> "".
Proof. destruct o as [[|c s]|]; simpl; discriminate || done. Qed.

Lemma or_str_truthy a b : truthy_str a = true -> or_str a b = a.
Proof. unfold or_str. by intros ->. Qed.

Lemma extracted_surface_sound now parseDate data riskScores s :
  In s (extractTop5AttackSurfaces now parseDate data riskScores) ->
  exists sev sc w,
    riskSeverity s = Some sev /\ riskScore s = Some sc /\ weight_hundredths s = Some w
    /\ sev <> info /\ 30 <= sc <= 95 /\ 30 <= w <= 95
    /\ In (vector s) INSERTION_ORDER /\ value s <> "".
Proof.
  intros Hin. apply In_extractTop5 in Hin.
  unfold candidateSurfaces in Hin. rewrite !in_app_iff in Hin.
  destruct Hin as [H | [H | [H | [H | [H | H]]]]].
  - unfold registrarSurface in H.
    destruct (domain_registration data) as [reg|]; [|done].
    destruct (str_member "registrar" reg) as [r|]; [|done].
    destruct r as [|c r]; [done|]. destruct H as [<- | []].
    apply surface_sound; [apply registrarRating_sound | done | simpl; tauto].
  - unfold emailSurface in H. destruct (email data) as [e|]; [|done].
    destruct (truthy_str (mx_provider e)) eqn:T; [|done]. destruct H as [<- | []].
    apply surface_sound;
      [apply emailRating_sound | by apply truthy_str_render | simpl; tauto].
  - unfold dnsSurface in H. destruct (dns data) as [d|]; [|done].
    destruct (truthy_str (ns_provider d)) eqn:T; [|done]. destruct H as [<- | []].
    apply surface_sound;
      [apply dnsRating_sound | by apply truthy_str_render | simpl; tauto].
  - unfold registrantSurface in H.
    destruct (domain_registration data) as [reg|]; [|done]. cbv zeta in H.
    destruct (truthy_str (or_str _ _)) eqn:T; [|done]. destruct H as [<- | []].
    apply surface_sound.
    + destruct (truthy_str (str_member "registrant_email" reg));
        unfold sound_rating; (split; [discriminate | lia]).
    + rewrite (or_str_truthy _ _ T). by apply truthy_str_render.
    + simpl; tauto.
  - unfold hostingSurface in H. destruct (hosting data) as [h|]; [|done].
    destruct (ip_whois h) as [iw|]; [|done]. cbv zeta in H.
    destruct (truthy_str (or_str _ _)) eqn:T; [|done]. destruct H as [<- | []].
    apply surface_sound.
    + destruct (truthy_bool (is_vpn iw) || truthy_bool (is_proxy iw))%bool;
        unfold sound_rating; (split; [discriminate | lia]).
    + rewrite (or_str_truthy _ _ T). by apply truthy_str_render.
    + simpl; tauto.
  - unfold webSurface in H. destruct (web_server data) as [ws|]; [|done].
    destruct (truthy_str (or_str _ _)) eqn:T; [|done]. destruct H as [<- | []].
    apply surface_sound.
    + unfold sound_rating. split; [discriminate | lia].
    + unfold or_str at 1. destruct (truthy_str (platform ws)) eqn:P;
        [by apply truthy_str_render | discriminate].
    + simpl; tauto.
Qed.

(** X5. Every surface the extractor returns carries a severity other than
    "info", a [riskScore] between 30 and 95, a [weight] between 0.3 and
    0.95, one of the six vector labels, and a non-empty [value]. *)
Theorem returned_surface_fields now parseDate data riskScores s :
  In s (extractTop5AttackSurfaces now parseDate data riskScores) ->
  exists sev sc w,
    riskSeverity s = Some sev /\ riskScore s = Some sc /\ weight_hundredths s = Some w
    /\ sev <> info /\ 30 <= sc <= 95 /\ 30 <= w <= 95
    /\ In (vector s) INSERTION_ORDER /\ value s <> "".
Proof. apply extracted_surface_sound. Qed.

Lemma returned_surface_fields_witness :
  exists sev sc w,
    riskSeverity open_relay_surface = Some sev
    /\ riskScore open_relay_surface = Some sc
    /\ weight_hundredths open_relay_surface = Some w
    /\ sev <> info /\ 30 <= sc <= 95 /\ 30 <= w <= 95
    /\ In (vector open_relay_surface) INSERTION_ORDER
    /\ value open_relay_surface <> "".
Proof.
  apply (returned_surface_fields 0 (fun _ => None) open_relay_data []).
  vm_compute. left. reflexivity.
Defined.

(** ** WHOIS response parser: the members it can create *)

Ltac known_key := vm_compute; repeat (first [left; reflexivity | right]).

Lemma keys_known_empty : keys_known ∅.
Proof. intros k [v H]. by rewrite lookup_empty in H. Qed.

Lemma keys_known_set_if c k v r :
  In k WHOIS_KEYS -> keys_known r -> keys_known (set_if c k v r).
Proof.
  intros Hk Hr. unfold set_if. destruct c; [|done].
  intros k'. rewrite lookup_insert. case_decide as E; [by subst | apply Hr].
Qed.

Lemma keys_known_push (c : bool) k l (r : gmap string JsVal) :
  In k WHOIS_KEYS -> keys_known r ->
  keys_known (if c then <[k := VList l]> r else r).
Proof.
  intros Hk Hr. destruct c; [|done].
  intros k'. rewrite lookup_insert. case_decide as E; [by subst | apply Hr].
Qed.

Lemma route_keys key value r r' :
  value <> "" -> well_typed r -> keys_known r ->
  route key value r = Some r' -> keys_known r'.
Proof.
  intros Hv Hr Hk. unfold route. cbv zeta.
  rewrite push_if_typed; [|auto|typed_chain].
  rewrite push_if_typed; [|auto|typed_chain].
  intros [= <-].
  repeat first
    [ assumption
    | apply keys_known_set_if; [known_key | ]
    | apply keys_known_push; [known_key | ] ].
Qed.

Lemma parse_line_keys line r r' :
  well_typed r -> keys_known r -> parse_line line r = Some r' -> keys_known r'.
Proof.
  intros Hr Hk. unfold parse_line.
  destruct (skipped_line (trim line)); [by intros [= <-]|].
  destruct (indexOf (trim line) ":") as [i|]; [|by intros [= <-]].
  destruct (str_empty (trim (str_drop (S i) (trim line)))) eqn:Ev; [by intros [= <-]|].
  apply route_keys; [by apply str_empty_false | done | done].
Qed.

Lemma parse_lines_keys lines : forall r r',
  well_typed r -> keys_known r -> parse_lines lines r = Some r' -> keys_known r'.
Proof.
  induction lines as [|line rest IH]; intros r r' Hr Hk; simpl; [by intros [= <-]|].
  destruct (parse_line_typed line r Hr) as (r1 & E & H1). rewrite E.
  apply IH; [done|]. by apply (parse_line_keys line r).
Qed.

(** X6. Whatever the WHOIS server sends, the record has no member outside
    the 31 names the parser assigns to: no part of the response text is
    ever used as a member name. *)
Theorem whois_record_members_are_fixed whoisText :
  exists r, parseWhoisResponse whoisText = Some r
            /\ forall k, is_Some (r !! k) -> In k WHOIS_KEYS.
Proof.
  destruct (parseWhoisResponse_total whoisText) as (r & E & _).
  exists r. split; [done|].
  revert E. unfold parseWhoisResponse. destruct (str_empty whoisText).
  - intros [= <-]. apply keys_known_empty.
  - apply parse_lines_keys; [apply well_typed_empty | apply keys_known_empty].
Qed.

(** ** WHOIS response parser: white space and line endings *)

(** [String.append] is folded by [simpl]; these two steps unfold it. *)
Ltac step_append :=
  repeat first
    [ progress change (String ?x ?s ++ ?t) with (String x (s ++ t))
    | progress change (EmptyString ++ ?t) with t ].

Lemma trimEnd_app_space s c :
  is_space c = true -> trimEnd (s ++ String c "") = trimEnd s.
Proof.
  intros Hc. induction s as [|a s IH]; step_append; simpl; [by rewrite Hc|].
  by rewrite IH.
Qed.

Lemma trimStart_app_space s c :
  is_space c = true ->
  trimStart (s ++ String c "") =
  if str_empty (trimStart s) then "" else trimStart s ++ String c "".
Proof.
  intros Hc. induction s as [|a s IH]; step_append; simpl; [by rewrite Hc|].
  destruct (is_space a); [exact IH | reflexivity].
Qed.

(** [trim] ignores a white space character put after or before. *)
Lemma trim_app_space s c : is_space c = true -> trim (s ++ String c "") = trim s.
Proof.
  intros Hc. unfold trim. rewrite trimStart_app_space by done.
  destruct (trimStart s) eqn:E; simpl; [done|].
  by rewrite trimEnd_app_space.
Qed.

Lemma parse_line_app_space line c r :
  is_space c = true -> parse_line (line ++ String c "") r = parse_line line r.
Proof. intros Hc. unfold parse_line. by rewrite trim_app_space. Qed.

Lemma split_free sep s : free_of sep s -> split sep s = [s].
Proof.
  unfold free_of. induction s as [|c s IH]; simpl; [done|].
  intros H. inversion H as [|? ? Hc Hs]; subst.
  destruct (Ascii.eqb_spec c sep); [done|]. by rewrite IH.
Qed.

Lemma split_app_sep sep a b :
  free_of sep a -> split sep (a ++ String sep b) = a :: split sep b.
Proof.
  unfold free_of. induction a as [|c a IH]; step_append; simpl.
  - intros _. by rewrite Ascii.eqb_refl.
  - intros H. inversion H as [|? ? Hc Ha]; subst.
    destruct (Ascii.eqb_spec c sep); [done|]. by rewrite IH.
Qed.

Lemma free_of_app_CR l : free_of LF l -> free_of LF (l ++ String CR "").
Proof.
  unfold free_of. induction l as [|c l IH]; step_append; simpl.
  - intros _. repeat constructor. discriminate.
  - intros H. inversion H; subst. constructor; auto.
Qed.

Lemma append_assoc_cons (a : string) c b : (a ++ String c "") ++ b = a ++ String c b.
Proof. induction a as [|x a IH]; step_append; [done | by f_equal]. Qed.

(** X7. A response whose lines end in CR LF is parsed as the same response
    with lines ending in LF: the record does not depend on the line
    ending convention of the WHOIS server. *)
Theorem crlf_response_parses_as_lf lines :
  Forall (free_of LF) lines ->
  parseWhoisResponse (join (String CR (String LF "")) lines)
  = parseWhoisResponse (join (String LF "") lines).
Proof.
  intros Hfree. rewrite !parseWhoisResponse_lines.
  generalize (∅ : gmap string JsVal).
  induction Hfree as [|l rest Hl Hrest IH]; intros r; [reflexivity|].
  destruct rest as [|l' rest]; [reflexivity|].
  change (join (String CR (String LF "")) (l :: l' :: rest))
    with (l ++ String CR (String LF (join (String CR (String LF "")) (l' :: rest)))).
  change (join (String LF "") (l :: l' :: rest))
    with (l ++ String LF (join (String LF "") (l' :: rest))).
  rewrite <- append_assoc_cons.
  rewrite !split_app_sep by auto using free_of_app_CR.
  cbn [parse_lines]. rewrite parse_line_app_space by reflexivity.
  destruct (parse_line l r); [apply IH | reflexivity].
Qed.

Ltac no_lf :=
  repeat (constructor;
          [unfold free_of; simpl; repeat (constructor; [discriminate|]); constructor|]);
  constructor.

Lemma crlf_response_parses_as_lf_witness :
  parseWhoisResponse
    (join (String CR (String LF "")) ["Registrar: Example Registrar"; "Domain Status: ok"])
  = parseWhoisResponse
      (join (String LF "") ["Registrar: Example Registrar"; "Domain Status: ok"]).
Proof. apply crlf_response_parses_as_lf. no_lf. Defined.

(** ** The request handler: every accepted request *)

Lemma calculateInfrastructureRisks_sections now parseDate a b :
  domain_registration a = domain_registration b -> dns a = dns b ->
  email a = email b -> hosting a = hosting b -> web_server a = web_server b ->
  calculateInfrastructureRisks now parseDate a
  = calculateInfrastructureRisks now parseDate b.
Proof.
  intros H1 H2 H3 H4 H5. unfold calculateInfrastructureRisks.
  by rewrite H1, H2, H3, H4, H5.
Qed.

Lemma reconnaissance_metadata w input result riskScores attackSurfaces :
  fst (reconnaissance w input) = Success result riskScores attackSurfaces ->
  exists ws, metadata result = Some (response_metadata ws).
Proof.
  unfold reconnaissance. cbv zeta.
  destruct (resolveDNS w (cleanDomain input)) as [dnsData t1].
  destruct (getHttpHeaders w (cleanDomain input)) as [hh t2].
  destruct (getWhoisInfo w (cleanDomain input)) as [wd t3].
  run_handler.
  destruct (r_a_records dnsData) as [|ip ips];
    [|destruct (str_empty ip); [|unfold getIpWhoisInfo]];
    destruct (truthy_str (hh_server_header hh) || truthy_str (hh_powered_by hh))%bool;
    destruct (0 <? size wd)%nat;
    destruct (r_mx_records dnsData) as [|mx0 mxs];
    run_handler; intros [= <- _ _]; eexists; reflexivity.
Qed.

(** X8. Every request whose body holds a non-empty string [domain] gets the
    success response, whatever the lookups return: [riskScores] and
    [attackSurfaces] are those of the returned [result], [result.domain]
    is the cleaned input, and [metadata] always names all four data
    sources (also when no IP lookup was made) and ends its notes with
    "Risk scores calculated for each category". *)
Theorem accepted_request_succeeds w input :
  input <> "" ->
  exists result ws,
    fst (POST w (Body (FString input)))
    = Success result
        (calculateInfrastructureRisks (clock w) (dateTime w) result)
        (extractTop5AttackSurfaces (clock w) (dateTime w) result
           (calculateInfrastructureRisks (clock w) (dateTime w) result))
    /\ domain result = cleanDomain input
    /\ metadata result = Some (response_metadata ws).
Proof.
  intros Hne. rewrite POST_nonempty by done.
  destruct (reconnaissance_pre w input) as (pre & result & E & Hnote & Hdom & _).
  destruct (reconnaissance_metadata w input _ _ _ E) as [ws Hmeta].
  apply push_note_fields in Hnote.
  destruct Hnote as (Hd & Hreg & Hdns & Hhost & Hweb & Hemail & _).
  exists result, ws. split; [|split; [congruence | exact Hmeta]].
  rewrite E.
  by rewrite (calculateInfrastructureRisks_sections _ _ result pre).
Qed.

Lemma accepted_request_succeeds_witness :
  exists result ws,
    fst (POST hardened_world (Body (FString "example.com")))
    = Success result
        (calculateInfrastructureRisks (clock hardened_world) (dateTime hardened_world)
           result)
        (extractTop5AttackSurfaces (clock hardened_world) (dateTime hardened_world)
           result
           (calculateInfrastructureRisks (clock hardened_world)
              (dateTime hardened_world) result))
    /\ domain result = cleanDomain "example.com"
    /\ metadata result = Some (response_metadata ws).
Proof. apply accepted_request_succeeds. discriminate. Defined.



(** ** The request handler: the DNS section *)

Lemma string_of_Z_head_D z rest tail : string_of_Z z ++ rest <> String "D" tail.
Proof.
  unfold string_of_Z. destruct (Z.to_int z) as [d|d]; simpl; [|discriminate].
  destruct d; simpl; discriminate.
Qed.

Lemma dnsRisk_unsigned d x l :
  dnssec d = None -> a_records d = Some (x :: l) ->
  15 <= score (dnsRisk d) <= 45
  /\ In DNSSEC_NOT_ENABLED (findings (dnsRisk d))
  /\ ~ In "DNSSEC enabled" (findings (dnsRisk d)).
Proof.
  intros Hd Ha. split.
  - cbv beta delta [dnsRisk]. rewrite Hd, Ha.
    change (negb (truthy_str None) || false)%bool with true.
    rule 0 0. rule (-5) 10. rule 15 30. rule 15 45. tally.
  - unfold dnsRisk. cbv zeta. rewrite Hd, Ha. cbn [truthy_str negb orb].
    split_cases; cbn [findings risk_entry bump tally0 t_findings app In];
      (split; [unfold DNSSEC_NOT_ENABLED; tauto|]);
      intros H;
      repeat match goal with
             | H : _ \/ _ |- _ => destruct H as [H | H]
             | H : False |- _ => destruct H
             | H : _ = "DNSSEC enabled" |- _ =>
                 first [ discriminate H | by apply string_of_Z_head_D in H ]
             end.
Qed.

Lemma dnsRating_unsigned d :
  dnssec d = None -> dnsRating d = (high, 80, 80) \/ dnsRating d = (medium, 60, 60).
Proof.
  intros Hd. unfold dnsRating. rewrite Hd. cbn [truthy_str andb negb].
  destruct (_ <? _)%nat; auto.
Qed.

(** X10. The handler never fills [dns.dnssec]: whatever the WHOIS record
    says about DNSSEC, every DNS Security entry of a response carries
    the finding "DNSSEC not enabled", never "DNSSEC enabled", and scores
    between 15 and 45; and every DNS Provider attack surface is rated
    80 or 60, never the 50 reserved for a signed zone. *)
Theorem dnssec_is_never_credited w input result riskScores attackSurfaces :
  fst (POST w (Body (FString input))) = Success result riskScores attackSurfaces ->
  (forall r, In r riskScores -> category r = "DNS Security" ->
     In DNSSEC_NOT_ENABLED (findings r) /\ ~ In "DNSSEC enabled" (findings r)
     /\ 15 <= score r <= 45)
  /\ (forall s, In s attackSurfaces -> vector s = "DNS Provider" ->
        riskScore s = Some 80 \/ riskScore s = Some 60).
Proof.
  destruct input as [|c input']; [discriminate|].
  set (input := String c input') in *.
  rewrite POST_nonempty by done.
  destruct (reconnaissance_pre w input) as (pre & res & E & Hnote & _ & Hdns & _).
  rewrite E. intros [= <- <- <-].
  apply push_note_fields in Hnote. destruct Hnote as (_ & _ & Hdns' & _).
  set (dnsData := fst (resolveDNS w (cleanDomain input))) in *.
  split.
  - intros r. unfold calculateInfrastructureRisks. rewrite !in_app_iff.
    intros [H | [H | [H | [H | H]]]] Hcat;
      apply In_risk_of in H; destruct H as (x & Hx & ->);
      try discriminate Hcat.
    rewrite Hdns in Hx.
    destruct (r_a_records dnsData) as [|ip ips] eqn:Ea; [discriminate|].
    injection Hx as <-.
    destruct (dnsRisk_unsigned (dns_section dnsData) ip ips) as (B & F & G);
      [reflexivity | exact (f_equal Some Ea) | done].
  - intros s Hin Hv. apply In_extractTop5 in Hin.
    unfold candidateSurfaces in Hin. rewrite !in_app_iff in Hin.
    destruct Hin as [H | [H | [H | [H | [H | H]]]]].
    + apply (one_of_vector _ _ _ (registrarSurface_shape _ _ res)) in H.
      rewrite H in Hv. discriminate.
    + apply (one_of_vector _ _ _ (emailSurface_shape res)) in H.
      rewrite H in Hv. discriminate.
    + unfold dnsSurface in H. rewrite Hdns', Hdns in H.
      destruct (r_a_records dnsData) as [|ip ips]; [done|].
      destruct (truthy_str _); [|done]. destruct H as [<- | []].
      rewrite riskScore_surface.
      destruct (dnsRating_unsigned (dns_section dnsData) eq_refl) as [-> | ->]; auto.
    + apply (one_of_vector _ _ _ (registrantSurface_shape res)) in H.
      rewrite H in Hv. discriminate.
    + apply (one_of_vector _ _ _ (hostingSurface_shape res)) in H.
      rewrite H in Hv. discriminate.
    + apply (one_of_vector _ _ _ (webSurface_shape res)) in H.
      rewrite H in Hv. discriminate.
Qed.

Lemma dnssec_is_never_credited_witness :
  exists result riskScores attackSurfaces,
    fst (POST hardened_world (Body (FString "example.com")))
    = Success result riskScores attackSurfaces
    /\ forall r, In r riskScores -> category r = "DNS Security" ->
         In DNSSEC_NOT_ENABLED (findings r) /\ ~ In "DNSSEC enabled" (findings r)
         /\ 15 <= score r <= 45.
Proof.
  destruct (reconnaissance_pre hardened_world "example.com") as (pre & result & E & _).
  do 3 eexists. split; [exact E|].
  exact (proj1 (dnssec_is_never_credited hardened_world "example.com" _ _ _ E)).
Defined.

(** X11. When the NS query returns nothing and an A record exists, the label
    "Unknown" of the name-server provider is scored like a managed DNS
    provider (-5); with the missing DNSSEC (+20) and the fewer than two
    name servers (+15) the DNS Security entry is always the same: score
    30, severity "medium". *)
Theorem unknown_nameservers_score_as_managed w input result riskScores attackSurfaces :
  fst (POST w (Body (FString input))) = Success result riskScores attackSurfaces ->
  r_nameservers (fst (resolveDNS w (cleanDomain input))) = [] ->
  resolved_a_records w input <> [] ->
  In unknown_ns_entry riskScores.
Proof.
  destruct input as [|c input']; [discriminate|].
  set (input := String c input') in *.
  rewrite POST_nonempty by done. unfold resolved_a_records.
  destruct (reconnaissance_pre w input) as (pre & res & E & _ & _ & Hdns & _).
  rewrite E. intros [= _ <- _] Hns Ha.
  set (dnsData := fst (resolveDNS w (cleanDomain input))) in *.
  destruct (r_a_records dnsData) as [|ip ips] eqn:Ea; [done|].
  unfold calculateInfrastructureRisks. rewrite Hdns, !in_app_iff.
  right; left. left. unfold dns_section. rewrite Hns, Ea. reflexivity.
Qed.

Lemma unknown_nameservers_score_as_managed_witness :
  exists result riskScores attackSurfaces,
    fst (POST a_only_world (Body (FString "example.com")))
    = Success result riskScores attackSurfaces
    /\ In unknown_ns_entry riskScores.
Proof.
  destruct (reconnaissance_pre a_only_world "example.com") as (pre & result & E & _).
  do 3 eexists. split; [exact E|].
  apply (unknown_nameservers_score_as_managed a_only_world "example.com" _ _ _ E).
  - vm_compute. reflexivity.
  - vm_compute. discriminate.
Defined.

(** ** The request handler: the hosting section *)

(** X12. When the first A record is a non-empty address the response has a
    [hosting] section for that address even if the IP lookup fails:
    [ip_whois] is then the empty record, the Hosting Infrastructure
    entry is present with score 0 and the single finding
    "Organization: Unknown", and no Hosting Provider attack surface is
    returned. *)
Theorem hosting_follows_first_a_record w input result riskScores attackSurfaces ip ips :
  fst (POST w (Body (FString input))) = Success result riskScores attackSurfaces ->
  resolved_a_records w input = ip :: ips -> ip <> "" ->
  hosting result = Some {| ip_address := Some ip;
                           ipv6_addresses :=
                             Some (r_aaaa_records (fst (resolveDNS w (cleanDomain input))));
                           ip_whois := Some (fst (getIpWhoisInfo w ip)) |}
  /\ (exists r, In r riskScores /\ category r = "Hosting Infrastructure")
  /\ (fst (getIpWhoisInfo w ip) = no_ip_whois ->
      In unknown_host_entry riskScores
      /\ forall s, In s attackSurfaces -> vector s <> "Hosting Provider").
Proof.
  destruct input as [|c input']; [discriminate|].
  set (input := String c input') in *.
  rewrite POST_nonempty by done. unfold resolved_a_records.
  destruct (reconnaissance_pre w input)
    as (pre & res & E & Hnote & _ & _ & _ & _ & _ & Hhost & _).
  rewrite E. intros [= <- <- <-] Ha Hip. rewrite Ha in Hhost.
  destruct ip as [|a ip']; [done|]. cbn [str_empty] in Hhost.
  apply push_note_fields in Hnote. destruct Hnote as (_ & _ & _ & Hhost' & _).
  split; [by rewrite Hhost'|].
  split.
  { eexists. split.
    - unfold calculateInfrastructureRisks. rewrite Hhost, !in_app_iff.
      do 3 right; left. by left.
    - reflexivity. }
  intros Hnone. split.
  - unfold calculateInfrastructureRisks. rewrite Hhost, Hnone, !in_app_iff.
    do 3 right; left. by left.
  - intros s Hin Hv. apply In_extractTop5 in Hin.
    unfold candidateSurfaces in Hin. rewrite !in_app_iff in Hin.
    destruct Hin as [H | [H | [H | [H | [H | H]]]]].
    + apply (one_of_vector _ _ _ (registrarSurface_shape _ _ res)) in H.
      rewrite H in Hv. discriminate.
    + apply (one_of_vector _ _ _ (emailSurface_shape res)) in H.
      rewrite H in Hv. discriminate.
    + apply (one_of_vector _ _ _ (dnsSurface_shape res)) in H.
      rewrite H in Hv. discriminate.
    + apply (one_of_vector _ _ _ (registrantSurface_shape res)) in H.
      rewrite H in Hv. discriminate.
    + unfold hostingSurface in H. rewrite Hhost', Hhost in H.
      cbn [ip_whois] in H. rewrite Hnone in H. exact H.
    + apply (one_of_vector _ _ _ (webSurface_shape res)) in H.
      rewrite H in Hv. discriminate.
Qed.

Lemma hosting_follows_first_a_record_witness :
  exists result riskScores attackSurfaces,
    fst (POST a_only_world (Body (FString "example.com")))
    = Success result riskScores attackSurfaces
    /\ In unknown_host_entry riskScores
    /\ forall s, In s attackSurfaces -> vector s <> "Hosting Provider".
Proof.
  destruct (reconnaissance_pre a_only_world "example.com") as (pre & result & E & _).
  do 3 eexists. split; [exact E|].
  assert (Ha : resolved_a_records a_only_world "example.com" = ["93.184.216.34"])
    by (vm_compute; reflexivity).
  assert (Hn : fst (getIpWhoisInfo a_only_world "93.184.216.34") = no_ip_whois)
    by (vm_compute; reflexivity).
  destruct (hosting_follows_first_a_record a_only_world "example.com" _ _ _ _ _ E Ha
              ltac:(discriminate)) as (_ & _ & H).
  exact (H Hn).
Defined.

(** ** IP reputation lookup *)

Lemma keep_str_iff o v : keep_str o = Some v <-> v <> "" /\ o = Some v.
Proof.
  unfold keep_str. destruct o as [[|c s]|]; simpl; split;
    try discriminate; try (intros [_ H]; discriminate).
  - intros [H [= <-]]. done.
  - intros [= <-]. by split.
  - intros [_ H]. exact H.
Qed.

Lemma keep_num_iff o q : keep_num o = Some q <-> Qeq_bool q 0 = false /\ o = Some q.
Proof.
  unfold keep_num. destruct o as [x|]; [|split; [discriminate | intros [_ H]; discriminate]].
  destruct (Qeq_bool x 0) eqn:E; split.
  - discriminate.
  - intros [H [= <-]]. congruence.
  - intros [= <-]. by split.
  - intros [_ H]. exact H.
Qed.

Lemma keep_bool_iff o b : keep_bool o = Some b <-> b = true /\ o = Some b.
Proof.
  unfold keep_bool. destruct o as [[|]|]; simpl; split;
    try discriminate; try (intros [_ H]; discriminate).
  - intros [= <-]. by split.
  - intros [_ H]. exact H.
  - intros [H [= <-]]. discriminate.
Qed.

Lemma answered_unique w ipAddress d1 d2 :
  answered w ipAddress d1 -> answered w ipAddress d2 -> d1 = d2.
Proof.
  intros (r1 & s1 & F1 & _ & B1 & _) (r2 & s2 & F2 & _ & B2 & _).
  rewrite F1 in F2. injection F2 as <-. rewrite B1 in B2. by injection B2.
Qed.

(** The record is built from the answer member by member, and is empty
    when there is no answer to read. *)
Lemma getIpWhoisInfo_answer w ipAddress :
  let info := fst (getIpWhoisInfo w ipAddress) in
  (exists data, answered w ipAddress data
     /\ info = {| asn := keep_str (asn data);
                  organization := keep_str (organization data);
                  isp := keep_str (isp data);
                  country := keep_str (country data);
                  country_code := keep_str (country_code data);
                  continent := keep_str (continent data);
                  city := keep_str (city data);
                  region := keep_str (region data);
                  latitude := keep_num (latitude data);
                  longitude := keep_num (longitude data);
                  is_vpn := keep_bool (is_vpn data);
                  is_proxy := keep_bool (is_proxy data) |})
  \/ ((forall data, ~ answered w ipAddress data) /\ info = no_ip_whois).
Proof.
  cbv zeta. unfold answered, getIpWhoisInfo. cbn [bind call ret fst].
  destruct (fetchIpWhois w _) as [response|].
  2:{ right. split; [|done]. intros d (r & s & F & _). discriminate. }
  destruct (resp_ok response) eqn:Ok.
  2:{ right. split; [|done]. intros d (r & s & [= <-] & Ok' & _). congruence. }
  destruct (json_body response) as [[success data]|] eqn:B.
  2:{ right. split; [|done]. intros d (r & s & [= <-] & _ & B' & _). congruence. }
  destruct success as [[|]|].
  - left. exists data. split; [|done]. exists response, (Some true). by repeat split.
  - right. split; [|done]. intros d (r & s & [= <-] & _ & B' & Hs).
    rewrite B in B'. injection B' as <- <-. done.
  - left. exists data. split; [|done]. exists response, None. by repeat split.
Qed.

(** X13. The record holds a member exactly when the answer of the service
    (the decoded body of an ok response whose [success] is not [false])
    has a truthy value for it, and then holds that value: a non-empty
    string, a coordinate other than zero, the flag [true]. A transport
    failure, a non-2xx status, an undecodable body or [success: false]
    all give the empty record. *)
Theorem ip_whois_keeps_only_truthy_members w ipAddress :
  let info := fst (getIpWhoisInfo w ipAddress) in
  Forall (fun member : IpWhois -> option string =>
            forall v, member info = Some v <->
              v <> "" /\ exists data, answered w ipAddress data /\ member data = Some v)
         [asn; organization; isp; country; country_code; continent; city; region]
  /\ Forall (fun member : IpWhois -> option Q =>
               forall q, member info = Some q <->
                 Qeq_bool q 0 = false
                 /\ exists data, answered w ipAddress data /\ member data = Some q)
            [latitude; longitude]
  /\ Forall (fun member : IpWhois -> option bool =>
               forall b, member info = Some b <->
                 b = true /\ exists data, answered w ipAddress data /\ member data = Some b)
            [is_vpn; is_proxy]
  /\ (match fetchIpWhois w ("https://ipwhois.app/json/" ++ ipAddress) with
      | None => True
      | Some response =>
          resp_ok response = false \/ json_body response = None
          \/ exists data, json_body response = Some (Some false, data)
      end -> info = no_ip_whois).
Proof.
  cbv zeta.
  destruct (getIpWhoisInfo_answer w ipAddress) as [(data & Hd & ->) | [Hnone ->]].
  - split; [|split; [|split]].
    + repeat (apply List.Forall_cons;
        [intros v; cbn [asn organization isp country country_code continent
                        city region];
         rewrite keep_str_iff;
         (split; [intros [? ?]; eauto
                 | intros (? & d & Hd' & ?);
                   rewrite (answered_unique _ _ _ _ Hd Hd'); auto])|]).
      apply List.Forall_nil.
    + repeat (apply List.Forall_cons;
        [intros v; cbn [latitude longitude]; rewrite keep_num_iff;
         (split; [intros [? ?]; eauto
                 | intros (? & d & Hd' & ?);
                   rewrite (answered_unique _ _ _ _ Hd Hd'); auto])|]).
      apply List.Forall_nil.
    + repeat (apply List.Forall_cons;
        [intros v; cbn [is_vpn is_proxy]; rewrite keep_bool_iff;
         (split; [intros [? ?]; eauto
                 | intros (? & d & Hd' & ?);
                   rewrite (answered_unique _ _ _ _ Hd Hd'); auto])|]).
      apply List.Forall_nil.
    + destruct Hd as (r & s0 & -> & Ok & B & Hs).
      intros [H | [H | [d H]]]; congruence.
  - split; [|split; [|split]]; [| | |done];
      repeat (apply List.Forall_cons;
        [intros v;
         (split; [discriminate | intros (_ & d & Hd & _); by destruct (Hnone d)])|]);
      apply List.Forall_nil.
Qed.

(** ** The request handler: the email section *)

Lemma keep_str_Some o s : keep_str o = Some s -> o = Some s.
Proof. unfold keep_str. by destruct (truthy_str o). Qed.

Lemma dmarcOf_marked outcome s :
  dmarcOf outcome = Some s -> includes s "v=DMARC1" = true.
Proof.
  unfold dmarcOf. destruct outcome as [[|x l]|]; try discriminate.
  destruct (includes _ _) eqn:E; [|discriminate]. by intros [= <-].
Qed.

(** X14. The [email] section exists exactly when the MX query returned a
    record. Its provider label is that of the first record as the
    resolver returned it, [mx_details] lists every record in the same
    order, a stored [spf_record] is one chunk of a TXT record and
    contains "v=spf1", and a stored [dmarc_record] contains
    "v=DMARC1". *)
Theorem email_section_follows_mx w input result riskScores attackSurfaces :
  fst (POST w (Body (FString input))) = Success result riskScores attackSurfaces ->
  let dnsData := fst (resolveDNS w (cleanDomain input)) in
  match r_mx_records dnsData with
  | [] => email result = None
  | mx0 :: mxs =>
      exists e details,
        email result = Some e
        /\ mx_provider e = Some (detectEmailProvider (exchange mx0))
        /\ mx_details e = Some details
        /\ List.map mx_exchange details = List.map exchange (mx0 :: mxs)
        /\ (forall s, spf_record e = Some s ->
              In s (concat (r_txt_records dnsData)) /\ includes s "v=spf1" = true)
        /\ (forall s, dmarc_record e = Some s -> includes s "v=DMARC1" = true)
  end.
Proof.
  destruct input as [|c input']; [discriminate|].
  set (input := String c input') in *.
  rewrite POST_nonempty by done.
  destruct (reconnaissance_pre w input)
    as (pre & res & E & Hnote & _ & _ & Hemail & _).
  rewrite E. intros [= <- _ _]. cbv zeta.
  apply push_note_fields in Hnote. destruct Hnote as (_ & _ & _ & _ & _ & -> & _).
  rewrite Hemail.
  set (dnsData := fst (resolveDNS w (cleanDomain input))) in *.
  destruct (r_mx_records dnsData) as [|mx0 mxs] eqn:Emx; [reflexivity|].
  do 2 eexists. split; [reflexivity|].
  cbn [email_section mx_provider mx_details spf_record dmarc_record].
  split; [reflexivity|]. split; [reflexivity|].
  split; [|split].
  - rewrite Emx, List.map_map. reflexivity.
  - intros s Hs. apply keep_str_Some in Hs. apply find_some in Hs. exact Hs.
  - intros s Hs. apply keep_str_Some in Hs.
    subst dnsData. cbn [resolveDNS bind call ret fst r_dmarc_txt] in Hs.
    by apply dmarcOf_marked in Hs.
Qed.

Lemma email_section_follows_mx_witness :
  exists result riskScores attackSurfaces e,
    fst (POST hardened_world (Body (FString "example.com")))
    = Success result riskScores attackSurfaces
    /\ email result = Some e
    /\ mx_provider e = Some "Google Workspace".
Proof.
  destruct (reconnaissance_pre hardened_world "example.com") as (pre & result & E & _).
  pose proof (email_section_follows_mx hardened_world "example.com" _ _ _ E) as H.
  cbv zeta in H.
  assert (Hmx : r_mx_records (fst (resolveDNS hardened_world (cleanDomain "example.com")))
                = [{| priority := 10; exchange := "aspmx.l.google.com" |};
                   {| priority := 20; exchange := "alt1.aspmx.l.google.com" |}])
    by (vm_compute; reflexivity).
  rewrite Hmx in H. destruct H as (e & details & He & Hp & _).
  do 3 eexists. exists e. split; [exact E|]. split; [exact He|].
  rewrite Hp. vm_compute. reflexivity.
Defined.

(** ** Normalisation of the domain: lower-case input *)

Lemma hd_split_app sep h rest :
  free_of sep h -> List.hd "" (split sep (h ++ String sep rest)) = h.
Proof. intros H. by rewrite split_app_sep. Qed.

Lemma hd_split_free sep h : free_of sep h -> List.hd "" (split sep h) = h.
Proof. intros H. by rewrite split_free. Qed.

Lemma startsWith_app p s : startsWith (p ++ s) p = true.
Proof.
  induction p as [|c p IH]; step_append; simpl; [by destruct s|].
  by rewrite Ascii.eqb_refl, IH.
Qed.

Lemma str_drop_app p s : str_drop (String.length p) (p ++ s) = s.
Proof. induction p as [|c p IH]; step_append; simpl; [by destruct s | done]. Qed.

Lemma strip_www_prefixed s : strip_www ("www." ++ s) = s.
Proof.
  unfold strip_www. rewrite (startsWith_app "www." s).
  exact (str_drop_app "www." s).
Qed.

Lemma strip_scheme_https s : strip_scheme ("https://" ++ s) = s.
Proof.
  unfold strip_scheme. rewrite (startsWith_app "https://" s).
  exact (str_drop_app "https://" s).
Qed.

Lemma strip_scheme_http s : strip_scheme ("http://" ++ s) = s.
Proof.
  unfold strip_scheme.
  change (startsWith ("http://" ++ s) "https://") with false.
  rewrite (startsWith_app "http://" s).
  exact (str_drop_app "http://" s).
Qed.

Lemma strip_scheme_www s : strip_scheme ("www." ++ s) = "www." ++ s.
Proof. reflexivity. Qed.

(** A pattern that holds [c] is no prefix of a text that is free of [c]
    up to a character that the pattern does not hold before [c]. *)
Lemma startsWith_free c p1 p2 h tail :
  free_of c h ->
  (forall d rest, tail = String d rest ->
     d <> c /\ ~ In d (list_ascii_of_string p1)) ->
  startsWith (h ++ tail) (p1 ++ String c p2) = false.
Proof.
  unfold free_of. revert p1. induction h as [|a h IH]; intros p1 Hf Ht;
    step_append.
  - destruct tail as [|d rest]; [by destruct p1|].
    destruct (Ht d rest eq_refl) as [Hd Hin].
    destruct p1 as [|b p1]; step_append; simpl.
    + by destruct (Ascii.eqb_spec c d) as [->|].
    + destruct (Ascii.eqb_spec b d) as [->|]; [|reflexivity].
      destruct Hin. by left.
  - inversion Hf as [|? ? Ha Hh]; subst.
    destruct p1 as [|b p1]; step_append; simpl.
    + by destruct (Ascii.eqb_spec c a) as [->|].
    + destruct (Ascii.eqb b a); [|reflexivity].
      apply IH; [exact Hh|].
      intros d rest E. destruct (Ht d rest E) as [Hd Hin].
      split; [exact Hd|]. intros H. apply Hin. by right.
Qed.

Lemma strip_scheme_bare h tail :
  free_of ":" h -> tail = "" \/ (exists rest, tail = String "/" rest) ->
  strip_scheme (h ++ tail) = h ++ tail.
Proof.
  intros Hf Ht. unfold strip_scheme.
  assert (Hd : forall d rest, tail = String d rest ->
            d <> ":"%char /\ ~ In d (list_ascii_of_string "https")).
  { intros d rest ->. destruct Ht as [?|[r [= -> ->]]]; [done|].
    split; [discriminate|]. simpl. intuition discriminate. }
  pose proof (startsWith_free ":" "https" "//" h tail Hf Hd) as E1.
  assert (E2 : startsWith (h ++ tail) ("http" ++ String ":" "//") = false).
  { apply (startsWith_free ":" "http" "//" h tail Hf).
    intros d rest E. destruct (Hd d rest E) as [Hne Hin]. split; [exact Hne|].
    intros Hin'. apply Hin. simpl in *. tauto. }
  change (startsWith (h ++ tail) "https://" = false) in E1.
  change (startsWith (h ++ tail) "http://" = false) in E2.
  by rewrite E1, E2.
Qed.

Lemma startsWith_tail h p tail :
  startsWith h p = false ->
  (forall d rest, tail = String d rest -> ~ In d (list_ascii_of_string p)) ->
  startsWith (h ++ tail) p = false.
Proof.
  revert p. induction h as [|a h IH]; intros p Hs Ht; step_append.
  - destruct p as [|b p]; [discriminate|].
    destruct tail as [|d rest]; [reflexivity|]. simpl.
    destruct (Ascii.eqb_spec b d) as [->|]; [|reflexivity].
    destruct (Ht d rest eq_refl). by left.
  - destruct p as [|b p]; [discriminate|]. simpl in *.
    destruct (Ascii.eqb b a); [|reflexivity].
    apply IH; [exact Hs|]. intros d rest E Hin. apply (Ht d rest E). by right.
Qed.

Lemma strip_www_bare h tail :
  startsWith h "www." = false -> tail = "" \/ (exists rest, tail = String "/" rest) ->
  strip_www (h ++ tail) = h ++ tail.
Proof.
  intros Hs Ht. unfold strip_www. rewrite startsWith_tail; [done | exact Hs |].
  intros d rest ->. destruct Ht as [?|[r [= -> ->]]]; [done|].
  simpl. intuition discriminate.
Qed.

Lemma append_empty_r s : s ++ "" = s.
Proof. induction s as [|c s IH]; step_append; [done | by rewrite IH]. Qed.

Lemma cleanDomain_of_host h tail :
  free_of "/" h -> tail = "" \/ (exists rest, tail = String "/" rest) ->
  toLowerCase (List.hd "" (split "/" (h ++ tail))) = toLowerCase h.
Proof.
  intros Hf [->|[rest ->]].
  - by rewrite append_empty_r, hd_split_free.
  - by rewrite hd_split_app.
Qed.

(** X15. For a host name of ASCII characters without "/" or ":", every
    usual spelling of its URL is cleaned to the lowered host: with the
    scheme [http://] or [https://] or none, with or without a path, and
    with the prefix [www.]; and also without that prefix when the host
    does not itself begin with [www.]. *)
Theorem url_spellings_are_cleaned_to_host host path :
  ascii_text host = true -> free_of "/" host -> free_of ":" host ->
  (cleanDomain ("https://" ++ "www." ++ host ++ "/" ++ path) = toLowerCase host
   /\ cleanDomain ("http://" ++ "www." ++ host ++ "/" ++ path) = toLowerCase host
   /\ cleanDomain ("www." ++ host ++ "/" ++ path) = toLowerCase host
   /\ cleanDomain ("https://" ++ "www." ++ host) = toLowerCase host
   /\ cleanDomain ("http://" ++ "www." ++ host) = toLowerCase host
   /\ cleanDomain ("www." ++ host) = toLowerCase host)
  /\ (startsWith host "www." = false ->
      cleanDomain ("https://" ++ host ++ "/" ++ path) = toLowerCase host
      /\ cleanDomain ("http://" ++ host ++ "/" ++ path) = toLowerCase host
      /\ cleanDomain (host ++ "/" ++ path) = toLowerCase host
      /\ cleanDomain ("https://" ++ host) = toLowerCase host
      /\ cleanDomain ("http://" ++ host) = toLowerCase host
      /\ cleanDomain host = toLowerCase host).
Proof.
  intros _ Hf Hc.
  assert (Hpath : "/" ++ path = "" \/ exists rest, "/" ++ path = String "/" rest)
    by (right; by exists path).
  assert (Hnone : "" = "" \/ exists rest, "" = String "/" rest) by by left.
  split.
  - unfold cleanDomain.
    rewrite !strip_scheme_https, !strip_scheme_http, !strip_scheme_www,
      !strip_www_prefixed.
    rewrite (cleanDomain_of_host host ("/" ++ path) Hf Hpath).
    pose proof (cleanDomain_of_host host "" Hf Hnone) as E.
    rewrite append_empty_r in E. rewrite E. done.
  - intros Hw. unfold cleanDomain.
    rewrite !strip_scheme_https, !strip_scheme_http.
    rewrite (strip_scheme_bare host ("/" ++ path) Hc Hpath).
    pose proof (strip_scheme_bare host "" Hc Hnone) as Es.
    rewrite append_empty_r in Es. rewrite Es.
    rewrite (strip_www_bare host ("/" ++ path) Hw Hpath).
    pose proof (strip_www_bare host "" Hw Hnone) as Ew.
    rewrite append_empty_r in Ew. rewrite Ew.
    rewrite (cleanDomain_of_host host ("/" ++ path) Hf Hpath).
    pose proof (cleanDomain_of_host host "" Hf Hnone) as E.
    rewrite append_empty_r in E. rewrite E. done.
Qed.

Lemma url_spellings_are_cleaned_to_host_witness :
  cleanDomain ("https://" ++ "www." ++ "Example.com" ++ "/" ++ "login") = "example.com"
  /\ cleanDomain ("http://" ++ "Example.com") = "example.com".
Proof.
  assert (Hf : free_of "/" "Example.com")
    by (unfold free_of; simpl; repeat (constructor; [discriminate|]); constructor).
  assert (Hc : free_of ":" "Example.com")
    by (unfold free_of; simpl; repeat (constructor; [discriminate|]); constructor).
  destruct (url_spellings_are_cleaned_to_host "Example.com" "login" eq_refl Hf Hc)
    as [(H1 & _) H2].
  split; [exact H1|].
  destruct (H2 eq_refl) as (_ & _ & _ & _ & H5 & _). exact H5.
Defined.

(** ** WHOIS client: the server of a top-level domain *)

Lemma split_ends_with sep name tld :
  free_of sep tld ->
  exists p ps, split sep (name ++ String sep tld) = ((p :: ps) ++ [tld])%list.
Proof.
  intros Hf. induction name as [|c name IH]; step_append.
  - exists "", []. simpl. by rewrite Ascii.eqb_refl, split_free.
  - destruct IH as (p & ps & E). simpl. rewrite E.
    destruct (Ascii.eqb c sep).
    + by exists "", (p :: ps).
    + by exists (String c p), ps.
Qed.

(** X16. The server is chosen by the last label of the domain, whatever its
    letter case: when that label is one of the fifteen top-level domains
    of the table (or "default"), the query goes to the server the table
    gives for it. *)
Theorem whois_server_follows_last_label name tld server :
  free_of "." tld ->
  table_get (toLowerCase tld) WHOIS_SERVERS = Some server ->
  getWhoisServer (name ++ "." ++ tld) = Some server /\ server <> "".
Proof.
  intros Hf Ht. unfold getWhoisServer.
  destruct (split_ends_with "." name tld Hf) as (p & ps & E).
  change (name ++ "." ++ tld) with (name ++ String "." tld).
  cbv zeta. rewrite E, last_last, Ht.
  assert (Hs : In (toLowerCase tld) (List.map fst WHOIS_SERVERS) /\ server <> "").
  { revert Ht. generalize (toLowerCase tld). intros k. simpl.
    repeat match goal with
           | |- context [String.eqb k ?x] =>
               destruct (String.eqb_spec k x) as [->|_];
               [intros [= <-]; split; [known_key | discriminate]|]
           end.
    discriminate. }
  destruct Hs as [Hin Hs].
  assert (Hk : existsb (String.eqb (toLowerCase tld)) INHERITED_MEMBERS = false).
  { revert Hin. generalize (toLowerCase tld). intros k Hin. simpl in Hin.
    repeat (destruct Hin as [<-|Hin]; [reflexivity|]). destruct Hin. }
  rewrite Hk. split; [|exact Hs].
  unfold or_str. destruct server; [done | reflexivity].
Qed.

Lemma whois_server_follows_last_label_witness :
  getWhoisServer ("example" ++ "." ++ "ORG") = Some "whois.pir.org"
  /\ "whois.pir.org" <> "".
Proof.
  apply (whois_server_follows_last_label "example" "ORG" "whois.pir.org").
  - unfold free_of. simpl. repeat (constructor; [discriminate|]). constructor.
  - vm_compute. reflexivity.
Defined.

(** ** Provider classification *)

Lemma lower_char_idempotent c : lower_char (lower_char c) = lower_char c.
Proof. destruct c as [[] [] [] [] [] [] [] []]; reflexivity. Qed.

Lemma toLowerCase_idempotent s : toLowerCase (toLowerCase s) = toLowerCase s.
Proof.
  induction s as [|c s IH]; simpl; [done|]. by rewrite lower_char_idempotent, IH.
Qed.

(** X17. Both classifiers always answer with one of their fixed labels and
    do not depend on letter case; [detectNsProvider] looks at the first
    name server only and answers "Unknown" exactly for the empty
    list. *)
Theorem provider_labels exchange nameservers :
  In (detectEmailProvider exchange) EMAIL_PROVIDERS
  /\ detectEmailProvider (toLowerCase exchange) = detectEmailProvider exchange
  /\ In (detectNsProvider nameservers) NS_PROVIDERS
  /\ detectNsProvider (List.map toLowerCase nameservers) = detectNsProvider nameservers
  /\ detectNsProvider nameservers = detectNsProvider (firstn 1 nameservers)
  /\ (detectNsProvider nameservers = "Unknown" <-> nameservers = []).
Proof.
  split; [|split; [|split; [|split; [|split]]]].
  - unfold detectEmailProvider. cbv zeta.
    repeat case_match; simpl; tauto.
  - unfold detectEmailProvider. cbv zeta. by rewrite toLowerCase_idempotent.
  - unfold detectNsProvider. destruct nameservers as [|ns0 rest]; [simpl; tauto|].
    cbv zeta. repeat case_match; simpl; tauto.
  - destruct nameservers as [|ns0 rest]; [done|].
    unfold detectNsProvider. cbn [List.map]. cbv zeta. by rewrite toLowerCase_idempotent.
  - by destruct nameservers.
  - split; [|by intros ->].
    destruct nameservers as [|ns0 rest]; [done|].
    unfold detectNsProvider. cbv zeta. repeat case_match; discriminate.
Qed.

(** ** The graph component: metrics of a response *)

Lemma fold_left_add_bounds lo hi (l : list Z) : forall acc,
  Forall (fun x => lo <= x <= hi) l ->
  acc + Z.of_nat (length l) * lo <= fold_left Z.add l acc
  <= acc + Z.of_nat (length l) * hi.
Proof.
  induction l as [|x l IH]; intros acc H; simpl fold_left.
  - simpl. lia.
  - inversion H as [|? ? Hx Hl]; subst. specialize (IH (acc + x) Hl).
    rewrite length_cons, Nat2Z.inj_succ. nia.
Qed.

Lemma round_div_bounds a n lo hi :
  0 < n -> n * lo <= a <= n * hi -> lo <= round_div a n <= hi.
Proof.
  intros Hn Ha. unfold round_div. split.
  - apply Z.div_le_lower_bound; nia.
  - assert ((2 * a + n) / (2 * n) < hi + 1); [|lia].
    apply Z.div_lt_upper_bound; nia.
Qed.

Lemma fold_max_upper (l : list Z) :
  0 <= fold_right Z.max 0 l /\ Forall (fun x => x <= fold_right Z.max 0 l) l.
Proof.
  induction l as [|x l [IH0 IH]]; simpl; [split; [lia | constructor]|].
  split; [lia|]. constructor; [lia|].
  eapply Forall_impl; [exact IH|]. simpl. intros; lia.
Qed.

Lemma fold_max_head x (l : list Z) :
  0 <= x -> Forall (fun y => y <= x) l -> fold_right Z.max 0 (x :: l) = x.
Proof.
  intros Hx H. simpl.
  assert (fold_right Z.max 0 l <= x); [|lia].
  induction H as [|y l Hy Hl IH]; simpl; lia.
Qed.

Lemma severity_counts_sum (l : list AttackSurface) :
  (length (List.filter (has_severity critical) l)
   + length (List.filter (has_severity high) l)
   + length (List.filter (has_severity medium) l)
   + length (List.filter (has_severity low) l)
   + length (List.filter (has_severity info) l)
   = length (List.filter rated l))%nat.
Proof.
  induction l as [|s l IH]; [done|].
  cbn [List.filter]. unfold has_severity, rated in *.
  destruct (riskSeverity s) as [[]|]; simpl; lia.
Qed.

Lemma size_list_to_set_le (l : list string) :
  (size (list_to_set l : gset string) <= length l)%nat.
Proof.
  induction l as [|x l IH]; [done|].
  cbn [list_to_set length].
  destruct (decide (x ∈ (list_to_set l : gset string))) as [Hin|Hnin].
  - rewrite (subseteq_union_1_L {[x]}) by (by apply singleton_subseteq_l). lia.
  - rewrite size_union by (by apply disjoint_singleton_l).
    rewrite size_singleton. lia.
Qed.

Lemma fold_left_findings_acc (rs : list RiskScore) : forall acc,
  fold_left (fun sum r => (sum + length (findings r))%nat) rs acc
  = (acc + length (concat (List.map findings rs)))%nat.
Proof.
  induction rs as [|r rs IH]; intros acc; [simpl; lia|].
  cbn [fold_left List.map concat]. rewrite IH, length_app. lia.
Qed.

Lemma fold_left_findings (rs : list RiskScore) :
  fold_left (fun sum r => (sum + length (findings r))%nat) rs O
  = length (concat (List.map findings rs)).
Proof. by rewrite fold_left_findings_acc. Qed.

(** X18. For any surfaces and risk scores: [maxScore] is at least 0 and at
    least every score; when every score lies in an interval, so does
    the rounded average of a non-empty list; the five severity counts
    add up to the number of surfaces that carry a severity; and
    [uniqueVectors] never exceeds the number of attack vectors listed,
    while [totalFindings] is the number of findings listed. *)
Theorem risk_metrics_bounds attackSurfaces riskScores lo hi :
  let m := calculateRiskMetrics attackSurfaces (Some riskScores) in
  let c := severityCounts m in
  0 <= maxScore m
  /\ (forall s, In s attackSurfaces -> score_or_0 s <= maxScore m)
  /\ (attackSurfaces <> [] ->
      Forall (fun s => lo <= score_or_0 s <= hi) attackSurfaces ->
      lo <= avgScore m <= hi)
  /\ (n_critical c + n_high c + n_medium c + n_low c + n_info c
      = length (List.filter rated attackSurfaces))%nat
  /\ (uniqueVectors m <= length (concat (List.map attackVectors riskScores)))%nat
  /\ totalFindings m = length (concat (List.map findings riskScores)).
Proof.
  cbv zeta. unfold calculateRiskMetrics.
  cbn [avgScore maxScore severityCounts totalFindings uniqueVectors
       n_critical n_high n_medium n_low n_info].
  destruct (fold_max_upper (List.map score_or_0 attackSurfaces)) as [H0 Hmax].
  split; [exact H0|]. split; [|split; [|split; [|split]]].
  - intros s Hs. rewrite Forall_forall in Hmax. apply Hmax.
    apply list_elem_of_In, in_map, Hs.
  - intros Hne Hall. rewrite length_map.
    destruct attackSurfaces as [|s0 rest]; [done|].
    change (0 <? length (s0 :: rest))%nat with true. cbn [negb].
    apply round_div_bounds; [simpl; lia|].
    pose proof (fold_left_add_bounds lo hi (List.map score_or_0 (s0 :: rest)) 0) as B.
    rewrite length_map in B.
    assert (Forall (fun x => lo <= x <= hi) (List.map score_or_0 (s0 :: rest))) as HF
      by (by apply Forall_map).
    specialize (B HF). lia.
  - apply severity_counts_sum.
  - apply size_list_to_set_le.
  - apply fold_left_findings.
Qed.

Lemma filter_all_true {A : Type} (f : A -> bool) (l : list A) :
  Forall (fun x => f x = true) l -> List.filter f l = l.
Proof. induction 1 as [|x l Hx Hl IH]; simpl; [done|]. by rewrite Hx, IH. Qed.

Lemma filter_all_false {A : Type} (f : A -> bool) (l : list A) :
  Forall (fun x => f x = false) l -> List.filter f l = [].
Proof. induction 1 as [|x l Hx Hl IH]; simpl; [done|]. by rewrite Hx. Qed.

(** X19. The metrics the graph shows for the surfaces of a response:
    [maxScore] is the score of the first surface; [avgScore] lies
    between 30 and [maxScore], which is at most 95; no surface counts
    as "info", and the other four counts add up to the number of
    surfaces. *)
Theorem metrics_of_returned_surfaces now parseDate data riskScores shown :
  let out := extractTop5AttackSurfaces now parseDate data riskScores in
  let m := calculateRiskMetrics out shown in
  let c := severityCounts m in
  maxScore m = match out with s :: _ => score_or_0 s | [] => 0 end
  /\ (out <> [] -> 30 <= avgScore m <= maxScore m /\ maxScore m <= 95)
  /\ n_info c = O
  /\ (n_critical c + n_high c + n_medium c + n_low c = length out)%nat.
Proof.
  cbv zeta.
  assert (Hs : StronglySorted ranked_before
                 (extractTop5AttackSurfaces now parseDate data riskScores))
    by apply StronglySorted_firstn, ranked_before_js_sort, candidateSurfaces_in_order.
  pose proof (extracted_surface_sound now parseDate data riskScores) as Hsound.
  set (out := extractTop5AttackSurfaces now parseDate data riskScores) in *.
  clearbody out.
  assert (Hrange : Forall (fun s => 30 <= score_or_0 s <= 95) out).
  { rewrite Forall_forall. intros s Hin. apply list_elem_of_In in Hin.
    destruct (Hsound s Hin) as (sev & sc & w & _ & Hsc & _ & _ & B & _).
    unfold score_or_0. rewrite Hsc. exact B. }
  assert (Hinfo : Forall (fun s => has_severity info s = false) out).
  { rewrite Forall_forall. intros s Hin. apply list_elem_of_In in Hin.
    destruct (Hsound s Hin) as (sev & sc & w & Hsev & _ & _ & Hi & _).
    unfold has_severity. rewrite Hsev. by destruct sev. }
  assert (Hrated : Forall (fun s => rated s = true) out).
  { rewrite Forall_forall. intros s Hin. apply list_elem_of_In in Hin.
    destruct (Hsound s Hin) as (sev & sc & w & Hsev & _).
    unfold rated. by rewrite Hsev. }
  pose proof (severity_counts_sum out) as Hsum.
  rewrite (filter_all_false _ _ Hinfo), (filter_all_true _ _ Hrated) in Hsum.
  unfold calculateRiskMetrics.
  cbn [avgScore maxScore severityCounts n_critical n_high n_medium n_low n_info].
  rewrite (filter_all_false _ _ Hinfo).
  destruct out as [|s0 rest].
  { repeat split; simpl; done. }
  inversion Hs as [|? ? _ Hfirst]; subst.
  inversion Hrange as [|? ? Hs0 Hrest]; subst.
  assert (Hle : Forall (fun y => y <= score_or_0 s0) (List.map score_or_0 rest)).
  { apply Forall_map. eapply Forall_impl; [exact Hfirst|].
    simpl. unfold ranked_before. intros; lia. }
  assert (Hmax : fold_right Z.max 0 (List.map score_or_0 (s0 :: rest)) = score_or_0 s0)
    by (apply fold_max_head; [lia | exact Hle]).
  rewrite Hmax.
  split; [reflexivity|]. split; [|split; [reflexivity | simpl in *; lia]].
  intros _. split; [|lia].
  change (0 <? length (List.map score_or_0 (s0 :: rest)))%nat with true. cbv iota.
  assert (Hall : Forall (fun x => 30 <= x <= score_or_0 s0)
                        (List.map score_or_0 (s0 :: rest))).
  { cbn [List.map]. constructor; [lia|].
    rewrite Forall_map in Hle |- *. rewrite Forall_forall in Hle, Hrest |- *.
    intros s Hin. specialize (Hle s Hin). specialize (Hrest s Hin). simpl in *. lia. }
  pose proof (fold_left_add_bounds _ _ _ 0 Hall) as B.
  apply round_div_bounds; [simpl; lia | lia].
Qed.

(** ** The template generator *)

Lemma rethrow_name e : error_name (rethrow e) <> "AbortError".
Proof.
  unfold rethrow. destruct (String.eqb (error_name e) "AbortError") eqn:E.
  - discriminate.
  - by apply String.eqb_neq.
Qed.

Lemma truthy_str_Some o : truthy_str o = true -> o = Some (render o).
Proof. destruct o as [[|c s]|]; simpl; intros; congruence. Qed.

Lemma groq_client_outcomes_aux (ai : AiWorld) (prompt systemPrompt : string) :
  let request := {| bearer := render (GROQ_API_KEY ai);
                    system_content := systemPrompt;
                    user_content := prompt |} in
  let '(outcome, sent) := callGroqAI ai prompt systemPrompt in
  (forall text, outcome = inr text <->
     truthy_str (GROQ_API_KEY ai) = true /\ text <> "" /\
     groqFetch ai request = FetchOk (CompletionContent (Some text))) /\
  (forall e, outcome = inl e -> error_name e <> "AbortError") /\
  sent = (if truthy_str (GROQ_API_KEY ai) then [request] else []).
Proof.
  unfold callGroqAI. destruct (truthy_str (GROQ_API_KEY ai)) eqn:K.
  - split; [|split; [|reflexivity]].
    + intros text.
      destruct (groqFetch ai _) as [e|status [|e|m js]|[e|content]];
        try (split; [discriminate | intros (_ & _ & ?); discriminate]).
      destruct (truthy_str content) eqn:C.
      * split.
        -- intros [= <-]. split; [reflexivity|]. split.
           ++ by apply truthy_str_render.
           ++ by rewrite <- truthy_str_Some.
        -- intros (_ & _ & [= ->]). reflexivity.
      * split; [discriminate|]. intros (_ & Ht & [= ->]).
        destruct text; [congruence | discriminate].
    + intros e.
      destruct (groqFetch ai _) as [e0|status [|e0|m js]|[e0|content]];
        try (intros [= <-]; apply rethrow_name).
      destruct (truthy_str content); [discriminate|].
      intros [= <-]. apply rethrow_name.
  - split; [|split; [|reflexivity]].
    + intros text. split; [discriminate | intros [? _]; discriminate].
    + intros e [= <-]. discriminate.
Qed.

(** X20. The client returns a text exactly when the key is set and the
    service answers ok with a non-empty content, which is that text; the
    error it raises is never named AbortError; it sends one request when
    the key is set and none otherwise. *)
Theorem groq_client_outcomes (ai : AiWorld) (prompt systemPrompt : string) :
  let request := {| bearer := render (GROQ_API_KEY ai);
                    system_content := systemPrompt;
                    user_content := prompt |} in
  let '(outcome, sent) := callGroqAI ai prompt systemPrompt in
  (forall text, outcome = inr text <->
     truthy_str (GROQ_API_KEY ai) = true /\ text <> "" /\
     groqFetch ai request = FetchOk (CompletionContent (Some text))) /\
  (forall e, outcome = inl e -> error_name e <> "AbortError") /\
  sent = (if truthy_str (GROQ_API_KEY ai) then [request] else []).
Proof. apply groq_client_outcomes_aux. Qed.

Section GeneratorFacts.

Variable TASK_TEXT : string.
Variable SYSTEM_PROMPT : string.

Lemma generator_failure_shape e :
  exists error, generator_failure e = GenFailure 500 error /\ error <> "".
Proof.
  unfold generator_failure. destruct (error_message e) eqn:E; simpl.
  - eexists; split; [reflexivity | discriminate].
  - eexists; split; [reflexivity | discriminate].
Qed.

(** X21. The handler answers with status 400 or 500 and a non-empty message,
    or with a template; it sends at most one request, under the
    configured key and the fixed system prompt, and none when it answers
    400. A template is non-empty, is the content the service returned,
    and comes with the domain and the list of the request and the length
    of that list. *)
Theorem generator_responses (ai : AiWorld) (request : GenRequest) :
  let '(response, sent) := generatePOST TASK_TEXT SYSTEM_PROMPT ai request in
  (length sent <= 1)%nat /\
  (forall r, In r sent ->
     truthy_str (GROQ_API_KEY ai) = true /\
     bearer r = render (GROQ_API_KEY ai) /\
     system_content r = SYSTEM_PROMPT) /\
  match response with
  | GenFailure status error =>
      error <> "" /\ (status = 400 /\ sent = [] \/ status = 500)
  | GenSuccess domain html attackSurfaces targetDomain surfaceCount =>
      html <> "" /\
      (exists r, sent = [r] /\
         groqFetch ai r = FetchOk (CompletionContent (Some html))) /\
      (exists infrastructureData,
         request = GenBody domain infrastructureData attackSurfaces) /\
      json_truthy domain = true /\
      targetDomain = domain /\
      surfaceCount = match attackSurfaces with
                     | SurfacesArray l => length l
                     | _ => O
                     end
  end.
Proof.
  destruct request as [e|domain infra surfaces]; cbn -[generator_failure callGroqAI generateInfrastructurePhishingPrompt].
  - destruct (generator_failure_shape e) as (error & -> & He).
    split; [simpl; lia|]; split; [intros ? []|]; split; [exact He | by right].
  - destruct (json_truthy domain) eqn:D; cbn -[generator_failure callGroqAI generateInfrastructurePhishingPrompt];
      [|split; [simpl; lia|]; split; [intros ? []|]; split; [done | by left]].
    destruct infra; cbn -[generator_failure callGroqAI generateInfrastructurePhishingPrompt];
      [|split; [simpl; lia|]; split; [intros ? []|]; split; [done | by left]].
    assert (forall l,
      let '(response, sent) :=
        let '(outcome, sent) :=
          callGroqAI ai
            (generateInfrastructurePhishingPrompt TASK_TEXT (json_render domain) l)
            SYSTEM_PROMPT in
        match outcome with
        | inr htmlTemplate =>
            (GenSuccess domain htmlTemplate surfaces domain (length l), sent)
        | inl e => (generator_failure e, sent)
        end in
      (length sent <= 1)%nat /\
      (forall r, In r sent ->
         truthy_str (GROQ_API_KEY ai) = true /\
         bearer r = render (GROQ_API_KEY ai) /\
         system_content r = SYSTEM_PROMPT) /\
      match response with
      | GenFailure status error =>
          error <> "" /\ (status = 400 /\ sent = [] \/ status = 500)
      | GenSuccess domain' html attackSurfaces targetDomain surfaceCount =>
          html <> "" /\
          (exists r, sent = [r] /\
             groqFetch ai r = FetchOk (CompletionContent (Some html))) /\
          domain' = domain /\ attackSurfaces = surfaces /\
          targetDomain = domain /\ surfaceCount = length l
      end) as Hcall.
    { intros l.
      pose proof (groq_client_outcomes_aux ai
        (generateInfrastructurePhishingPrompt TASK_TEXT (json_render domain) l)
        SYSTEM_PROMPT) as H.
      destruct (callGroqAI ai _ SYSTEM_PROMPT) as [outcome sent].
      destruct H as (Htext & _ & Hsent).
      assert ((length sent <= 1)%nat /\
              forall r, In r sent ->
                truthy_str (GROQ_API_KEY ai) = true /\
                bearer r = render (GROQ_API_KEY ai) /\
                system_content r = SYSTEM_PROMPT) as [Hlen Hreq].
      { subst sent. destruct (truthy_str (GROQ_API_KEY ai)); cbn -[generator_failure callGroqAI generateInfrastructurePhishingPrompt].
        - split; [lia|]. intros r [<-|[]]. done.
        - split; [lia|]. intros r []. }
      destruct outcome as [e|html].
      - destruct (generator_failure_shape e) as (error & -> & He).
        split; [exact Hlen|]. split; [exact Hreq|]. split; [exact He | by right].
      - destruct (proj1 (Htext html) eq_refl) as (K & Hne & Hfetch).
        rewrite K in Hsent.
        split; [exact Hlen|]. split; [exact Hreq|]. split; [exact Hne|].
        split; [|done]. eexists; split; [exact Hsent | exact Hfetch]. }
    destruct surfaces as [|l|e].
    + specialize (Hcall []).
      destruct (callGroqAI ai _ SYSTEM_PROMPT) as [[e|html] sent];
        [exact Hcall|].
      destruct Hcall as (Hlen & Hreq & Hne & Hsent & _).
      split; [exact Hlen|]. split; [exact Hreq|]. split; [exact Hne|].
      split; [exact Hsent|]. split; [by eexists | done].
    + specialize (Hcall l).
      destruct (callGroqAI ai _ SYSTEM_PROMPT) as [[e|html] sent];
        [exact Hcall|].
      destruct Hcall as (Hlen & Hreq & Hne & Hsent & _).
      split; [exact Hlen|]. split; [exact Hreq|]. split; [exact Hne|].
      split; [exact Hsent|]. split; [by eexists | done].
    + destruct (generator_failure_shape e) as (error & -> & He).
      split; [simpl; lia|]; split; [intros ? []|]; split; [exact He | by right].
Qed.

End GeneratorFacts.

(** ** WHOIS response parser: later lines never remove a member *)

Lemma extends_refl r : extends r r.
Proof.
  intros k [s|l] H; [by exists s|]. exists []. by rewrite app_nil_r.
Qed.

Lemma grown_set_if r0 c k v r :
  k <> "nameservers" -> k <> "status" -> v <> "" ->
  well_typed r /\ extends r0 r ->
  well_typed (set_if c k v r) /\ extends r0 (set_if c k v r).
Proof.
  intros Hn Hs Hv [Hr He]. split; [by apply well_typed_set_if|].
  unfold set_if. destruct c; [|done].
  intros k' v' H. specialize (He k' v' H).
  destruct (decide (k = k')) as [<-|Hk].
  - rewrite lookup_insert_eq. destruct v' as [s|l]; [by eexists|].
    destruct He as [more He]. specialize (Hr _ _ He). simpl in Hr.
    by destruct Hr.
  - by rewrite lookup_insert_ne.
Qed.

Lemma grown_push r0 (c : bool) k v (r : gmap string JsVal) :
  k = "nameservers" \/ k = "status" ->
  well_typed r /\ extends r0 r ->
  well_typed (if c then <[k := VList (default [] (list_member k r) ++ [v])]> r else r)
  /\ extends r0 (if c then <[k := VList (default [] (list_member k r) ++ [v])]> r else r).
Proof.
  intros Hk [Hr He]. split; [by apply well_typed_push|].
  destruct c; [|done].
  intros k' v' H. specialize (He k' v' H).
  destruct (decide (k = k')) as [<-|Hne].
  - rewrite lookup_insert_eq. destruct v' as [s|l].
    + destruct He as [s' He]. specialize (Hr _ _ He). simpl in Hr.
      destruct Hr as (? & ? & _). by destruct Hk.
    + destruct He as [more He]. unfold list_member. rewrite He. simpl.
      exists (more ++ [v])%list. by rewrite app_assoc.
  - by rewrite lookup_insert_ne.
Qed.

Lemma route_extends r0 key value r r' :
  value <> "" -> well_typed r -> extends r0 r ->
  route key value r = Some r' -> extends r0 r'.
Proof.
  intros Hv Hr He. unfold route. cbv zeta.
  rewrite push_if_typed; [|auto|typed_chain].
  rewrite push_if_typed; [|auto|typed_chain].
  intros [= <-].
  refine (proj2 _).
  repeat first
    [ apply grown_set_if; [discriminate | discriminate | assumption | ]
    | apply grown_push; [auto | ] ].
  by split.
Qed.

Lemma parse_line_extends r0 line r r' :
  well_typed r -> extends r0 r -> parse_line line r = Some r' -> extends r0 r'.
Proof.
  intros Hr He. unfold parse_line.
  destruct (skipped_line (trim line)); [by intros [= <-]|].
  destruct (indexOf (trim line) ":") as [i|]; [|by intros [= <-]].
  destruct (str_empty (trim (str_drop (S i) (trim line)))) eqn:Ev; [by intros [= <-]|].
  apply route_extends; [by apply str_empty_false | done | done].
Qed.

Lemma parse_lines_extends r0 lines : forall r r',
  well_typed r -> extends r0 r -> parse_lines lines r = Some r' -> extends r0 r'.
Proof.
  induction lines as [|line rest IH]; intros r r' Hr He; simpl; [by intros [= <-]|].
  destruct (parse_line_typed line r Hr) as (r1 & E & H1). rewrite E.
  apply IH; [done|]. by apply (parse_line_extends r0 line r).
Qed.

Lemma parse_lines_app l1 l2 : forall r,
  parse_lines (l1 ++ l2) r =
  match parse_lines l1 r with
  | Some r1 => parse_lines l2 r1
  | None => None
  end.
Proof.
  induction l1 as [|line l1 IH]; intros r; simpl; [done|].
  destruct (parse_line line r); [apply IH | done].
Qed.

Lemma split_nonempty sep s : split sep s <> [].
Proof.
  destruct s as [|c s]; simpl; [done|].
  destruct (Ascii.eqb c sep); [done|]. by destruct (split sep s).
Qed.

Lemma split_app_line sep a b :
  split sep (a ++ String sep b) = (split sep a ++ split sep b)%list.
Proof.
  induction a as [|c a IH]; step_append; simpl.
  - by rewrite Ascii.eqb_refl.
  - rewrite IH. destruct (Ascii.eqb c sep); [done|].
    pose proof (split_nonempty sep a). by destruct (split sep a).
Qed.

(** X22. Text that follows a line end never removes what the lines before it
    gave: every member of the record of [head] is a member of the record
    of [head], a line feed and [tail]; a string member is still a string
    (possibly another one), and an array member still starts with the
    elements it had. *)
Theorem later_lines_keep_members (head tail : string) :
  exists r1 r,
    parseWhoisResponse head = Some r1 /\
    parseWhoisResponse (head ++ String LF tail) = Some r /\
    extends r1 r.
Proof.
  destruct (parseWhoisResponse_total head) as (r1 & E1 & T1).
  destruct (parseWhoisResponse_total (head ++ String LF tail)) as (r & E & _).
  exists r1, r. split; [done|]. split; [done|].
  rewrite parseWhoisResponse_lines in E1, E.
  rewrite split_app_line, parse_lines_app, E1 in E.
  by apply (parse_lines_extends r1 (split LF tail) r1 r T1 (extends_refl r1)).
Qed.

(** ** Risk engine: findings and points *)

Ltac account :=
  unfold accounted in *;
  cbn [t_score t_findings t_vectors bump tally0];
  rewrite ?length_app; cbn [length]; lia.

(** One rule of a category keeps the tally accounted. *)
Ltac accounted_rule :=
  lazymatch goal with
  | |- context [let t := ?v in _] =>
      let t' := fresh "t" in
      let H := fresh "H" in
      assert (H : accounted v) by (cbv zeta; split_cases; account);
      set (t' := v) in *; clearbody t';
      repeat match goal with
             | |- context C [let t := t' in @?body t] =>
                 let g := context C [body t'] in change g; cbv beta
             end
  end.

Lemma registrationRisk_accounted now parseDate regData :
  exists t, registrationRisk now parseDate regData
            = risk_entry "Domain Registration" t /\ accounted t.
Proof.
  cbv beta delta [registrationRisk].
  do 7 accounted_rule. by eexists.
Qed.

Lemma dnsRisk_accounted dnsData :
  exists t, dnsRisk dnsData = risk_entry "DNS Security" t /\ accounted t.
Proof.
  cbv beta delta [dnsRisk].
  do 5 accounted_rule. by eexists.
Qed.

Lemma emailRisk_accounted emailData :
  exists t, emailRisk emailData = risk_entry "Email Security" t /\ accounted t.
Proof.
  cbv beta delta [emailRisk].
  do 5 accounted_rule. by eexists.
Qed.

Lemma hostingRisk_accounted hostingData :
  exists t, hostingRisk hostingData = risk_entry "Hosting Infrastructure" t
            /\ accounted t.
Proof.
  cbv beta delta [hostingRisk].
  do 2 accounted_rule. by eexists.
Qed.

Lemma webRisk_accounted webData :
  exists t, webRisk webData = web_risk_entry t /\ accounted t.
Proof.
  cbv beta delta [webRisk].
  repeat accounted_rule. by eexists.
Qed.

Lemma accounted_entry r t :
  findings r = t_findings t -> attackVectors r = t_vectors t ->
  score r = Z.min (t_score t) 100 ->
  accounted t ->
  (length (attackVectors r) <= 3 * length (findings r))%nat
  /\ -10 * Z.of_nat (length (findings r)) <= score r
     <= 25 * Z.of_nat (length (findings r)).
Proof. intros -> -> -> [H1 H2]. split; [done | lia]. Qed.

(** X23. In every entry the findings account for the score: each rule that
    changes the score or names an attack vector records exactly one
    finding, names at most three attack vectors and moves the score by
    -10 to 25 points; so an entry has at most three attack vectors a
    finding, a score between -10 and 25 times the number of its
    findings, and the score 0 and no attack vector when it has no
    finding. *)
Theorem findings_account_for_the_score now parseDate data r :
  In r (calculateInfrastructureRisks now parseDate data) ->
  (length (attackVectors r) <= 3 * length (findings r))%nat
  /\ -10 * Z.of_nat (length (findings r)) <= score r
     <= 25 * Z.of_nat (length (findings r))
  /\ (findings r = [] -> score r = 0 /\ attackVectors r = []).
Proof.
  intros H.
  assert ((length (attackVectors r) <= 3 * length (findings r))%nat
          /\ -10 * Z.of_nat (length (findings r)) <= score r
             <= 25 * Z.of_nat (length (findings r))) as [Hv Hs].
  { revert H. unfold calculateInfrastructureRisks. rewrite !in_app_iff.
    intros [H | [H | [H | [H | H]]]];
      apply In_risk_of in H; destruct H as (x & _ & ->).
    - destruct (registrationRisk_accounted now parseDate x) as (t & -> & A).
      by apply (accounted_entry _ t).
    - destruct (dnsRisk_accounted x) as (t & -> & A).
      by apply (accounted_entry _ t).
    - destruct (emailRisk_accounted x) as (t & -> & A).
      by apply (accounted_entry _ t).
    - destruct (hostingRisk_accounted x) as (t & -> & A).
      by apply (accounted_entry _ t).
    - destruct (webRisk_accounted x) as (t & -> & A).
      by apply (accounted_entry _ t). }
  split; [exact Hv|]. split; [exact Hs|].
  intros E. rewrite E in *. simpl in *. split; [lia|].
  destruct (attackVectors r); [done | simpl in Hv; lia].
Qed.

Lemma findings_account_for_the_score_witness :
  let r := emailRisk open_relay_email in
  (length (attackVectors r) <= 3 * length (findings r))%nat
  /\ -10 * Z.of_nat (length (findings r)) <= score r
     <= 25 * Z.of_nat (length (findings r))
  /\ (findings r = [] -> score r = 0 /\ attackVectors r = []).
Proof.
  apply (findings_account_for_the_score 0 (fun _ => None) open_relay_data).
  left. reflexivity.
Defined.

(** ** The request handler: the [web_server] section *)

Lemma truthy_header o : truthy_str (Some (render (or_str o (Some "")))) = truthy_str o.
Proof. by destruct o as [[|c s]|]. Qed.

Lemma reconnaissance_web_server w input :
  let hh := fst (getHttpHeaders w (cleanDomain input)) in
  exists result riskScores attackSurfaces,
    fst (reconnaissance w input) = Success result riskScores attackSurfaces
    /\ web_server result =
       if (truthy_str (hh_server_header hh) || truthy_str (hh_powered_by hh))%bool
       then Some {| server_header := hh_server_header hh;
                    platform := hh_platform hh;
                    cdn_provider := hh_cdn_provider hh |}
       else None.
Proof.
  cbv zeta. unfold reconnaissance. cbv zeta.
  destruct (resolveDNS w (cleanDomain input)) as [dnsData t1].
  destruct (getHttpHeaders w (cleanDomain input)) as [hh t2].
  destruct (getWhoisInfo w (cleanDomain input)) as [wd t3].
  run_handler.
  destruct (r_a_records dnsData) as [|ip ips].
  - destruct (truthy_str (hh_server_header hh) || truthy_str (hh_powered_by hh))%bool;
    destruct (0 <? size wd)%nat;
    destruct (r_mx_records dnsData) as [|mx0 mxs];
    run_handler; do 3 eexists; split; reflexivity.
  - destruct (str_empty ip).
    + destruct (truthy_str (hh_server_header hh) || truthy_str (hh_powered_by hh))%bool;
      destruct (0 <? size wd)%nat;
      destruct (r_mx_records dnsData) as [|mx0 mxs];
      run_handler; do 3 eexists; split; reflexivity.
    + unfold getIpWhoisInfo.
      destruct (truthy_str (hh_server_header hh) || truthy_str (hh_powered_by hh))%bool;
      destruct (0 <? size wd)%nat;
      destruct (r_mx_records dnsData) as [|mx0 mxs];
      run_handler; do 3 eexists; split; reflexivity.
Qed.

Lemma getHttpHeaders_values w d :
  let hh := fst (getHttpHeaders w d) in
  match fetchHead w ("https://" ++ d) with
  | None => hh = no_headers
  | Some response =>
      hh_server_header hh = Some (render (or_str (h_server response) (Some "")))
      /\ hh_powered_by hh = Some (render (or_str (h_powered_by response) (Some "")))
      /\ In (hh_platform hh) [None; Some "Nginx"; Some "Apache"; Some "Microsoft IIS"]
      /\ In (hh_cdn_provider hh) [None; Some "Cloudflare"; Some "Akamai"]
      /\ (truthy_str (h_cf_ray response) = true -> hh_cdn_provider hh = Some "Cloudflare")
      /\ (truthy_str (h_server response) = false -> hh_platform hh = None)
  end.
Proof.
  cbv zeta. unfold getHttpHeaders. cbn [bind call ret fst snd].
  destruct (fetchHead w ("https://" ++ d)) as [response|]; [|reflexivity].
  cbv zeta. cbn [hh_server_header hh_powered_by hh_platform hh_cdn_provider].
  split; [reflexivity|]. split; [reflexivity|].
  split; [|split; [|split]].
  - repeat case_match; simpl; tauto.
  - repeat case_match; simpl; tauto.
  - intros T. destruct (h_cf_ray response) as [[|c s]|]; try discriminate.
    cbn [or_str truthy_str str_empty negb render]. by rewrite orb_true_r.
  - intros T. destruct (h_server response) as [[|c s]|]; try discriminate; reflexivity.
Qed.

(** X24. The [web_server] section of a successful response follows the HEAD
    request to https://<cleaned domain>: there is a section exactly when
    the request was answered with a non-empty Server or X-Powered-By
    header; the section holds the Server header (the empty string when
    it is absent), one of three platforms or none, and one of two CDN
    providers or none, Cloudflare whenever there is a cf-ray header, and
    no platform without a Server header. A Web Server attack surface is
    returned only for a non-empty Server header, and its value is one of
    the three platforms or Unknown. *)
Theorem web_server_follows_head_response w input result riskScores attackSurfaces :
  fst (POST w (Body (FString input))) = Success result riskScores attackSurfaces ->
  let outcome := fetchHead w ("https://" ++ cleanDomain input) in
  match web_server result with
  | None =>
      outcome = None
      \/ exists response, outcome = Some response
           /\ truthy_str (h_server response) = false
           /\ truthy_str (h_powered_by response) = false
  | Some ws =>
      exists response, outcome = Some response
        /\ (truthy_str (h_server response) = true
            \/ truthy_str (h_powered_by response) = true)
        /\ server_header ws = Some (render (or_str (h_server response) (Some "")))
        /\ In (platform ws) [None; Some "Nginx"; Some "Apache"; Some "Microsoft IIS"]
        /\ In (cdn_provider ws) [None; Some "Cloudflare"; Some "Akamai"]
        /\ (truthy_str (h_cf_ray response) = true ->
            cdn_provider ws = Some "Cloudflare")
        /\ (truthy_str (h_server response) = false -> platform ws = None)
  end
  /\ forall s, In s attackSurfaces -> vector s = "Web Server" ->
       In (value s) ["Nginx"; "Apache"; "Microsoft IIS"; "Unknown"]
       /\ exists response, outcome = Some response
            /\ truthy_str (h_server response) = true.
Proof.
  destruct input as [|c input']; [discriminate|].
  set (input := String c input') in *.
  rewrite POST_nonempty by done.
  destruct (reconnaissance_web_server w input) as (res & rs & ss & E & Hweb).
  destruct (reconnaissance_pre w input) as (pre & res' & E' & _).
  rewrite E in E'. injection E' as <- -> ->.
  rewrite E. intros [= <- <- <-]. cbv zeta.
  pose proof (getHttpHeaders_values w (cleanDomain input)) as Hh. cbv zeta in Hh.
  set (hh := fst (getHttpHeaders w (cleanDomain input))) in *.
  assert (match web_server res with
          | None =>
              fetchHead w ("https://" ++ cleanDomain input) = None
              \/ exists response,
                   fetchHead w ("https://" ++ cleanDomain input) = Some response
                   /\ truthy_str (h_server response) = false
                   /\ truthy_str (h_powered_by response) = false
          | Some ws =>
              exists response,
                fetchHead w ("https://" ++ cleanDomain input) = Some response
                /\ (truthy_str (h_server response) = true
                    \/ truthy_str (h_powered_by response) = true)
                /\ server_header ws = Some (render (or_str (h_server response) (Some "")))
                /\ In (platform ws) [None; Some "Nginx"; Some "Apache"; Some "Microsoft IIS"]
                /\ In (cdn_provider ws) [None; Some "Cloudflare"; Some "Akamai"]
                /\ (truthy_str (h_cf_ray response) = true ->
                    cdn_provider ws = Some "Cloudflare")
                /\ (truthy_str (h_server response) = false -> platform ws = None)
          end) as Hsection.
  { rewrite Hweb.
    destruct (fetchHead w ("https://" ++ cleanDomain input)) as [response|].
    - destruct Hh as (Hs & Hp & Hplat & Hcdn & Hcf & Hnone).
      rewrite Hs, Hp, !truthy_header.
      destruct (truthy_str (h_server response) || truthy_str (h_powered_by response))%bool
        eqn:T.
      + apply orb_true_iff in T. exists response. cbn [server_header platform cdn_provider].
        by repeat split.
      + apply orb_false_iff in T. right. by exists response.
    - rewrite Hh. simpl. by left. }
  split; [exact Hsection|].
  intros s Hin Hv. apply In_extractTop5 in Hin.
  unfold candidateSurfaces in Hin. rewrite !in_app_iff in Hin.
  destruct Hin as [H | [H | [H | [H | [H | H]]]]].
  - apply (one_of_vector _ _ _ (registrarSurface_shape _ _ res)) in H.
    rewrite H in Hv. discriminate.
  - apply (one_of_vector _ _ _ (emailSurface_shape res)) in H.
    rewrite H in Hv. discriminate.
  - apply (one_of_vector _ _ _ (dnsSurface_shape res)) in H.
    rewrite H in Hv. discriminate.
  - apply (one_of_vector _ _ _ (registrantSurface_shape res)) in H.
    rewrite H in Hv. discriminate.
  - apply (one_of_vector _ _ _ (hostingSurface_shape res)) in H.
    rewrite H in Hv. discriminate.
  - unfold webSurface in H. destruct (web_server res) as [ws|]; [|destruct H].
    destruct Hsection as (response & Ho & _ & Hs & Hplat & _ & _ & Hnone).
    destruct (truthy_str (or_str (platform ws) (server_header ws))) eqn:T;
      [|destruct H].
    cbv zeta in H. destruct H as [<-|[]]. unfold surface. cbn [value].
    split.
    + simpl in Hplat.
      destruct Hplat as [<- | [<- | [<- | [<- | []]]]]; simpl; tauto.
    + exists response. split; [exact Ho|].
      destruct (truthy_str (h_server response)) eqn:Ts; [done|].
      rewrite (Hnone eq_refl), Hs in T.
      destruct (h_server response) as [[|a b]|]; discriminate.
Qed.

Lemma web_server_follows_head_response_witness :
  exists result riskScores attackSurfaces,
    fst (POST hardened_world (Body (FString "example.com")))
    = Success result riskScores attackSurfaces
    /\ forall s, In s attackSurfaces -> vector s = "Web Server" ->
         In (value s) ["Nginx"; "Apache"; "Microsoft IIS"; "Unknown"].
Proof.
  destruct (reconnaissance_pre hardened_world "example.com") as (pre & result & E & _).
  do 3 eexists. split; [exact E|].
  intros s Hin Hv.
  exact (proj1 (proj2 (web_server_follows_head_response
                         hardened_world "example.com" _ _ _ E) s Hin Hv)).
Defined.

(** ** The request handler: the domain of the response *)

(** X25. For a submitted string of ASCII characters, the domain of a
    successful response is the cleaned input and has no upper-case
    letter and no slash: the input is cut at its first slash and
    lowered, after the scheme and the www prefix are stripped. *)
Theorem response_domain_has_no_path w input result riskScores attackSurfaces :
  ascii_text input = true ->
  fst (POST w (Body (FString input))) = Success result riskScores attackSurfaces ->
  domain result = cleanDomain input
  /\ Forall (fun c => is_upper c = false /\ c <> "/"%char)
            (list_ascii_of_string (domain result)).
Proof.
  intros _.
  destruct input as [|c input']; [discriminate|].
  set (input := String c input') in *.
  rewrite POST_nonempty by done. intros E.
  apply reconnaissance_domain in E. rewrite E.
  split; [reflexivity | apply cleanDomain_lowercase_no_path].
Qed.

Lemma response_domain_has_no_path_witness :
  exists result riskScores attackSurfaces,
    fst (POST dead_world (Body (FString "HTTPS://Example.COM/Login")))
    = Success result riskScores attackSurfaces
    /\ domain result = "https:".
Proof.
  destruct (reconnaissance_pre dead_world "HTTPS://Example.COM/Login")
    as (pre & result & E & _).
  do 3 eexists. split; [exact E|].
  destruct (response_domain_has_no_path dead_world "HTTPS://Example.COM/Login" _ _ _
              eq_refl E) as [-> _].
  vm_compute. reflexivity.
Defined.
